(** * Emoji-Wrapped: the aggregator and the emoji analyzer

    A shallow embedding of [combine_imessages.py] and [emoji_wrapped.py].
    Both scripts are glue over pandas; the embedding keeps the scripts'
    own control flow (loops, [try]/[except], prints, attribute updates)
    and gives the pandas and [emoji] primitives they call a small
    executable model. *)

From stdpp Require Import gmap strings list fin_maps.
From Stdlib Require Import ZArith QArith Lia Sorted.

Local Open Scope Z_scope.

(** ** Python values *)

Module Py.

(** A Python [str] that holds message text is a sequence of Unicode code
    points; iterating it yields one-character strings.  Column names and
    dictionary attribute names are kept as [string]. *)
Definition pychar : Type := N.
Abbreviation pystr := (list N).

(** The text of an ASCII literal. *)
Definition py (s : string) : pystr :=
  map Ascii.N_of_ascii (String.list_ascii_of_string s).
Arguments py : simpl never.

Inductive Exception : Type :=
| ValueError (msg : string)
| KeyError (key : pystr)
| AttributeError (msg : string)
| TypeError (msg : string)
| ZeroDivisionError
| ParserError (msg : string)
| OSError (msg : string).

Inductive result (A : Type) : Type :=
| Ok (a : A)
| Raise (e : Exception).
Arguments Ok {A} a.
Arguments Raise {A} e.

(** A computation over the mutable state [St] that may raise: the state
    reached so far survives an exception, as it does in Python. *)
Definition M (St A : Type) : Type := St → result A * St.

Section Monad.
Context {St : Type}.

Definition ret {A} (a : A) : M St A := λ s, (Ok a, s).

Definition bind {A B} (m : M St A) (k : A → M St B) : M St B :=
  λ s, match m s with
       | (Ok a, s') => k a s'
       | (Raise e, s') => (Raise e, s')
       end.

Definition raise {A} (e : Exception) : M St A := λ s, (Raise e, s).

Definition lift {A} (r : result A) : M St A := λ s, (r, s).

Definition gets {A} (f : St → A) : M St A := λ s, (Ok (f s), s).

Definition modify (f : St → St) : M St unit := λ s, (Ok tt, f s).

(** [try: body except Exception as e: handler e] *)
Definition try_except {A} (body : M St A) (handler : Exception → M St A)
  : M St A :=
  λ s, match body s with
       | (Ok a, s') => (Ok a, s')
       | (Raise e, s') => handler e s'
       end.

(** [for x in xs: body x] *)
Fixpoint for_each {X} (xs : list X) (body : X → M St unit) : M St unit :=
  match xs with
  | [] => ret tt
  | x :: xs' => bind (body x) (λ _, for_each xs' body)
  end.

(** [if c: body] *)
Definition when (c : bool) (body : M St unit) : M St unit :=
  if c then body else ret tt.
End Monad.

Declare Scope py_scope.
Delimit Scope py_scope with py.
Notation "x <- m ;; k" := (bind m (λ x, k))
  (at level 100, m at next level, right associativity) : py_scope.
Notation "m ;; k" := (bind m (λ _, k))
  (at level 100, right associativity) : py_scope.

End Py.
Import Py.

(** ** The pandas primitives the scripts call *)

Module Pandas.

(** [pandas.Timestamp]; [year] .. [nanosecond] are its calendar fields. *)
Record Timestamp : Type := mkTimestamp {
  year : Z; month : Z; day : Z;
  hour : Z; minute : Z; second : Z; nanosecond : Z
}.

(** Days from 1970-01-01 to a date of the proleptic Gregorian calendar. *)
Definition days_from_civil (y m d : Z) : Z :=
  let y' := if m <=? 2 then y - 1 else y in
  let era := y' / 400 in
  let yoe := y' - era * 400 in
  let mp := if 2 <? m then m - 3 else m + 9 in
  let doy := (153 * mp + 2) / 5 + d - 1 in
  let doe := yoe * 365 + yoe / 4 - yoe / 100 + doy in
  era * 146097 + doe - 719468.

(** [Timestamp.weekday()]: Monday is 0.  1970-01-01 was a Thursday. *)
Definition weekday (t : Timestamp) : Z :=
  (days_from_civil (year t) (month t) (day t) + 3) mod 7.

Definition day_names : list string :=
  ["Monday"; "Tuesday"; "Wednesday"; "Thursday";
   "Friday"; "Saturday"; "Sunday"]%string.

Definition month_names : list string :=
  ["January"; "February"; "March"; "April"; "May"; "June";
   "July"; "August"; "September"; "October"; "November"; "December"]%string.

(** [Timestamp.day_name()] and [Timestamp.month_name()] (English names). *)
Definition day_name (t : Timestamp) : pystr :=
  py (nth (Z.to_nat (weekday t)) day_names ""%string).

Definition month_name (t : Timestamp) : pystr :=
  py (nth (Z.to_nat (month t - 1)) month_names ""%string).

(** A value held in a table: a missing number, a missing timestamp, text,
    numbers, a timestamp, or a Python list of strings. *)
Inductive cell : Type :=
| NaN
| NaT
| Str (s : pystr)
| Int (n : Z)
| Float (q : Q)
| Bool (b : bool)
| Time (t : Timestamp)
| PyList (l : list pystr).

#[global] Instance Q_eq_dec : EqDecision Q.
Proof. solve_decision. Defined.

#[global] Instance Timestamp_eq_dec : EqDecision Timestamp.
Proof. solve_decision. Defined.

#[global] Instance cell_eq_dec : EqDecision cell.
Proof. solve_decision. Defined.

Inductive dtype : Type := int64 | float64 | bool_ | object | datetime64.

#[global] Instance dtype_eq_dec : EqDecision dtype.
Proof. solve_decision. Defined.

(** A row maps column names to values; a column the row has no entry for
    reads as missing. *)
Abbreviation row := (gmap string cell).

Record DataFrame : Type := mkDataFrame {
  columns : list (string * dtype);
  rows : list row
}.

Definition column_names (df : DataFrame) : list string := (columns df).*1.

(** [len(df)] *)
Definition len (df : DataFrame) : nat := length (rows df).

Fixpoint assoc_dtype (col : string) (cols : list (string * dtype))
  : option dtype :=
  match cols with
  | [] => None
  | (c, dt) :: cols' => if decide (c = col) then Some dt else assoc_dtype col cols'
  end.

Definition dtype_of (df : DataFrame) (col : string) : option dtype :=
  assoc_dtype col (columns df).

(** A column of a table: its dtype and its values, in row order. *)
Record Series : Type := mkSeries {
  s_dtype : dtype;
  values : list cell
}.

(** [df[col]]: the column, [KeyError] when there is none of that name. *)
Definition getitem (df : DataFrame) (col : string) : result Series :=
  match dtype_of df col with
  | Some dt => Ok (mkSeries dt (map (λ r : row, default NaN (r !! col)) (rows df)))
  | None => Raise (KeyError (py col))
  end.

Definition set_dtype (col : string) (dt : dtype)
    (cols : list (string * dtype)) : list (string * dtype) :=
  if decide (col ∈ cols.*1)
  then map (λ c, if decide (c.1 = col) then (col, dt) else c) cols
  else cols ++ [(col, dt)].

(** [df[col] = v] with a scalar [v]: every row gets [v]; the column is
    replaced when present and appended after the others when new. *)
Definition setitem_scalar (df : DataFrame) (col : string) (v : cell)
  : DataFrame :=
  {| columns := set_dtype col object (columns df);
     rows := map (λ r : row, <[col := v]> r) (rows df) |}.

Fixpoint zip_insert (col : string) (rs : list row) (vs : list cell)
  : list row :=
  match rs, vs with
  | r :: rs', v :: vs' => <[col := v]> r :: zip_insert col rs' vs'
  | _, _ => []
  end.

(** [df[col] = s] with a column [s] computed from [df] itself (so of the
    same length): row [i] gets the [i]-th value. *)
Definition setitem (df : DataFrame) (col : string) (s : Series) : DataFrame :=
  {| columns := set_dtype col (s_dtype s) (columns df);
     rows := zip_insert col (rows df) (values s) |}.

Fixpoint mask_rows (rs : list row) (mask : list bool) : list row :=
  match rs, mask with
  | r :: rs', b :: mask' =>
      if b then r :: mask_rows rs' mask' else mask_rows rs' mask'
  | _, _ => []
  end.

(** [df[mask]] with a boolean column [mask] computed from [df]. *)
Definition getitem_mask (df : DataFrame) (mask : list bool) : DataFrame :=
  {| columns := columns df; rows := mask_rows (rows df) mask |}.

(** [s.dt.year]: only a datetime column has the [.dt] accessor; a missing
    timestamp has no year (NaN). *)
Definition dt_year (s : Series) : result (list (option Z)) :=
  match s_dtype s with
  | datetime64 =>
      Ok (map (λ c, match c with Time t => Some (year t) | _ => None end)
              (values s))
  | _ => Raise (AttributeError "Can only use .dt accessor with datetimelike values")
  end.

(** [s == k] on a column of optional integers: NaN equals nothing. *)
Definition eq_int (s : list (option Z)) (k : Z) : list bool :=
  map (λ o, match o with Some z => z =? k | None => false end) s.

(** [s == text] on a column: true exactly on the cells holding that text. *)
Definition eq_str (s : Series) (text : pystr) : list bool :=
  map (λ c, match c with Str t => bool_decide (t = text) | _ => false end)
      (values s).

Arguments eq_int : simpl never.
Arguments eq_str : simpl never.

(** [a & b] on boolean columns of one table. *)
Fixpoint and_mask (a b : list bool) : list bool :=
  match a, b with
  | x :: a', y :: b' => (x && y) :: and_mask a' b'
  | _, _ => []
  end.

(** [pd.concat(dfs, ignore_index=True)]: the rows of the tables one after
    the other, under the union of their columns in order of first
    appearance; [ValueError] on an empty list.  The dtype pandas gives a
    column of the result is its own promotion rule, [find_common_type],
    applied to the dtypes the tables have for it ([None]: no such
    column). *)
Definition concat (find_common_type : list (option dtype) → dtype)
    (dfs : list DataFrame) : result DataFrame :=
  match dfs with
  | [] => Raise (ValueError "No objects to concatenate")
  | _ =>
      let names := remove_dups (mjoin (map column_names dfs)) in
      Ok {| columns :=
              map (λ c, (c, find_common_type (map (λ df, dtype_of df c) dfs)))
                  names;
            rows := mjoin (map rows dfs) |}
  end.

(** [s.apply(f)] for an [f] that may raise. *)
Fixpoint apply {A B} (f : A → result B) (xs : list A) : result (list B) :=
  match xs with
  | [] => Ok []
  | x :: xs' =>
      match f x with
      | Raise e => Raise e
      | Ok y => match apply f xs' with
                | Raise e => Raise e
                | Ok ys => Ok (y :: ys)
                end
      end
  end.

(** Iterating a value ([for e in v]) and [len(v)]: a list yields its
    items, a text its one-character strings, anything else is not
    iterable and has no length. *)
Definition py_iter (c : cell) : result (list pystr) :=
  match c with
  | PyList l => Ok l
  | Str s => Ok (map (λ ch, [ch]) s)
  | _ => Raise (TypeError "object is not iterable")
  end.

Definition py_len (c : cell) : result Z :=
  match py_iter c with
  | Ok l => Ok (Z.of_nat (length l))
  | Raise _ => Raise (TypeError "object has no len()")
  end.

(** The integer a cell contributes to [s.sum()]: missing values are
    skipped; text, lists and timestamps cannot be added to a number.
    (The script only sums a column of the ints [len] returned.) *)
Definition summand (c : cell) : result Z :=
  match c with
  | Int n => Ok n
  | Bool b => Ok (if b then 1 else 0)
  | NaN => Ok 0
  | _ => Raise (TypeError "unsupported operand type(s) for +")
  end.

(** [s.sum()] *)
Definition series_sum (s : Series) : result Z :=
  match apply summand (values s) with
  | Ok ns => Ok (foldr Z.add 0 ns)
  | Raise e => Raise e
  end.

(** [s > k] on a column of numbers: a missing value is greater than
    nothing. *)
Definition gt_int (s : Series) (k : Z) : result (list bool) :=
  apply (λ c, match c with
              | Int n => Ok (k <? n)
              | Bool b => Ok (k <? (if b then 1 else 0))
              | NaN => Ok false
              | _ => Raise (TypeError "'>' not supported between these instances")
              end) (values s).

(** [groupby(col).size()]: how many rows carry each key, as a column
    indexed by the distinct keys in ascending order; rows whose key is
    missing are left out. *)
Section GroupBy.
Context {K : Type} (cmp : K → K → comparison).

Fixpoint bump (k : K) (s : list (K * nat)) : list (K * nat) :=
  match s with
  | [] => [(k, 1%nat)]
  | (k', n) :: s' =>
      match cmp k k' with
      | Eq => (k', S n) :: s'
      | Lt => (k, 1%nat) :: (k', n) :: s'
      | Gt => (k', n) :: bump k s'
      end
  end.

Definition groupby_size (keys : list (option K)) : list (K * nat) :=
  foldl (λ s k, match k with Some k => bump k s | None => s end) [] keys.

(** The index of a counted column is ascending: each key is below
    the keys after it. *)
Definition ascending (s : list (K * nat)) : Prop :=
  StronglySorted (λ a b, cmp a.1 b.1 = Lt) s.

(** The value a counted column has at a label, if the label is in its
    index. *)
Fixpoint at_label (k : K) (s : list (K * nat)) : option nat :=
  match s with
  | [] => None
  | (k', n) :: s' =>
      match cmp k k' with Eq => Some n | _ => at_label k s' end
  end.

(** [s.reindex(labels)]: the column re-indexed by [labels], in their
    order; a label that is not in the index of [s] gets a missing
    value (NaN, here [None]). *)
Definition reindex (s : list (K * nat)) (labels : list K)
  : list (K * option nat) :=
  map (λ l, (l, at_label l s)) labels.
End GroupBy.

(** How many of the keys are [k], and the value a re-indexed count has
    for a number of occurrences: missing when there is none. *)
Definition occurrences `{EqDecision K} (k : K) (keys : list (option K))
  : nat :=
  length (filter (λ o, o = Some k) keys).

Definition some_if_pos (n : nat) : option nat :=
  match n with O => None | S _ => Some n end.

Definition pystr_compare : pystr → pystr → comparison :=
  List.list_compare N.compare.

Definition Timestamp_compare (a b : Timestamp) : comparison :=
  List.list_compare Z.compare
    [year a; month a; day a; hour a; minute a; second a; nanosecond a]
    [year b; month b; day b; hour b; minute b; second b; nanosecond b].

(** [collections.Counter(xs)]: the distinct items in order of first
    appearance, each with its number of occurrences. *)
Section Counter.
Context {A : Type} `{EqDecision A}.

Fixpoint count_one (x : A) (c : list (A * nat)) : list (A * nat) :=
  match c with
  | [] => [(x, 1%nat)]
  | (y, n) :: c' =>
      if decide (x = y) then (y, S n) :: c' else (y, n) :: count_one x c'
  end.

Definition Counter (xs : list A) : list (A * nat) :=
  foldl (λ c x, count_one x c) [] xs.

Fixpoint insert_desc (e : A * nat) (l : list (A * nat)) : list (A * nat) :=
  match l with
  | [] => [e]
  | e' :: l' =>
      if (e'.2 <? e.2)%nat then e :: e' :: l' else e' :: insert_desc e l'
  end.

(** [c.most_common(n)]: by decreasing count, items of equal count in
    their order in [c]; [value_counts()] is [most_common] without a
    limit. *)
Definition sort_desc (c : list (A * nat)) : list (A * nat) :=
  foldl (λ acc e, insert_desc e acc) [] c.

Definition most_common (n : nat) (c : list (A * nat)) : list (A * nat) :=
  take n (sort_desc c).

Definition value_counts (xs : list A) : list (A * nat) :=
  sort_desc (Counter xs).
End Counter.

(** How many of the items are [x], and the count a counter holds for [x]
    ([None] when [x] is not in it). *)
Definition count_in `{EqDecision A} (x : A) (xs : list A) : nat :=
  length (filter (λ y, y = x) xs).

Fixpoint count_at `{EqDecision A} (x : A) (c : list (A * nat)) : option nat :=
  match c with
  | [] => None
  | (y, n) :: c' => if decide (x = y) then Some n else count_at x c'
  end.

(** What [df.to_csv(path, index=False)] puts in the file: the header line
    and one record per row. *)
Record csv_artifact : Type := mkCsv {
  header : list string;
  records : list row
}.

Definition to_csv (df : DataFrame) : csv_artifact :=
  {| header := column_names df; records := rows df |}.

(** The value a record of the artifact has in a column. *)
Definition field (col : string) (r : row) : cell := default NaN (r !! col).

End Pandas.
Import Pandas.

(** ** combine_imessages.py *)

Module Aggregator.

(** A [pathlib.Path]: its components from the root. *)
Definition Path : Type := list pystr.

(** [p.parent] and [p.name] *)
Definition parent (p : Path) : Path := List.removelast p.
Definition name (p : Path) : pystr := List.last p [].

(** [p / s] *)
Definition joinpath (p : Path) (s : pystr) : Path := p ++ [s].

(** The part of the outside world the script reads: which files
    [base_path.rglob('*.csv')] yields, in traversal order, and what
    [pd.read_csv] makes of each. *)
Record filesystem : Type := mkFs {
  rglob_csv : Path → list Path;
  read_csv : Path → result DataFrame
}.

(** The lines the script prints. *)
Inductive event : Type :=
| Processed (processed total : nat)
| ErrorProcessing (csv_file : Path) (e : Exception)
| SuccessfullyCombined (n : nat) (output_path : Path)
| TotalRows (n : nat)
| NoCsvFiles.

(** The local variables of [combine_csv_files], the standard output and
    the files written so far. *)
Record state : Type := mkState {
  all_dfs : list DataFrame;
  total_files : nat;
  processed_files : nat;
  stdout : list event;
  written : list (Path * csv_artifact)
}.

Definition init : state :=
  {| all_dfs := []; total_files := 0; processed_files := 0;
     stdout := []; written := [] |}.

Definition append_df (df : DataFrame) (s : state) : state :=
  {| all_dfs := all_dfs s ++ [df]; total_files := total_files s;
     processed_files := processed_files s; stdout := stdout s;
     written := written s |}.

Definition incr_total (s : state) : state :=
  {| all_dfs := all_dfs s; total_files := S (total_files s);
     processed_files := processed_files s; stdout := stdout s;
     written := written s |}.

Definition incr_processed (s : state) : state :=
  {| all_dfs := all_dfs s; total_files := total_files s;
     processed_files := S (processed_files s); stdout := stdout s;
     written := written s |}.

Definition emit (ev : event) (s : state) : state :=
  {| all_dfs := all_dfs s; total_files := total_files s;
     processed_files := processed_files s; stdout := stdout s ++ [ev];
     written := written s |}.

Definition write_file (p : Path) (a : csv_artifact) (s : state) : state :=
  {| all_dfs := all_dfs s; total_files := total_files s;
     processed_files := processed_files s; stdout := stdout s;
     written := written s ++ [(p, a)] |}.

Definition print (ev : event) : M state unit := modify (emit ev).

Section Script.
Context (find_common_type : list (option dtype) → dtype).
Context (fs : filesystem).

Local Open Scope py_scope.

(** The body of the second loop, for one discovered file. *)
Definition process_file (csv_file : Path) : M state unit :=
  try_except
    (df <- lift (read_csv fs csv_file);;
     let df := setitem_scalar df "conversation_id"
                 (Str (name (parent csv_file))) in
     modify (append_df df);;
     modify incr_processed;;
     processed <- gets processed_files;;
     when (processed mod 100 =? 0)%nat
       (total <- gets total_files;;
        print (Processed processed total)))
    (λ e, print (ErrorProcessing csv_file e)).

Definition combine_csv_files (cwd : Path) : M state unit :=
  let base_path := cwd in
  for_each (rglob_csv fs base_path) (λ _, modify incr_total);;
  for_each (rglob_csv fs base_path) process_file;;
  dfs <- gets all_dfs;;
  match dfs with
  | _ :: _ =>
      combined_df <- lift (concat find_common_type dfs);;
      let output_path := joinpath base_path (py "combined_messages.csv") in
      modify (write_file output_path (to_csv combined_df));;
      print (SuccessfullyCombined (length dfs) output_path);;
      print (TotalRows (len combined_df))
  | [] => print NoCsvFiles
  end.

(** One run of the script from a fresh process. *)
Definition run (cwd : Path) : result unit * state :=
  combine_csv_files cwd init.

(** The discovered files that [pd.read_csv] parses, with their tables,
    in traversal order. *)
Definition loaded (files : list Path) : list (Path * DataFrame) :=
  omap (λ p, match read_csv fs p with
             | Ok df => Some (p, df)
             | Raise _ => None
             end) files.

(** A parsed table once the loop has attached its provenance column. *)
Definition tagged (pd : Path * DataFrame) : DataFrame :=
  setitem_scalar pd.2 "conversation_id" (Str (name (parent pd.1))).
End Script.

(** The progress lines and the error lines among the printed lines. *)
Definition progress_of (ev : event) : option (nat * nat) :=
  match ev with
  | Processed processed total => Some (processed, total)
  | _ => None
  end.

Definition error_of (ev : event) : option (Path * Exception) :=
  match ev with
  | ErrorProcessing csv_file e => Some (csv_file, e)
  | _ => None
  end.

(** The discovered files that [pd.read_csv] does not parse, with what it
    raises, in traversal order. *)
Definition failed (fs : filesystem) (files : list Path)
  : list (Path * Exception) :=
  omap (λ p, match read_csv fs p with
             | Ok _ => None
             | Raise e => Some (p, e)
             end) files.

(** The lines the second loop may print. *)
Definition loop_event (ev : event) : Prop :=
  match ev with
  | Processed _ _ | ErrorProcessing _ _ => True
  | _ => False
  end.

(** The provenance column of an artifact, record by record, and the
    number of distinct values of a column. *)
Definition provenance (a : csv_artifact) : list cell :=
  map (field "conversation_id") (Pandas.records a).

Definition distinct `{EqDecision A} (l : list A) : nat :=
  length (remove_dups l).

End Aggregator.

(** ** The [emoji] package's reference table *)

Module Emoji.

(** The values an entry of [emoji.EMOJI_DATA] holds for its attributes
    (names, status, version, aliases, flags). *)
Inductive pyval : Type :=
| PStr (s : pystr)
| PInt (n : Z)
| PFloat (q : Q)
| PBool (b : bool)
| PStrList (l : list pystr).

#[global] Instance pyval_eq_dec : EqDecision pyval.
Proof. solve_decision. Defined.

(** [emoji.EMOJI_DATA]: a dict from emoji strings to dicts of attributes. *)
Abbreviation table := (gmap pystr (gmap string pyval)).

End Emoji.
Import Emoji.

(** ** emoji_wrapped.py *)

Module Analyzer.

(** What is at a path, as the two reads of [load_data] see it: nothing
    readable; a file whose header line parses and whose body does not; or
    a file that parses, with the table
    [pd.read_csv(path, parse_dates=[date_column], low_memory=False)]
    returns for it. *)
Inductive csv_file : Type :=
| Unreadable (e : Exception)
| BadBody (header : list string) (e : Exception)
| Parsed (df : DataFrame).

(** [pd.read_csv(path, nrows=0).columns] *)
Definition read_csv_header (f : csv_file) : result (list string) :=
  match f with
  | Unreadable e => Raise e
  | BadBody header _ => Ok header
  | Parsed df => Ok (column_names df)
  end.

(** [pd.read_csv(path, parse_dates=[date_column], low_memory=False)] *)
Definition read_csv_parse_dates (f : csv_file) : result DataFrame :=
  match f with
  | Unreadable e => Raise e
  | BadBody _ e => Raise e
  | Parsed df => Ok df
  end.

(** One dict appended to [emoji_data]; a field computed from a missing
    timestamp is missing ([None]). *)
Record emoji_record : Type := mkRecord {
  message_date : option Timestamp;
  emoji : pystr;
  hour : option Z;
  day_of_week : option pystr;
  month : option pystr
}.

(** [self.emoji_data]: the records, and the ['category'] column once
    [analyze_categories] has added it.  A table built from no record has
    no column at all. *)
Record EmojiFrame : Type := mkEmojiFrame {
  records : list emoji_record;
  category : option (list pyval)
}.

(** [emoji_data[col]] and [emoji_data.groupby(col)] need the column. *)
Definition column {A} (ed : EmojiFrame) (col : string)
    (proj : emoji_record → A) : result (list A) :=
  match records ed with
  | [] => Raise (KeyError (py col))
  | rs => Ok (map proj rs)
  end.
Arguments column : simpl never.

Inductive figure : Type :=
| TopEmojis (n : nat) (x : list pystr) (y : list nat)
| TimePatterns (hourly : list (Z * nat))
               (daily monthly : list (pystr * option nat))
| UsageOverTime (points : list (Timestamp * nat))
| Categories (slices : list (pyval * nat)).

(** The lines the script prints and the figures it shows. *)
Inductive event : Type :=
| AvailableColumns (cols : list string)
| ReadingCsv
| FoundOutgoing (n : nat)
| ErrorLoading (e : Exception)
| ExtractingEmojis
| ProcessingEmojiData
| FoundEmojiUses (n : nat)
| StatsHeader
| TotalEmojis (n : Z)
| UniqueEmojis (n : nat)
| MessagesContaining (n : nat)
| PercentageWithEmojis (q : Q)
| GeneratingTop (n : nat)
| GeneratingTimePatterns
| GeneratingUsageOverTime
| AnalyzingCategories
| Show (fig : figure)
| StartingAnalysis
| AnalysisComplete
| ErrorDuringAnalysis (e : Exception)
| PleaseCheck.

(** The attributes of an [EmojiAnalyzer] and the standard output. *)
Record state : Type := mkState {
  csv_path : string;
  df : option DataFrame;
  emoji_data : option EmojiFrame;
  date_column : string;
  text_column : string;
  stdout : list event
}.

(** [EmojiAnalyzer(csv_path)] in a fresh process. *)
Definition __init__ (path : string) : state :=
  {| csv_path := path; df := None; emoji_data := None;
     date_column := "Message Date"; text_column := "Text"; stdout := [] |}.

Definition set_df (d : DataFrame) (s : state) : state :=
  {| csv_path := csv_path s; df := Some d; emoji_data := emoji_data s;
     date_column := date_column s; text_column := text_column s;
     stdout := stdout s |}.

Definition set_emoji_data (ed : EmojiFrame) (s : state) : state :=
  {| csv_path := csv_path s; df := df s; emoji_data := Some ed;
     date_column := date_column s; text_column := text_column s;
     stdout := stdout s |}.

Definition emit (ev : event) (s : state) : state :=
  {| csv_path := csv_path s; df := df s; emoji_data := emoji_data s;
     date_column := date_column s; text_column := text_column s;
     stdout := stdout s ++ [ev] |}.

Definition print (ev : event) : M state unit := modify (emit ev).

(** The figures among the printed lines and shown figures. *)
Definition figure_of (ev : event) : option figure :=
  match ev with
  | Show fig => Some fig
  | _ => None
  end.

Local Open Scope py_scope.

(** Reading [self.df] to subscript it: [None] is not subscriptable. *)
Definition the_df : M state DataFrame :=
  o <- gets df;;
  match o with
  | Some d => ret d
  | None => raise (TypeError "'NoneType' object is not subscriptable")
  end.

(** Reading [self.emoji_data] to use it; [on_none] is what using [None]
    that way raises. *)
Definition the_emoji_data (on_none : Exception) : M state EmojiFrame :=
  o <- gets emoji_data;;
  match o with
  | Some ed => ret ed
  | None => raise on_none
  end.

Definition no_groupby : Exception :=
  AttributeError "'NoneType' object has no attribute 'groupby'".

Definition not_subscriptable : Exception :=
  TypeError "'NoneType' object is not subscriptable".

(** [a / b] on Python ints. *)
Definition truediv (a b : Z) : result Q :=
  if b =? 0 then Raise ZeroDivisionError
  else Ok (Qmake (Z.sgn b * a) (Z.to_pos (Z.abs b))).

Definition days_order : list pystr :=
  map py ["Monday"; "Tuesday"; "Wednesday"; "Thursday";
          "Friday"; "Saturday"; "Sunday"]%string.

Definition months_order : list pystr :=
  map py ["January"; "February"; "March"; "April"; "May"; "June";
          "July"; "August"; "September"; "October"; "November";
          "December"]%string.

(** The column names an analyzer is created with; no method changes
    them. *)
Definition wf_state (s : state) : Prop :=
  date_column s = "Message Date"%string ∧ text_column s = "Text"%string.

(** The filter of [load_data] in the words of the specification: a row is
    retained when its timestamp has year 2024 and its direction label is
    ['Outgoing']. *)
Definition retained (r : row) : bool :=
  match field "Message Date" r, field "Type" r with
  | Time t, Str label =>
      (year t =? 2024) && bool_decide (label = py "Outgoing")
  | _, _ => false
  end.

(** A timestamp cell, present or missing. *)
Definition is_date (c : cell) : Prop :=
  match c with Time _ | NaT => True | _ => False end.

(** The table [load_data] leaves in [self.df] for a parsed table, in
    the words of the specification. *)
Definition filtered (d : DataFrame) : DataFrame :=
  {| columns := columns d;
     rows := filter (λ r, retained r = true) (rows d) |}.

Section Script.
Context (EMOJI_DATA : table).
Context (fs : string → csv_file).

Definition missing_column (col : string) : Exception :=
  ValueError ("Could not find '" +:+ col +:+ "' column.").

Definition load_data : M state unit :=
  try_except
    (path <- gets csv_path;;
     columns <- lift (read_csv_header (fs path));;
     date <- gets date_column;;
     (if decide (date ∈ columns) then ret tt
      else print (AvailableColumns columns);;
           raise (missing_column date));;
     text <- gets text_column;;
     (if decide (text ∈ columns) then ret tt
      else print (AvailableColumns columns);;
           raise (missing_column text));;
     print ReadingCsv;;
     d <- lift (read_csv_parse_dates (fs path));;
     modify (set_df d);;
     dates <- lift (getitem d date);;
     years <- lift (dt_year dates);;
     types <- lift (getitem d "Type");;
     let mask := and_mask (eq_int years 2024)
                          (eq_str types (py "Outgoing")) in
     modify (set_df (getitem_mask d mask));;
     d <- the_df;;
     print (FoundOutgoing (len d)))
    (λ e, print (ErrorLoading e);; raise e).

(** [c in emoji.EMOJI_DATA] *)
Definition is_emoji (c : pystr) : Prop := is_Some (EMOJI_DATA !! c).

Definition extract_emojis (text : cell) : list pystr :=
  match text with
  | Str s => filter is_emoji (map (λ ch, [ch]) s)
  | _ => []
  end.

(** The dict appended for one emoji of a row whose timestamp cell is
    [date]: a [Timestamp] gives its fields, [NaT] gives missing values,
    anything else has no [.hour]. *)
Definition make_record (date : cell) (emoji_char : pystr)
  : result emoji_record :=
  match date with
  | Time t => Ok {| message_date := Some t; emoji := emoji_char;
                    hour := Some (Pandas.hour t);
                    day_of_week := Some (day_name t);
                    month := Some (month_name t) |}
  | NaT => Ok {| message_date := None; emoji := emoji_char;
                 hour := None; day_of_week := None; month := None |}
  | _ => Raise (AttributeError "object has no attribute 'hour'")
  end.

(** The inner loop, for one row of [self.df.iterrows()]. *)
Definition expand_row (d : DataFrame) (date : string) (r : row)
  : result (list emoji_record) :=
  match py_iter (default NaN (r !! "emojis")) with
  | Raise e => Raise e
  | Ok [] => Ok []
  | Ok emojis =>
      match dtype_of d date with
      | None => Raise (KeyError (py date))
      | Some _ => apply (make_record (default NaN (r !! date))) emojis
      end
  end.

(** The outer loop: the records of all rows, in row order. *)
Definition expand (d : DataFrame) (date : string)
  : result (list emoji_record) :=
  match apply (expand_row d date) (rows d) with
  | Ok rss => Ok (mjoin rss)
  | Raise e => Raise e
  end.

Definition process_emoji_data : M state unit :=
  print ExtractingEmojis;;
  d <- the_df;;
  text_col <- gets text_column;;
  text <- lift (getitem d text_col);;
  let d := setitem d "emojis"
             (mkSeries object
                (map (λ c, PyList (extract_emojis c)) (values text))) in
  modify (set_df d);;
  emojis <- lift (getitem d "emojis");;
  counts <- lift (apply py_len (values emojis));;
  let d := setitem d "emoji_count" (mkSeries int64 (map Int counts)) in
  modify (set_df d);;
  print ProcessingEmojiData;;
  date <- gets date_column;;
  emoji_data <- lift (expand d date);;
  modify (set_emoji_data {| records := emoji_data; category := None |});;
  print (FoundEmojiUses (length emoji_data)).

(** [[e for emojis in self.df['emojis'] for e in emojis]] *)
Definition all_emojis (d : DataFrame) : result (list pystr) :=
  match getitem d "emojis" with
  | Raise e => Raise e
  | Ok col => match apply py_iter (values col) with
              | Ok ls => Ok (mjoin ls)
              | Raise e => Raise e
              end
  end.

Definition basic_stats : M state unit :=
  d <- the_df;;
  counts <- lift (getitem d "emoji_count");;
  total_emojis <- lift (series_sum counts);;
  es <- lift (all_emojis d);;
  let unique_emojis := length (remove_dups es) in
  counts <- lift (getitem d "emoji_count");;
  mask <- lift (gt_int counts 0);;
  let messages_with_emojis := len (getitem_mask d mask) in
  print StatsHeader;;
  print (TotalEmojis total_emojis);;
  print (UniqueEmojis unique_emojis);;
  print (MessagesContaining messages_with_emojis);;
  ratio <- lift (truediv (Z.of_nat messages_with_emojis)
                         (Z.of_nat (len d)));;
  print (PercentageWithEmojis (ratio * 100)%Q).

Definition top_emojis (n : nat) : M state (list (pystr * nat)) :=
  d <- the_df;;
  es <- lift (all_emojis d);;
  ret (most_common n (Counter es)).

Definition plot_top_emojis (n : nat) : M state unit :=
  print (GeneratingTop n);;
  top_n <- top_emojis n;;
  print (Show (TopEmojis n top_n.*1 top_n.*2)).

Definition plot_time_patterns : M state unit :=
  print GeneratingTimePatterns;;
  ed <- the_emoji_data no_groupby;;
  hours <- lift (column ed "hour" hour);;
  let hourly := groupby_size Z.compare hours in
  days <- lift (column ed "day_of_week" day_of_week);;
  let daily := groupby_size pystr_compare days in
  let daily := reindex pystr_compare daily days_order in
  months <- lift (column ed "month" month);;
  let monthly := groupby_size pystr_compare months in
  let monthly := reindex pystr_compare monthly months_order in
  print (Show (TimePatterns hourly daily monthly)).

Definition plot_usage_over_time : M state unit :=
  print GeneratingUsageOverTime;;
  ed <- the_emoji_data no_groupby;;
  dates <- lift (column ed "message_date" message_date);;
  let daily_counts := groupby_size Timestamp_compare dates in
  print (Show (UsageOverTime daily_counts)).

Definition get_emoji_category (emoji_char : pystr) : result pyval :=
  match EMOJI_DATA !! emoji_char with
  | Some entry => Ok (default (PStr (py "Unknown")) (entry !! "category"))
  | None => Raise (KeyError emoji_char)
  end.

Definition analyze_categories : M state unit :=
  print AnalyzingCategories;;
  ed <- the_emoji_data not_subscriptable;;
  emojis <- lift (column ed "emoji" emoji);;
  cats <- lift (apply get_emoji_category emojis);;
  modify (set_emoji_data {| records := records ed; category := Some cats |});;
  let category_counts := value_counts cats in
  print (Show (Categories category_counts)).

(** The emojis of a row's text, the row once [process_emoji_data] has
    stored them and their number, and the records the row expands to. *)
Definition row_emojis (r : row) : list pystr :=
  extract_emojis (field "Text" r).

Definition with_emojis (r : row) : row :=
  <["emoji_count" := Int (Z.of_nat (length (row_emojis r)))]>
    (<["emojis" := PyList (row_emojis r)]> r).

Definition record_at (date : cell) (emoji_char : pystr) : emoji_record :=
  match date with
  | Time t => {| message_date := Some t; emoji := emoji_char;
                 hour := Some (Pandas.hour t);
                 day_of_week := Some (day_name t);
                 month := Some (month_name t) |}
  | _ => {| message_date := None; emoji := emoji_char;
            hour := None; day_of_week := None; month := None |}
  end.

Definition row_records (r : row) : list emoji_record :=
  map (record_at (field "Message Date" r)) (row_emojis r).

(** [self.df] and the records of [self.emoji_data] after
    [process_emoji_data], for the table [d] it found in [self.df]. *)
Definition processed (d : DataFrame) : DataFrame :=
  {| columns := set_dtype "emoji_count" int64
                  (set_dtype "emojis" object (columns d));
     rows := map with_emojis (rows d) |}.

Definition emoji_records (d : DataFrame) : list emoji_record :=
  mjoin (map row_records (rows d)).

(** The number of retained rows with at least one emoji. *)
Definition messages_with_emojis (d : DataFrame) : nat :=
  length (filter (λ r, row_emojis r ≠ []) (rows d)).

(** The state once [basic_stats] has printed its three counts. *)
Definition stats_printed (d : DataFrame) (s : state) : state :=
  emit (MessagesContaining (messages_with_emojis d))
    (emit (UniqueEmojis
             (length (remove_dups (mjoin (map row_emojis (rows d))))))
       (emit (TotalEmojis (Z.of_nat (length (emoji_records d))))
          (emit StatsHeader s))).

(** The category lookup in the words of the specification: the
    ['category'] of the character's entry, ['Unknown'] for an entry
    without one and for a character the table does not know. *)
Definition spec_category (emoji_char : pystr) : pyval :=
  match EMOJI_DATA !! emoji_char with
  | Some entry => default (PStr (py "Unknown")) (entry !! "category")
  | None => PStr (py "Unknown")
  end.

Definition main : M state unit :=
  try_except
    (print StartingAnalysis;;
     load_data;;
     process_emoji_data;;
     basic_stats;;
     plot_top_emojis 25;;
     plot_time_patterns;;
     plot_usage_over_time;;
     analyze_categories;;
     print AnalysisComplete)
    (λ e, print (ErrorDuringAnalysis e);;
          print PleaseCheck;;
          raise e).

(** One run of the script from a fresh process. *)
Definition run : result unit * state :=
  main (__init__ "./messages/combined_messages.csv").
End Script.

End Analyzer.

(** ** Sample inputs *)

Module Samples.
Import Aggregator.

Definition cwd : Path := [py "home"; py "export"].

Definition message_columns : list (string * dtype) :=
  [("Message Date", object); ("Text", object); ("Type", object)]%string.

Definition message (date text type : string) : row :=
  {[ "Message Date"%string := Str (py date);
     "Text"%string := Str (py text);
     "Type"%string := Str (py type) ]}.

Definition alice_df : DataFrame :=
  mkDataFrame message_columns
    [message "2024-01-01 10:00:00" "hi" "Outgoing";
     message "2024-01-01 10:01:00" "hello" "Incoming"].

Definition bob_df : DataFrame :=
  mkDataFrame message_columns
    [message "2023-12-31 23:59:00" "happy new year" "Outgoing"].

Definition alice_csv : Path := cwd ++ [py "alice"; py "messages.csv"].
Definition bob_csv : Path := cwd ++ [py "bob"; py "messages.csv"].
Definition broken_csv : Path := cwd ++ [py "bob"; py "broken.csv"].

(** Two conversations, and one file that does not parse, found between
    the two. *)
Definition disk : filesystem :=
  {| rglob_csv := λ base,
       if decide (base = cwd) then [alice_csv; broken_csv; bob_csv] else [];
     read_csv := λ p,
       if decide (p = alice_csv) then Ok alice_df
       else if decide (p = bob_csv) then Ok bob_df
       else Raise (ParserError "Error tokenizing data") |}.

Definition alice_2023_csv : Path := cwd ++ [py "alice"; py "2023.csv"].
Definition alice_2024_csv : Path := cwd ++ [py "alice"; py "2024.csv"].

(** Two exports kept in one conversation folder. *)
Definition one_folder : filesystem :=
  {| rglob_csv := λ base,
       if decide (base = cwd) then [alice_2023_csv; alice_2024_csv] else [];
     read_csv := λ p,
       if decide (p = alice_2023_csv) then Ok bob_df
       else if decide (p = alice_2024_csv) then Ok alice_df
       else Raise (OSError "No such file or directory") |}.

(** Only files that do not parse. *)
Definition only_broken : filesystem :=
  {| rglob_csv := λ base, if decide (base = cwd) then [broken_csv] else [];
     read_csv := λ p, Raise (ParserError "Error tokenizing data") |}.

(** The working directory at a second run: the artifact of the first run
    is found too. *)
Definition combined_csv : Path := cwd ++ [py "combined_messages.csv"].

Definition second_run : filesystem :=
  {| rglob_csv := λ base,
       if decide (base = cwd) then [alice_csv; combined_csv] else [];
     read_csv := λ p,
       if decide (p = alice_csv) then Ok alice_df
       else if decide (p = combined_csv)
            then Ok (setitem_scalar alice_df "conversation_id" (Str (py "alice")))
            else Raise (OSError "No such file or directory") |}.

(** A stand-in for pandas' dtype promotion. *)
Definition all_object (dts : list (option dtype)) : dtype := object.

(** The waving hand, the party popper and the grinning face. *)
Definition wave : N := 0x1F44B%N.
Definition party : N := 0x1F389%N.
Definition grin : N := 0x1F600%N.

Definition greeting : pystr :=
  py "Hi " ++ [wave] ++ py " there " ++ [party; party].

(** A reference table that knows two emojis; only one entry has a
    ['category'] attribute. *)
Definition small_table : table :=
  {[ [wave] := {[ "en"%string := PStr (py ":waving_hand:") ]};
     [party] := {[ "en"%string := PStr (py ":party_popper:");
                   "category"%string := PStr (py "Activities") ]} ]}.

Definition new_year_2024 : Timestamp := mkTimestamp 2024 1 1 12 30 0 0.
Definition new_year_2023 : Timestamp := mkTimestamp 2023 1 1 12 30 0 0.

Definition dated (t : Timestamp) (text : pystr) (type : string) : row :=
  {[ "Message Date"%string := Time t;
     "Text"%string := Str text;
     "Type"%string := Str (py type) ]}.

Definition outgoing_2023 : row := dated new_year_2023 greeting "Outgoing".
Definition incoming_2024 : row := dated new_year_2024 greeting "Incoming".
Definition outgoing_2024 : row := dated new_year_2024 greeting "Outgoing".

Definition dated_columns : list (string * dtype) :=
  [("Message Date", datetime64); ("Text", object); ("Type", object)]%string.

Definition inbox : DataFrame :=
  mkDataFrame dated_columns [outgoing_2023; incoming_2024; outgoing_2024].

(** A year of messages none of which the filter retains. *)
Definition old_inbox : DataFrame :=
  mkDataFrame dated_columns [outgoing_2023].

(** An export without the text column. *)
Definition no_text : DataFrame :=
  mkDataFrame [("Message Date", datetime64); ("Type", object)]%string [].

Definition combined_path : string := "./messages/combined_messages.csv".

Definition holding (d : DataFrame) (path : string) : Analyzer.csv_file :=
  if decide (path = combined_path) then Analyzer.Parsed d
  else Analyzer.Unreadable (OSError "No such file or directory").

(** The analyzer once it has loaded a sample file. *)
Definition loaded_from (d : DataFrame) : Analyzer.state :=
  (Analyzer.load_data (holding d) (Analyzer.__init__ combined_path)).2.

(** The analyzer once it has loaded and processed the sample inbox. *)
Definition processed_inbox : Analyzer.state :=
  (Analyzer.process_emoji_data small_table (loaded_from inbox)).2.

(** An export without the direction column, and one whose dates pandas
    could not parse and left as text. *)
Definition no_type : DataFrame :=
  mkDataFrame [("Message Date", datetime64); ("Text", object)]%string
    [{[ "Message Date"%string := Time new_year_2024;
        "Text"%string := Str greeting ]}].

Definition undated : DataFrame :=
  mkDataFrame
    [("Message Date", object); ("Text", object); ("Type", object)]%string
    [message "yesterday" "hi" "Outgoing"].


(** An analyzer whose per-emoji table holds a character the reference
    table does not know. *)
Definition stray : Analyzer.state :=
  Analyzer.set_emoji_data
    {| Analyzer.records := [Analyzer.record_at (Time new_year_2024) [grin]];
       Analyzer.category := None |}
    (Analyzer.__init__ combined_path).
End Samples.

(** * Properties *)

(** ** Sequencing *)

Module PyFacts.
Section Monad.
Context {St A B : Type} (m : M St A) (k : A → M St B).

Lemma bind_ok s a s' : m s = (Ok a, s') → bind m k s = k a s'.
Proof. intros H. unfold bind. now rewrite H. Qed.

Lemma bind_raise s e s' :
  m s = (Raise e, s') → bind m k s = (Raise e, s').
Proof. intros H. unfold bind. now rewrite H. Qed.
End Monad.
End PyFacts.

(** ** The aggregator *)

Module AggregatorFacts.
Import Aggregator.

Section Loop.
Context (find_common_type : list (option dtype) → dtype).
Context (fs : filesystem).

Lemma loaded_nil : loaded fs [] = [].
Proof. reflexivity. Qed.

Lemma loaded_cons_ok p df files :
  read_csv fs p = Ok df → loaded fs (p :: files) = (p, df) :: loaded fs files.
Proof. intros H. unfold loaded. cbn. now rewrite H. Qed.

Lemma loaded_cons_raise p e files :
  read_csv fs p = Raise e → loaded fs (p :: files) = loaded fs files.
Proof. intros H. unfold loaded. cbn. now rewrite H. Qed.

Lemma elem_of_loaded p df files :
  (p, df) ∈ loaded fs files ↔ p ∈ files ∧ read_csv fs p = Ok df.
Proof.
  unfold loaded. rewrite list_elem_of_omap. split.
  - intros (q & Hq & Heq). destruct (read_csv fs q) eqn:E; [|done].
    now simplify_eq.
  - intros [Hp E]. exists p. now rewrite E.
Qed.

(** A file that parses is tagged and appended; nothing else changes
    except for a progress line. *)
Lemma process_file_ok p df s :
  read_csv fs p = Ok df →
  ∃ s', process_file fs p s = (Ok tt, s')
        ∧ all_dfs s' = all_dfs s ++ [tagged (p, df)]
        ∧ processed_files s' = S (processed_files s)
        ∧ total_files s' = total_files s
        ∧ written s' = written s
        ∧ ∃ evs, stdout s' = stdout s ++ evs ∧ Forall loop_event evs
                 ∧ ∀ q e, ErrorProcessing q e ∉ evs.
Proof.
  intros H. unfold process_file, try_except, bind, lift. rewrite H. cbn.
  destruct (_ =? 0)%nat; cbn.
  - eexists; split_and!; eauto.
    eexists [_]; split_and!; eauto.
    + repeat constructor.
    + intros q e Hin. apply list_elem_of_singleton in Hin. discriminate.
  - eexists; split_and!; eauto.
    exists []. rewrite app_nil_r. split_and!; auto.
    intros q e Hin. inversion Hin.
Qed.

(** A file that does not parse is reported, and the loop goes on. *)
Lemma process_file_raise p e s :
  read_csv fs p = Raise e →
  process_file fs p s = (Ok tt, emit (ErrorProcessing p e) s).
Proof.
  intros H. unfold process_file, try_except, bind, lift. now rewrite H.
Qed.

Lemma count_loop (files : list Path) s :
  for_each files (λ _, modify incr_total) s
  = (Ok tt, {| all_dfs := all_dfs s;
               total_files := (length files + total_files s)%nat;
               processed_files := processed_files s;
               stdout := stdout s; written := written s |}).
Proof.
  revert s. induction files as [|p files IH]; intros s.
  - now destruct s.
  - cbn. rewrite IH. cbn. do 2 f_equal. lia.
Qed.

Lemma process_loop files s :
  ∃ s', for_each files (process_file fs) s = (Ok tt, s')
        ∧ all_dfs s' = all_dfs s ++ map tagged (loaded fs files)
        ∧ processed_files s'
          = (processed_files s + length (loaded fs files))%nat
        ∧ total_files s' = total_files s
        ∧ written s' = written s
        ∧ ∃ evs, stdout s' = stdout s ++ evs ∧ Forall loop_event evs
                 ∧ ∀ q e, ErrorProcessing q e ∈ evs
                          ↔ q ∈ files ∧ read_csv fs q = Raise e.
Proof.
  revert s. induction files as [|p files IH]; intros s.
  - exists s. cbn. rewrite !app_nil_r. split_and!; auto.
    exists []. rewrite app_nil_r. split_and!; [done|constructor|].
    intros q e. split; [intros Hin|intros [Hin _]]; inversion Hin.
  - cbn [for_each]. unfold bind at 1.
    destruct (read_csv fs p) as [df|e] eqn:E.
    + destruct (process_file_ok p df s E)
        as (s1 & -> & Hdf & Hp & Ht & Hw & evs1 & Hout & Hev & Hno).
      destruct (IH s1)
        as (s2 & -> & Hdf2 & Hp2 & Ht2 & Hw2 & evs2 & Hout2 & Hev2 & Herr).
      exists s2. rewrite (loaded_cons_ok _ _ _ E). cbn.
      rewrite Hdf2, Hdf, Hp2, Hp, Ht2, Ht, Hw2, Hw, <- app_assoc.
      split_and!; auto; try lia.
      exists (evs1 ++ evs2). rewrite Hout2, Hout, <- app_assoc.
      split_and!; [done|now apply Forall_app|].
      intros q e. rewrite elem_of_app, Herr, elem_of_cons. split.
      * intros [Hin|[Hin Hr]]; [now apply Hno in Hin|auto].
      * intros [[->|Hin] Hr]; [congruence|auto].
    + rewrite (process_file_raise p e s E).
      destruct (IH (emit (ErrorProcessing p e) s))
        as (s2 & -> & Hdf2 & Hp2 & Ht2 & Hw2 & evs2 & Hout2 & Hev2 & Herr).
      exists s2. rewrite (loaded_cons_raise _ _ _ E).
      split_and!; auto.
      exists (ErrorProcessing p e :: evs2). rewrite Hout2. cbn.
      rewrite <- app_assoc. split_and!; [done|now constructor|].
      intros q e'. rewrite elem_of_cons, Herr, elem_of_cons. split.
      * intros [Heq|[Hin Hr]]; [simplify_eq; auto|auto].
      * intros [[->|Hin] Hr]; [left; congruence|auto].
Qed.

(** What one run of the script leaves behind: it never raises; it
    prints the loop's lines and then either the two summary lines,
    after writing the rows of every parsed file, or the "no files"
    line, writing nothing. *)
Lemma run_spec cwd :
  ∃ s evs,
    run find_common_type fs cwd = (Ok tt, s)
    ∧ Forall loop_event evs
    ∧ (∀ q e, ErrorProcessing q e ∈ evs
              ↔ q ∈ rglob_csv fs cwd ∧ read_csv fs q = Raise e)
    ∧ match loaded fs (rglob_csv fs cwd) with
      | [] => written s = [] ∧ stdout s = evs ++ [NoCsvFiles]
      | l =>
          ∃ art,
            written s = [(joinpath cwd (py "combined_messages.csv"), art)]
            ∧ Pandas.records art = mjoin (map (λ pd, rows (tagged pd)) l)
            ∧ stdout s
              = evs ++ [SuccessfullyCombined (length l)
                          (joinpath cwd (py "combined_messages.csv"));
                        TotalRows (length (Pandas.records art))]
      end.
Proof.
  unfold run, combine_csv_files. unfold bind at 1.
  rewrite count_loop. unfold bind at 1.
  match goal with |- context [for_each _ _ ?s0] =>
    destruct (process_loop (rglob_csv fs cwd) s0)
      as (s1 & -> & Hdf & _ & _ & Hw & evs & Hout & Hev & Herr)
  end.
  cbn in Hdf, Hw, Hout. unfold bind at 1, gets. rewrite Hdf.
  destruct (loaded fs (rglob_csv fs cwd)) as [|pd l] eqn:El; cbn.
  - exists (emit NoCsvFiles s1), evs. cbn. rewrite Hw, Hout. auto.
  - eexists _, evs. split; [reflexivity|]. cbn.
    rewrite Hw, Hout, length_map. split_and!; auto.
    eexists. split_and!; [reflexivity| |].
    + cbn. now rewrite <- list_fmap_compose.
    + now rewrite <- app_assoc.
Qed.
End Loop.
End AggregatorFacts.

Module AggregatorClaims.
Import Aggregator AggregatorFacts.

Lemma length_rows_tagged pd : length (rows (tagged pd)) = len pd.2.
Proof. unfold tagged, len. cbn. apply length_map. Qed.

Lemma provenance_tagged pd :
  map (field "conversation_id") (rows (tagged pd))
  = replicate (len pd.2) (Str (name (parent pd.1))).
Proof.
  unfold tagged, len. cbn. induction (rows pd.2) as [|r rs IH]; [done|].
  cbn. rewrite IH. f_equal. unfold field. now rewrite lookup_insert_eq.
Qed.

(** C1. When at least one discovered file parses, the run writes one
    artifact, [combined_messages.csv] in the working directory, whose
    number of rows is the sum of the numbers of rows of the files that
    parsed; that number is also the total the script reports. *)
Theorem C1_combined_row_count
    (find_common_type : list (option dtype) → dtype)
    (fs : filesystem) (cwd : Path) :
  loaded fs (rglob_csv fs cwd) ≠ [] →
  ∃ s art,
    run find_common_type fs cwd = (Ok tt, s)
    ∧ written s = [(joinpath cwd (py "combined_messages.csv"), art)]
    ∧ length (Pandas.records art)
      = sum_list (map (λ pd, len pd.2) (loaded fs (rglob_csv fs cwd)))
    ∧ TotalRows
        (sum_list (map (λ pd, len pd.2) (loaded fs (rglob_csv fs cwd))))
      ∈ stdout s.
Proof.
  intros Hne.
  destruct (run_spec find_common_type fs cwd) as (s & evs & Hrun & _ & _ & H).
  destruct (loaded fs (rglob_csv fs cwd)) as [|pd l]; [done|].
  destruct H as (art & Hw & Hrec & Hout).
  assert (Hlen : length (Pandas.records art)
                 = sum_list (map (λ pd, len pd.2) (pd :: l))).
  { rewrite Hrec, length_join. f_equal.
    change (length <$> map (λ pd0, rows (tagged pd0)) (pd :: l))
      with (map length (map (λ pd0, rows (tagged pd0)) (pd :: l))).
    rewrite map_map. apply map_ext. intros a. apply length_rows_tagged. }
  exists s, art. split_and!; auto.
  rewrite Hout, <- Hlen. set_solver.
Qed.

Lemma C1_combined_row_count_witness :
  loaded Samples.disk (rglob_csv Samples.disk Samples.cwd) ≠ []
  ∧ ∃ s art,
      run Samples.all_object Samples.disk Samples.cwd = (Ok tt, s)
      ∧ written s
        = [(joinpath Samples.cwd (py "combined_messages.csv"), art)]
      ∧ length (Pandas.records art)
        = sum_list (map (λ pd, len pd.2)
                      (loaded Samples.disk
                         (rglob_csv Samples.disk Samples.cwd)))
      ∧ TotalRows
          (sum_list (map (λ pd, len pd.2)
                       (loaded Samples.disk
                          (rglob_csv Samples.disk Samples.cwd))))
        ∈ stdout s.
Proof.
  assert (H : loaded Samples.disk (rglob_csv Samples.disk Samples.cwd) ≠ [])
    by (vm_compute; discriminate).
  split; [exact H|].
  exact (C1_combined_row_count Samples.all_object Samples.disk Samples.cwd H).
Defined.

(** C6. The run never raises.  Every file that does not parse is
    reported with its error; what is written holds exactly the rows of
    the files that parsed, those found after a failing file included, in
    traversal order; and when no file is found or none parses, nothing is
    written and the last line printed says that no file was found or
    processed. *)
Theorem C6_failed_files_skipped
    (find_common_type : list (option dtype) → dtype)
    (fs : filesystem) (cwd : Path) :
  ∃ s,
    run find_common_type fs cwd = (Ok tt, s)
    ∧ (∀ p e, p ∈ rglob_csv fs cwd → read_csv fs p = Raise e →
              ErrorProcessing p e ∈ stdout s)
    ∧ (∀ out art, (out, art) ∈ written s →
         Pandas.records art
         = mjoin (map (λ pd, rows (tagged pd))
                    (loaded fs (rglob_csv fs cwd))))
    ∧ (loaded fs (rglob_csv fs cwd) ≠ [] → length (written s) = 1%nat)
    ∧ (rglob_csv fs cwd = []
       ∨ Forall (λ p, ∃ e, read_csv fs p = Raise e) (rglob_csv fs cwd) →
       written s = [] ∧ last (stdout s) = Some NoCsvFiles).
Proof.
  destruct (run_spec find_common_type fs cwd)
    as (s & evs & Hrun & _ & Herr & H).
  exists s. split; [exact Hrun|].
  assert (Hlog : ∀ p e, p ∈ rglob_csv fs cwd → read_csv fs p = Raise e →
                        ErrorProcessing p e ∈ stdout s).
  { intros p e Hp He.
    assert (ErrorProcessing p e ∈ evs) by (apply Herr; auto).
    destruct (loaded fs (rglob_csv fs cwd)).
    - destruct H as [_ ->]. apply elem_of_app. now left.
    - destruct H as (art & _ & _ & ->). apply elem_of_app. now left. }
  split; [exact Hlog|].
  assert (Hnone : rglob_csv fs cwd = []
                  ∨ Forall (λ p, ∃ e, read_csv fs p = Raise e)
                      (rglob_csv fs cwd) →
                  loaded fs (rglob_csv fs cwd) = []).
  { intros Hall.
    assert (Hf : Forall (λ p, ∃ e, read_csv fs p = Raise e)
                   (rglob_csv fs cwd)).
    { destruct Hall as [->|Hf]; [constructor|exact Hf]. }
    destruct (loaded fs (rglob_csv fs cwd)) as [|[p df] l] eqn:El; [done|].
    assert (Hin : (p, df) ∈ loaded fs (rglob_csv fs cwd))
      by (rewrite El; left).
    apply elem_of_loaded in Hin as [Hin Hok].
    rewrite Forall_forall in Hf. destruct (Hf p Hin) as [e He]. congruence. }
  destruct (loaded fs (rglob_csv fs cwd)) as [|pd l] eqn:El.
  - destruct H as [Hw Hout]. split_and!.
    + intros out art Hin. rewrite Hw in Hin. inversion Hin.
    + done.
    + intros _. split; [exact Hw|]. rewrite Hout. apply last_snoc.
  - destruct H as (art & Hw & Hrec & Hout). split_and!.
    + intros out art' Hin. rewrite Hw in Hin.
      apply list_elem_of_singleton in Hin. now simplify_eq.
    + intros _. now rewrite Hw.
    + intros Hall. now apply Hnone in Hall.
Qed.

Lemma C6_failed_files_skipped_witness :
  ∃ s,
    run Samples.all_object Samples.disk Samples.cwd = (Ok tt, s)
    ∧ ErrorProcessing Samples.broken_csv
        (ParserError "Error tokenizing data") ∈ stdout s
    ∧ map (λ w, length (Pandas.records w.2)) (written s) = [3%nat].
Proof.
  destruct (C6_failed_files_skipped
              Samples.all_object Samples.disk Samples.cwd)
    as (s & Hrun & Hlog & Hrec & Hone & _).
  exists s. split; [exact Hrun|]. split.
  - apply Hlog; [|reflexivity]. vm_compute.
    apply list_elem_of_In. right. left. reflexivity.
  - assert (Hne : loaded Samples.disk (rglob_csv Samples.disk Samples.cwd)
                  ≠ []) by (vm_compute; discriminate).
    specialize (Hone Hne).
    destruct (written s) as [|[out art] [|w ws]]; try discriminate Hone.
    cbn. rewrite (Hrec out art) by left. reflexivity.
Defined.

(** The provenance column of the artifact: for each parsed file, in
    order, its parent directory's name once per row. *)
Lemma provenance_joined (l : list (Path * DataFrame)) :
  map (field "conversation_id") (mjoin (map (λ pd, rows (tagged pd)) l))
  = mjoin (map (λ pd, replicate (len pd.2) (Str (name (parent pd.1)))) l).
Proof.
  induction l as [|pd l IH]; [done|].
  change (map (field "conversation_id")
            (rows (tagged pd) ++ mjoin (map (λ pd, rows (tagged pd)) l))
          = replicate (len pd.2) (Str (name (parent pd.1)))
            ++ mjoin (map (λ pd, replicate (len pd.2)
                                   (Str (name (parent pd.1)))) l)).
  now rewrite map_app, IH, provenance_tagged.
Qed.

Lemma elem_of_provenance_joined (l : list (Path * DataFrame)) v :
  v ∈ mjoin (map (λ pd, replicate (len pd.2) (Str (name (parent pd.1)))) l)
  ↔ ∃ p df, (p, df) ∈ l ∧ rows df ≠ [] ∧ v = Str (name (parent p)).
Proof.
  induction l as [|[p df] l IH].
  - cbn. split; [intros H; inversion H|].
    intros (p & df & H & _). inversion H.
  - change (v ∈ replicate (len df) (Str (name (parent p)))
              ++ mjoin (map (λ pd, replicate (len pd.2)
                                     (Str (name (parent pd.1)))) l)
            ↔ ∃ q df', (q, df') ∈ (p, df) :: l ∧ rows df' ≠ []
                       ∧ v = Str (name (parent q))).
    rewrite elem_of_app, IH, elem_of_replicate.
    unfold len. split.
    + intros [[-> Hlen]|(q & df' & Hin & Hne & ->)].
      * exists p, df. split_and!; [left|by destruct (rows df)|done].
      * exists q, df'. split_and!; [by right|done|done].
    + intros (q & df' & Hin & Hne & ->).
      apply elem_of_cons in Hin as [Heq|Hin].
      * simplify_eq. left. split; [done|]. by destruct (rows df).
      * right. eauto.
Qed.

Lemma distinct_le_length `{EqDecision A} {B}
    (f : B → A) (l : list A) (k : list B) :
  (∀ x, x ∈ l → x ∈ map f k) → (distinct l ≤ length k)%nat.
Proof.
  intros Hsub. unfold distinct.
  rewrite <- (length_map f k).
  apply submseteq_length, NoDup_submseteq; [apply NoDup_remove_dups|].
  intros x Hx. apply Hsub. rewrite elem_of_remove_dups in Hx. exact Hx.
Qed.

Lemma distinct_eq_length `{EqDecision A} (l k : list A) :
  NoDup k → (∀ x, x ∈ l ↔ x ∈ k) → distinct l = length k.
Proof.
  intros Hk Heq. unfold distinct. apply Permutation_length.
  apply NoDup_Permutation; [apply NoDup_remove_dups|exact Hk|].
  intros x. now rewrite elem_of_remove_dups.
Qed.

(** C5 as stated fails: two files that parse, kept in one folder, give a
    provenance column with one distinct value, not two. *)
Lemma C5_counterexample :
  length (loaded Samples.one_folder
            (rglob_csv Samples.one_folder Samples.cwd)) = 2%nat
  ∧ map (λ w, distinct (provenance w.2))
        (written (run Samples.all_object Samples.one_folder Samples.cwd).2)
    = [1%nat].
Proof. split; vm_compute; reflexivity. Qed.

(** C5, amended.  When at least one discovered file parses, every value
    of the provenance column of the artifact is the name of the parent
    directory of a parsed file that has at least one row, and every such
    name occurs; so the column has at most as many distinct values as
    there are parsed files, and exactly as many when the parsed files all
    have a row and no two of them have parent directories of one name. *)
Theorem C5_provenance_values
    (find_common_type : list (option dtype) → dtype)
    (fs : filesystem) (cwd : Path) :
  loaded fs (rglob_csv fs cwd) ≠ [] →
  ∃ s art,
    run find_common_type fs cwd = (Ok tt, s)
    ∧ written s = [(joinpath cwd (py "combined_messages.csv"), art)]
    ∧ (∀ v, v ∈ provenance art
            ↔ ∃ p df, (p, df) ∈ loaded fs (rglob_csv fs cwd)
                      ∧ rows df ≠ [] ∧ v = Str (name (parent p)))
    ∧ (distinct (provenance art)
       ≤ length (loaded fs (rglob_csv fs cwd)))%nat
    ∧ (NoDup (map (λ pd, name (parent pd.1)) (loaded fs (rglob_csv fs cwd)))
       → Forall (λ pd, rows pd.2 ≠ []) (loaded fs (rglob_csv fs cwd))
       → distinct (provenance art)
         = length (loaded fs (rglob_csv fs cwd))).
Proof.
  intros Hne.
  destruct (run_spec find_common_type fs cwd) as (s & evs & Hrun & _ & _ & H).
  destruct (loaded fs (rglob_csv fs cwd)) as [|pd0 l0] eqn:El; [done|].
  destruct H as (art & Hw & Hrec & _).
  set (l := pd0 :: l0) in *. clearbody l. clear Hne El pd0 l0.
  assert (Hprov : ∀ v, v ∈ provenance art
            ↔ ∃ p df, (p, df) ∈ l ∧ rows df ≠ [] ∧ v = Str (name (parent p))).
  { intros v. unfold provenance.
    now rewrite Hrec, provenance_joined, elem_of_provenance_joined. }
  exists s, art. split_and!; auto.
  - apply (distinct_le_length (λ pd, Str (name (parent pd.1)))).
    intros v Hv. apply Hprov in Hv as (p & df & Hin & _ & ->).
    apply list_elem_of_fmap. now exists (p, df).
  - intros Hnd Hrows.
    rewrite <- (length_map (λ pd, Str (name (parent pd.1))) l).
    apply distinct_eq_length.
    + rewrite <- (map_map (λ pd, name (parent pd.1)) Str).
      assert (Inj eq eq Str) by (intros a b Hab; now injection Hab).
      now apply (NoDup_fmap_2 Str).
    + intros v. rewrite Hprov. split.
      * intros (p & df & Hin & _ & ->).
        apply list_elem_of_fmap. now exists (p, df).
      * intros Hin. apply list_elem_of_fmap in Hin as ([p df] & -> & Hin).
        exists p, df. split_and!; auto.
        rewrite Forall_forall in Hrows. exact (Hrows _ Hin).
Qed.

Lemma C5_provenance_values_witness :
  loaded Samples.disk (rglob_csv Samples.disk Samples.cwd) ≠ []
  ∧ ∃ s art,
      run Samples.all_object Samples.disk Samples.cwd = (Ok tt, s)
      ∧ written s
        = [(joinpath Samples.cwd (py "combined_messages.csv"), art)]
      ∧ distinct (provenance art) = 2%nat.
Proof.
  assert (H : loaded Samples.disk (rglob_csv Samples.disk Samples.cwd) ≠ [])
    by (vm_compute; discriminate).
  split; [exact H|].
  destruct (C5_provenance_values Samples.all_object Samples.disk
              Samples.cwd H) as (s & art & Hrun & Hw & _ & _ & Heq).
  exists s, art. split_and!; auto.
  rewrite Heq.
  - vm_compute. reflexivity.
  - vm_compute. apply NoDup_ListNoDup.
    constructor; [intros [Hc|[]]; discriminate Hc|].
    constructor; [intros []|constructor].
  - vm_compute. repeat constructor; discriminate.
Defined.
End AggregatorClaims.

(** ** Counting by key *)

Module GroupByFacts.

Section Generic.
Context {K : Type} `{EqDecision K} (cmp : K → K → comparison).
Hypothesis cmp_eq : ∀ x y, cmp x y = Eq ↔ x = y.
Hypothesis cmp_antisym : ∀ x y, cmp y x = CompOpp (cmp x y).
Hypothesis cmp_trans :
  ∀ x y z, cmp x y = Lt → cmp y z = Lt → cmp x z = Lt.

Local Abbreviation ascending := (ascending cmp).

Lemma cmp_refl x : cmp x x = Eq.
Proof. now apply cmp_eq. Qed.

Lemma cmp_gt_lt x y : cmp x y = Gt → cmp y x = Lt.
Proof. intros H. now rewrite cmp_antisym, H. Qed.

Lemma at_label_below k (s : list (K * nat)) :
  Forall (λ e, cmp k e.1 = Lt) s → at_label cmp k s = None.
Proof.
  induction 1 as [|[k0 n] s Hlt _ IH]; [done|]. cbn in *.
  now rewrite Hlt.
Qed.

Lemma at_label_bump k k' s :
  ascending s →
  at_label cmp k' (bump cmp k s)
  = match cmp k' k with
    | Eq => Some (S (default 0%nat (at_label cmp k s)))
    | _ => at_label cmp k' s
    end.
Proof.
  induction 1 as [|[k0 n] s Hs IH Hall]; cbn.
  - now destruct (cmp k' k).
  - destruct (cmp k k0) eqn:Ek; cbn.
    + apply cmp_eq in Ek as ->. now destruct (cmp k' k0).
    + destruct (cmp k' k) eqn:Ek'; try reflexivity.
      rewrite at_label_below; [done|].
      eapply Forall_impl; [exact Hall|]. cbn. intros e He. eauto.
    + rewrite IH. destruct (cmp k' k) eqn:Ek'; try reflexivity.
      apply cmp_eq in Ek' as ->. now rewrite Ek.
Qed.

Lemma bump_keys k s e :
  e ∈ bump cmp k s → e.1 = k ∨ ∃ e', e' ∈ s ∧ e'.1 = e.1.
Proof.
  induction s as [|[k0 n] s IH]; cbn.
  - intros H. apply list_elem_of_singleton in H as ->. now left.
  - destruct (cmp k k0) eqn:Ek.
    + intros H. apply elem_of_cons in H as [->|H].
      * right. exists (k0, n). split; [left|done].
      * right. exists e. split; [now right|done].
    + intros H. apply elem_of_cons in H as [->|H]; [now left|].
      right. now exists e.
    + intros H. apply elem_of_cons in H as [->|H].
      * right. exists (k0, n). split; [left|done].
      * destruct (IH H) as [?|(e' & He' & Heq)]; [now left|].
        right. exists e'. split; [now right|done].
Qed.

Lemma bump_ascending k s : ascending s → ascending (bump cmp k s).
Proof.
  induction 1 as [|[k0 n] s Hs IH Hall]; cbn.
  - repeat constructor.
  - destruct (cmp k k0) eqn:Ek.
    + constructor; [exact Hs|exact Hall].
    + constructor; [now constructor|].
      constructor; [exact Ek|].
      eapply Forall_impl; [exact Hall|]. cbn. intros e He. eauto.
    + constructor; [exact IH|].
      apply Forall_forall. intros e He.
      apply bump_keys in He as [->|(e' & He' & <-)].
      * now apply cmp_gt_lt.
      * rewrite Forall_forall in Hall. now apply Hall.
Qed.

Lemma occurrences_app k (l1 l2 : list (option K)) :
  occurrences k (l1 ++ l2) = (occurrences k l1 + occurrences k l2)%nat.
Proof. unfold occurrences. now rewrite filter_app, length_app. Qed.

Lemma occurrences_one k k0 :
  occurrences k [Some k0]
  = match cmp k k0 with Eq => 1%nat | _ => 0%nat end.
Proof.
  unfold occurrences. destruct (cmp k k0) eqn:Ek.
  - apply cmp_eq in Ek as ->. now rewrite filter_cons_True.
  - rewrite filter_cons_False; [done|].
    intros [= ->]. now rewrite cmp_refl in Ek.
  - rewrite filter_cons_False; [done|].
    intros [= ->]. now rewrite cmp_refl in Ek.
Qed.

Lemma default_some_if_pos n : default 0%nat (some_if_pos n) = n.
Proof. now destruct n. Qed.

(** The counting loop keeps the index ascending and the counts
    exact. *)
Lemma groupby_loop keys : ∀ acc seen,
  ascending acc →
  (∀ k, at_label cmp k acc = some_if_pos (occurrences k seen)) →
  ascending
    (foldl (λ s k, match k with Some k => bump cmp k s | None => s end)
           acc keys)
  ∧ ∀ k,
      at_label cmp k
        (foldl (λ s k, match k with Some k => bump cmp k s | None => s end)
               acc keys)
      = some_if_pos (occurrences k (seen ++ keys)).
Proof.
  induction keys as [|o keys IH]; intros acc seen Hasc Hcount.
  - rewrite app_nil_r. auto.
  - change (seen ++ o :: keys) with (seen ++ [o] ++ keys).
    rewrite app_assoc. cbn [foldl]. apply IH.
    + destruct o; [now apply bump_ascending|exact Hasc].
    + intros k. rewrite occurrences_app. destruct o as [k0|].
      * rewrite at_label_bump, !Hcount, default_some_if_pos by done.
        rewrite occurrences_one. destruct (cmp k k0) eqn:Ek.
        -- apply cmp_eq in Ek as ->. now rewrite Nat.add_1_r.
        -- now rewrite Nat.add_0_r.
        -- now rewrite Nat.add_0_r.
      * rewrite Hcount. unfold occurrences at 3.
        rewrite filter_cons_False by done. cbn.
        now rewrite Nat.add_0_r.
Qed.

Lemma groupby_size_ascending keys : ascending (groupby_size cmp keys).
Proof.
  apply (groupby_loop keys [] []); [constructor|done].
Qed.

Lemma at_label_groupby_size keys k :
  at_label cmp k (groupby_size cmp keys)
  = some_if_pos (occurrences k keys).
Proof.
  now destruct (groupby_loop keys [] [] (SSorted_nil _) (λ _, eq_refl))
    as [_ H].
Qed.

Lemma at_label_elem_of k n s :
  ascending s → (k, n) ∈ s ↔ at_label cmp k s = Some n.
Proof.
  induction 1 as [|[k0 m] s Hs IH Hall]; cbn.
  - split; [intros H; inversion H|discriminate].
  - rewrite elem_of_cons, IH. destruct (cmp k k0) eqn:Ek.
    + apply cmp_eq in Ek as ->. split.
      * intros [[= ->]|H]; [done|].
        apply IH in H. rewrite Forall_forall in Hall.
        specialize (Hall _ H). cbn in Hall.
        now rewrite cmp_refl in Hall.
      * intros [= ->]. now left.
    + split; [|now right]. intros [[= -> ->]|H]; [|done].
      now rewrite cmp_refl in Ek.
    + split; [|now right]. intros [[= -> ->]|H]; [|done].
      now rewrite cmp_refl in Ek.
Qed.

(** A key is in the index of the counted column exactly when it
    occurs, and its value is its number of occurrences. *)
Lemma elem_of_groupby_size keys k n :
  (k, n) ∈ groupby_size cmp keys
  ↔ n = occurrences k keys ∧ n ≠ 0%nat.
Proof.
  rewrite (at_label_elem_of _ _ _ (groupby_size_ascending keys)).
  rewrite at_label_groupby_size.
  destruct (occurrences k keys) as [|m]; cbn.
  - split; [discriminate|]. now intros [-> H].
  - split; [intros [= <-]; split; done|]. now intros [-> _].
Qed.

(** Re-indexing the counted column gives every label, in the order
    asked for, with its number of occurrences, or a missing value when
    it does not occur. *)
Lemma reindex_groupby_size keys labels :
  reindex cmp (groupby_size cmp keys) labels
  = map (λ l, (l, some_if_pos (occurrences l keys))) labels.
Proof.
  unfold reindex. apply map_ext. intros l.
  now rewrite at_label_groupby_size.
Qed.
End Generic.

Lemma pystr_compare_eq x y : pystr_compare x y = Eq ↔ x = y.
Proof. apply List.list_compare_refl, N.compare_eq_iff. Qed.

Lemma pystr_compare_antisym x y :
  pystr_compare y x = CompOpp (pystr_compare x y).
Proof.
  apply List.list_compare_antisym; [apply N.compare_eq_iff|].
  intros a b. apply N.compare_antisym.
Qed.

Lemma N_compare_trans (x y z : N) c :
  (x ?= y)%N = c → (y ?= z)%N = c → (x ?= z)%N = c.
Proof.
  destruct c.
  - rewrite !N.compare_eq_iff. congruence.
  - rewrite !N.compare_lt_iff. lia.
  - rewrite !N.compare_gt_iff. lia.
Qed.

Lemma pystr_compare_trans x y z :
  pystr_compare x y = Lt → pystr_compare y z = Lt → pystr_compare x z = Lt.
Proof.
  apply List.list_compare_trans.
  - apply N.compare_eq_iff.
  - intros a b c o. apply N_compare_trans.
  - intros a b. apply N.compare_antisym.
Qed.

Lemma Z_compare_trans (x y z : Z) :
  (x ?= y) = Lt → (y ?= z) = Lt → (x ?= z) = Lt.
Proof. rewrite !Z.compare_lt_iff. lia. Qed.
End GroupByFacts.

(** ** The analyzer *)

Module AnalyzerFacts.
Import Analyzer.

Lemma assoc_dtype_Some col cols dt :
  assoc_dtype col cols = Some dt → col ∈ cols.*1.
Proof.
  induction cols as [|[c d] cols IH]; [done|]. cbn.
  destruct (decide (c = col)) as [->|Hne]; [left|].
  intros H. right. auto.
Qed.

Lemma assoc_dtype_is_Some col cols :
  col ∈ cols.*1 ↔ is_Some (assoc_dtype col cols).
Proof.
  induction cols as [|[c d] cols IH]; cbn.
  - split; [intros H; inversion H|intros [? H]; discriminate H].
  - destruct (decide (c = col)) as [->|Hne].
    + split; [eauto|left].
    + rewrite elem_of_cons, IH. cbn. split; [|auto].
      intros [Heq|H]; [congruence|exact H].
Qed.

Lemma dtype_of_set_dtype_eq col dt cols :
  assoc_dtype col (set_dtype col dt cols) = Some dt.
Proof.
  unfold set_dtype. destruct (decide (col ∈ cols.*1)) as [Hin|Hnin].
  - induction cols as [|[c d] cols IH]; [inversion Hin|]. cbn.
    destruct (decide (c = col)) as [->|Hne]; cbn.
    + now rewrite decide_True.
    + rewrite decide_False by done. apply IH.
      apply elem_of_cons in Hin as [Heq|Hin]; [cbn in Heq; congruence|done].
  - induction cols as [|[c d] cols IH]; cbn.
    + now rewrite decide_True.
    + cbn in Hnin. apply not_elem_of_cons in Hnin as [Hne Hnin].
      rewrite decide_False by congruence. now apply IH.
Qed.

Lemma dtype_of_set_dtype_ne col col' dt cols :
  col ≠ col' →
  assoc_dtype col' (set_dtype col dt cols) = assoc_dtype col' cols.
Proof.
  intros Hne. unfold set_dtype. destruct (decide (col ∈ cols.*1)) as [Hin|Hnin].
  - clear Hin. induction cols as [|[c d] cols IH]; [done|]. cbn.
    destruct (decide (c = col)) as [->|Hc]; cbn.
    + rewrite !decide_False by done. apply IH.
    + rewrite IH. reflexivity.
  - clear Hnin. induction cols as [|[c d] cols IH]; cbn.
    + now rewrite decide_False.
    + now rewrite IH.
Qed.

Lemma zip_insert_map {A} col (h : A → row) (f : A → cell) (xs : list A) :
  zip_insert col (map h xs) (map f xs) = map (λ x, <[col := f x]> (h x)) xs.
Proof. induction xs as [|x xs IH]; [done|]. cbn. now rewrite IH. Qed.

Lemma apply_total {A B} (f : A → result B) (g : A → B) (xs : list A) :
  Forall (λ x, f x = Ok (g x)) xs → apply f xs = Ok (map g xs).
Proof.
  induction 1 as [|x xs Hx _ IH]; [done|]. cbn. now rewrite Hx, IH.
Qed.

Lemma and_mask_map {A} (f g : A → bool) (xs : list A) :
  and_mask (map f xs) (map g xs) = map (λ x, f x && g x) xs.
Proof. induction xs as [|x xs IH]; [done|]. cbn. now rewrite IH. Qed.

Lemma mask_rows_map (f : row → bool) (rs : list row) :
  mask_rows rs (map f rs) = filter (λ r, f r = true) rs.
Proof.
  induction rs as [|r rs IH]; [done|]. cbn [map mask_rows]. rewrite IH.
  destruct (f r) eqn:E.
  - now rewrite filter_cons_True.
  - rewrite filter_cons_False; [done|]. rewrite E. discriminate.
Qed.

(** The mask of [load_data] keeps the rows the specification retains. *)
Lemma mask_rows_retained (d : DataFrame) dt' :
  mask_rows (rows d)
    (and_mask
       (eq_int (map (λ c, match c with Time t => Some (year t) | _ => None end)
                    (map (λ r : row, default NaN (r !! "Message Date"))
                         (rows d)))
               2024)
       (eq_str (mkSeries dt'
                  (map (λ r : row, default NaN (r !! "Type")) (rows d)))
               (py "Outgoing")))
  = filter (λ r, retained r = true) (rows d).
Proof.
  unfold eq_int, eq_str. cbn [values]. rewrite !map_map, and_mask_map.
  rewrite <- mask_rows_map. f_equal. apply map_ext. intros r.
  unfold retained, field.
  destruct (default NaN (r !! "Message Date")); try reflexivity.
  destruct (default NaN (r !! "Type")); rewrite ?andb_false_r; reflexivity.
Qed.

Section Load.
Context (fs : string → csv_file).

Ltac step := unfold load_data, try_except, bind, gets, lift, raise,
             print, modify, the_df, ret; cbn.

(** The header cannot be read: the error is reported and raised again. *)
Lemma load_data_header_raise s e :
  read_csv_header (fs (csv_path s)) = Raise e →
  load_data fs s = (Raise e, emit (ErrorLoading e) s).
Proof. intros H. step. now rewrite H. Qed.

Lemma load_data_missing_date s cols :
  read_csv_header (fs (csv_path s)) = Ok cols →
  date_column s ∉ cols →
  load_data fs s
  = (Raise (missing_column (date_column s)),
     emit (ErrorLoading (missing_column (date_column s)))
       (emit (AvailableColumns cols) s)).
Proof. intros H Hd. step. rewrite H. cbn. now rewrite decide_False. Qed.

Lemma load_data_missing_text s cols :
  read_csv_header (fs (csv_path s)) = Ok cols →
  date_column s ∈ cols →
  text_column s ∉ cols →
  load_data fs s
  = (Raise (missing_column (text_column s)),
     emit (ErrorLoading (missing_column (text_column s)))
       (emit (AvailableColumns cols) s)).
Proof.
  intros H Hd Ht. step. rewrite H. cbn.
  rewrite decide_True by done. cbn. now rewrite decide_False.
Qed.

Lemma load_data_ok s d :
  wf_state s →
  fs (csv_path s) = Parsed d →
  dtype_of d "Message Date" = Some datetime64 →
  "Text"%string ∈ column_names d →
  is_Some (dtype_of d "Type") →
  load_data fs s
  = (Ok tt,
     emit (FoundOutgoing (len (filtered d)))
       (set_df (filtered d) (emit ReadingCsv s))).
Proof.
  intros [Hdc Htc] Hf Hdt Htx [dt' Hty].
  assert (Hd : "Message Date"%string ∈ column_names d)
    by (eapply assoc_dtype_Some; exact Hdt).
  destruct s as [path odf oed dc tc out]. cbn in Hdc, Htc, Hf. subst dc tc.
  step. rewrite Hf. cbn.
  rewrite !decide_True by done. cbn.
  unfold getitem. rewrite Hdt. cbn. unfold dt_year. cbn.
  rewrite Hty. cbn.
  unfold getitem_mask. cbn [rows columns].
  now rewrite mask_rows_retained.
Qed.

(** [load_data] returns only in the case of [load_data_ok]. *)
Lemma load_data_inv s s1 :
  wf_state s →
  load_data fs s = (Ok tt, s1) →
  ∃ d, fs (csv_path s) = Parsed d
       ∧ dtype_of d "Message Date" = Some datetime64
       ∧ "Text"%string ∈ column_names d
       ∧ is_Some (dtype_of d "Type")
       ∧ s1 = emit (FoundOutgoing (len (filtered d)))
                (set_df (filtered d) (emit ReadingCsv s)).
Proof.
  intros Hwf Hrun. pose proof Hwf as [Hdc Htc].
  destruct (fs (csv_path s)) as [e|header e|d] eqn:Hf.
  - rewrite (load_data_header_raise s e) in Hrun; [discriminate|].
    now rewrite Hf.
  - exfalso. revert Hrun.
    destruct s as [path odf oed dc tc out]. cbn in Hdc, Htc, Hf. subst dc tc.
    step. rewrite Hf. cbn.
    destruct (decide (_ ∈ header)); cbn; [|discriminate].
    destruct (decide (_ ∈ header)); cbn; discriminate.
  - destruct (decide ("Text"%string ∈ column_names d)) as [Htx|Htx].
    2:{ exfalso. revert Hrun.
        destruct s as [path odf oed dc tc out]. cbn in Hdc, Htc, Hf.
        subst dc tc. step. rewrite Hf. cbn.
        destruct (decide (_ ∈ column_names d)); cbn; [|discriminate].
        rewrite decide_False by done. discriminate. }
    destruct (dtype_of d "Message Date") as [dt|] eqn:Hdt.
    2:{ exfalso. revert Hrun.
        destruct s as [path odf oed dc tc out]. cbn in Hdc, Htc, Hf.
        subst dc tc. step. rewrite Hf. cbn.
        destruct (decide (_ ∈ column_names d)); cbn; [|discriminate].
        rewrite decide_True by done. cbn.
        unfold getitem. rewrite Hdt. discriminate. }
    assert (dt = datetime64 ∧ is_Some (dtype_of d "Type")) as [-> Hty].
    { revert Hrun.
      destruct s as [path odf oed dc tc out]. cbn in Hdc, Htc, Hf.
      subst dc tc. step. rewrite Hf. cbn.
      destruct (decide (_ ∈ column_names d)); cbn; [|discriminate].
      rewrite decide_True by done. cbn.
      unfold getitem. rewrite Hdt. cbn. unfold dt_year. cbn.
      destruct dt; cbn; try discriminate.
      destruct (dtype_of d "Type"); cbn; [eauto|discriminate]. }
    exists d. split_and!; auto.
    rewrite (load_data_ok s d Hwf Hf Hdt Htx Hty) in Hrun. congruence.
Qed.

(** With both required columns in the header, [load_data] goes on to
    read the file: it prints the reading line first, and after it only
    the row count or the error of the read or of the filter. *)
Lemma load_data_present s cols :
  wf_state s →
  read_csv_header (fs (csv_path s)) = Ok cols →
  "Message Date"%string ∈ cols →
  "Text"%string ∈ cols →
  ∃ r s1 ev,
    load_data fs s = (r, s1)
    ∧ stdout s1 = stdout s ++ [ReadingCsv; ev]
    ∧ match r with
      | Ok _ => ∃ n, ev = FoundOutgoing n
      | Raise e => ev = ErrorLoading e
      end.
Proof.
  intros [Hdc Htc] Hh Hd Ht.
  destruct s as [path odf oed dc tc out]. cbn in Hdc, Htc, Hh. subst dc tc.
  step. rewrite Hh. cbn. rewrite !decide_True by done. cbn.
  destruct (read_csv_parse_dates (fs path)) as [d|e]; cbn.
  2:{ eexists _, _, _. split; [reflexivity|]. cbn.
      rewrite <- app_assoc. split; reflexivity. }
  destruct (getitem d "Message Date") as [dates|e]; cbn.
  2:{ eexists _, _, _. split; [reflexivity|]. cbn.
      rewrite <- app_assoc. split; reflexivity. }
  destruct (dt_year dates) as [years|e]; cbn.
  2:{ eexists _, _, _. split; [reflexivity|]. cbn.
      rewrite <- app_assoc. split; reflexivity. }
  destruct (getitem d "Type") as [types|e]; cbn.
  2:{ eexists _, _, _. split; [reflexivity|]. cbn.
      rewrite <- app_assoc. split; reflexivity. }
  eexists _, _, _. split; [reflexivity|]. cbn.
  rewrite <- app_assoc. split; [reflexivity|eauto].
Qed.
End Load.

Lemma apply_map_total {A B C} (f : B → result C) (h : A → B) (g : A → C)
    (xs : list A) :
  Forall (λ x, f (h x) = Ok (g x)) xs → apply f (map h xs) = Ok (map g xs).
Proof.
  induction 1 as [|x xs Hx _ IH]; [done|]. cbn. now rewrite Hx, IH.
Qed.

Lemma getitem_present d col :
  col ∈ column_names d →
  ∃ dt, getitem d col = Ok (mkSeries dt (map (field col) (rows d))).
Proof.
  intros Hin. apply assoc_dtype_is_Some in Hin as [dt Hdt].
  exists dt. unfold getitem, dtype_of. now rewrite Hdt.
Qed.

Section Process.
Context (EMOJI_DATA : table).

Local Abbreviation row_emojis := (row_emojis EMOJI_DATA).
Local Abbreviation with_emojis := (with_emojis EMOJI_DATA).
Local Abbreviation row_records := (row_records EMOJI_DATA).
Local Abbreviation processed := (processed EMOJI_DATA).
Local Abbreviation emoji_records := (emoji_records EMOJI_DATA).

Lemma field_with_emojis_emojis r :
  field "emojis" (with_emojis r) = PyList (row_emojis r).
Proof.
  unfold field, Analyzer.with_emojis.
  rewrite lookup_insert_ne by done. now rewrite lookup_insert_eq.
Qed.

Lemma field_with_emojis_count r :
  field "emoji_count" (with_emojis r)
  = Int (Z.of_nat (length (row_emojis r))).
Proof. unfold field, Analyzer.with_emojis. now rewrite lookup_insert_eq. Qed.

Lemma field_with_emojis_other col r :
  col ≠ "emojis"%string → col ≠ "emoji_count"%string →
  field col (with_emojis r) = field col r.
Proof.
  intros H1 H2. unfold field, Analyzer.with_emojis.
  now rewrite !lookup_insert_ne by done.
Qed.

Lemma dtype_of_processed d col :
  col ≠ "emojis"%string → col ≠ "emoji_count"%string →
  dtype_of (processed d) col = dtype_of d col.
Proof.
  intros H1 H2. unfold dtype_of, Analyzer.processed. cbn.
  now rewrite !dtype_of_set_dtype_ne by done.
Qed.

Lemma make_record_date c e :
  is_date c → make_record c e = Ok (record_at c e).
Proof. destruct c; cbn; intros H; try done. Qed.

Lemma expand_row_processed d r :
  is_Some (dtype_of d "Message Date") →
  is_date (field "Message Date" r) →
  expand_row (processed d) "Message Date" (with_emojis r)
  = Ok (row_records r).
Proof.
  intros [dt Hdt] Hdate. unfold expand_row.
  fold (field "emojis" (with_emojis r)).
  fold (field "Message Date" (with_emojis r)).
  rewrite field_with_emojis_emojis. cbn [py_iter].
  unfold Analyzer.row_records.
  destruct (row_emojis r) as [|e es] eqn:E; [done|].
  rewrite dtype_of_processed, Hdt by done.
  rewrite field_with_emojis_other by done.
  apply apply_total. apply Forall_forall. intros x _.
  now apply make_record_date.
Qed.

Lemma expand_processed d :
  is_Some (dtype_of d "Message Date") →
  Forall (λ r, is_date (field "Message Date" r)) (rows d) →
  expand (processed d) "Message Date" = Ok (emoji_records d).
Proof.
  intros Hdt Hrows. unfold expand, Analyzer.processed. cbn [rows].
  rewrite (apply_map_total _ _ row_records); [done|].
  eapply Forall_impl; [exact Hrows|].
  intros r Hr. now apply expand_row_processed.
Qed.

Ltac step := unfold process_emoji_data, basic_stats, try_except, bind,
             gets, lift, raise, print, modify, the_df, ret; cbn.

Lemma process_emoji_data_ok s d :
  wf_state s →
  df s = Some d →
  "Text"%string ∈ column_names d →
  is_Some (dtype_of d "Message Date") →
  Forall (λ r, is_date (field "Message Date" r)) (rows d) →
  process_emoji_data EMOJI_DATA s
  = (Ok tt,
     emit (FoundEmojiUses (length (emoji_records d)))
       (set_emoji_data {| records := emoji_records d; category := None |}
          (emit ProcessingEmojiData
             (set_df (processed d) (emit ExtractingEmojis s))))).
Proof.
  intros [Hdc Htc] Hdf Htx Hdt Hrows.
  destruct s as [path odf oed dc tc out]. cbn in Hdc, Htc, Hdf.
  subst dc tc odf.
  destruct (getitem_present d "Text" Htx) as [dt Htext].
  assert (Hd1 : setitem d "emojis"
            {| s_dtype := object;
               values := map (λ c, PyList (extract_emojis EMOJI_DATA c))
                           (map (field "Text") (rows d)) |}
          = {| columns := set_dtype "emojis" object (columns d);
               rows := map (λ r, <["emojis" := PyList (row_emojis r)]> r)
                           (rows d) |}).
  { unfold setitem. cbn. f_equal. rewrite map_map.
    rewrite <- (map_id (rows d)) at 1.
    apply (zip_insert_map "emojis" id (λ r, PyList (row_emojis r))). }
  step. rewrite Htext. cbn. rewrite Hd1.
  unfold getitem at 1, dtype_of. cbn [columns rows].
  rewrite dtype_of_set_dtype_eq. cbn.
  rewrite map_map.
  rewrite (apply_map_total py_len _
             (λ r, Z.of_nat (length (row_emojis r)))); cycle 1.
  { apply Forall_forall. intros r _. cbn.
    now rewrite lookup_insert_eq. }
  cbn.
  assert (Hd2 : setitem
            {| columns := set_dtype "emojis" object (columns d);
               rows := map (λ r, <["emojis" := PyList (row_emojis r)]> r)
                           (rows d) |}
            "emoji_count"
            {| s_dtype := int64;
               values := map Int
                           (map (λ r, Z.of_nat (length (row_emojis r)))
                                (rows d)) |}
          = processed d).
  { unfold setitem, Analyzer.processed. cbn. f_equal.
    rewrite map_map.
    apply (zip_insert_map "emoji_count"
             (λ r, <["emojis" := PyList (row_emojis r)]> r)
             (λ r, Int (Z.of_nat (length (row_emojis r))))). }
  rewrite Hd2. rewrite (expand_processed d Hdt Hrows). reflexivity.
Qed.

Lemma length_emoji_records d :
  length (emoji_records d) = length (mjoin (map row_emojis (rows d))).
Proof.
  unfold Analyzer.emoji_records. rewrite !length_join. f_equal.
  induction (rows d) as [|r rs IH]; [done|]. cbn. f_equal; [|exact IH].
  unfold Analyzer.row_records. apply length_map.
Qed.

Lemma sum_emoji_counts (rs : list row) :
  foldr Z.add 0 (map (λ r, Z.of_nat (length (row_emojis r))) rs)
  = Z.of_nat (length (mjoin (map row_emojis rs))).
Proof.
  induction rs as [|r rs IH]; [done|].
  change (Z.of_nat (length (row_emojis r))
          + foldr Z.add 0 (map (λ r, Z.of_nat (length (row_emojis r))) rs)
          = Z.of_nat (length (row_emojis r
                              ++ mjoin (map row_emojis rs)))).
  rewrite IH, length_app. lia.
Qed.

Lemma length_mask_rows_map {A} (h : A → row) (f : A → bool) (xs : list A) :
  length (mask_rows (map h xs) (map f xs))
  = length (filter (λ x, f x = true) xs).
Proof.
  induction xs as [|x xs IH]; [done|]. cbn [map mask_rows].
  destruct (f x) eqn:E.
  - rewrite filter_cons_True by done. cbn. now rewrite IH.
  - rewrite filter_cons_False; [done|]. rewrite E. discriminate.
Qed.

Lemma messages_with_emojis_mask (rs : list row) :
  length (filter (λ r, (0 <? Z.of_nat (length (row_emojis r))) = true) rs)
  = length (filter (λ r, row_emojis r ≠ []) rs).
Proof.
  f_equal. apply list_filter_iff. intros r.
  destruct (row_emojis r) as [|e es]; cbn; split; try done.
Qed.

(** [basic_stats] on the table [process_emoji_data] stored: the three
    counts are printed, then the percentage, unless its division
    raises. *)
Lemma basic_stats_processed s d :
  df s = Some (processed d) →
  basic_stats s
  = match truediv (Z.of_nat (messages_with_emojis EMOJI_DATA d))
                  (Z.of_nat (len d)) with
    | Ok q => (Ok tt, emit (PercentageWithEmojis (q * 100)%Q)
                        (stats_printed EMOJI_DATA d s))
    | Raise e => (Raise e, stats_printed EMOJI_DATA d s)
    end.
Proof.
  intros Hdf.
  destruct s as [path odf oed dc tc out]. cbn in Hdf. subst odf.
  step. unfold getitem, dtype_of. cbn [columns rows Analyzer.processed].
  rewrite dtype_of_set_dtype_eq. cbn.
  unfold series_sum. cbn [values]. rewrite map_map.
  rewrite (apply_map_total summand _
             (λ r, Z.of_nat (length (row_emojis r)))); cycle 1.
  { apply Forall_forall. intros r _.
    fold (field "emoji_count" (with_emojis r)).
    now rewrite field_with_emojis_count. }
  unfold all_emojis, getitem, dtype_of.
  cbn [columns rows Analyzer.processed].
  rewrite dtype_of_set_dtype_ne, dtype_of_set_dtype_eq by done.
  cbn. rewrite map_map.
  rewrite (apply_map_total py_iter _ row_emojis); cycle 1.
  { apply Forall_forall. intros r _.
    fold (field "emojis" (with_emojis r)).
    now rewrite field_with_emojis_emojis. }
  cbn. unfold gt_int. cbn [values]. rewrite ?map_map.
  rewrite (apply_map_total _ _
             (λ r, 0 <? Z.of_nat (length (row_emojis r)))); cycle 1.
  { apply Forall_forall. intros r _.
    fold (field "emoji_count" (with_emojis r)).
    now rewrite field_with_emojis_count. }
  cbn. unfold len, getitem_mask. cbn [rows].
  rewrite length_mask_rows_map, messages_with_emojis_mask.
  rewrite sum_emoji_counts, <- length_emoji_records, length_map.
  fold (messages_with_emojis EMOJI_DATA d).
  unfold Analyzer.stats_printed.
  destruct (truediv _ _); reflexivity.
Qed.

(** The sum of the ['emoji_count'] column is the number of records. *)
Lemma emoji_count_sum d :
  ∃ counts, getitem (processed d) "emoji_count" = Ok counts
            ∧ series_sum counts = Ok (Z.of_nat (length (emoji_records d))).
Proof.
  eexists. split.
  - unfold getitem, dtype_of. cbn [columns rows Analyzer.processed].
    rewrite dtype_of_set_dtype_eq. reflexivity.
  - unfold series_sum. cbn [values]. rewrite map_map.
    rewrite (apply_map_total summand _
               (λ r, Z.of_nat (length (row_emojis r)))).
    + now rewrite sum_emoji_counts, length_emoji_records.
    + apply Forall_forall. intros r _.
      fold (field "emoji_count" (with_emojis r)).
      now rewrite field_with_emojis_count.
Qed.

Section Main.
Context (fs : string → csv_file).

(** An error of [load_data] ends the run: [main] reports it and
    raises it again. *)
Lemma main_load_raise s e s1 :
  load_data fs (emit StartingAnalysis s) = (Raise e, s1) →
  main EMOJI_DATA fs s
  = (Raise e, emit PleaseCheck (emit (ErrorDuringAnalysis e) s1)).
Proof.
  intros H. unfold main, try_except.
  erewrite PyFacts.bind_ok by reflexivity.
  erewrite PyFacts.bind_raise by exact H. reflexivity.
Qed.

Lemma main_stats_raise s s1 s2 e s3 :
  load_data fs (emit StartingAnalysis s) = (Ok tt, s1) →
  process_emoji_data EMOJI_DATA s1 = (Ok tt, s2) →
  basic_stats s2 = (Raise e, s3) →
  main EMOJI_DATA fs s
  = (Raise e, emit PleaseCheck (emit (ErrorDuringAnalysis e) s3)).
Proof.
  intros H1 H2 H3. unfold main, try_except.
  erewrite PyFacts.bind_ok by reflexivity.
  erewrite PyFacts.bind_ok by exact H1.
  erewrite PyFacts.bind_ok by exact H2.
  erewrite PyFacts.bind_raise by exact H3. reflexivity.
Qed.
End Main.
End Process.

(** What [load_data] establishes when it returns. *)
Lemma load_data_ready fs s s1 :
  wf_state s →
  load_data fs s = (Ok tt, s1) →
  ∃ d0, fs (csv_path s) = Parsed d0
        ∧ df s1 = Some (filtered d0)
        ∧ emoji_data s1 = emoji_data s
        ∧ stdout s1
          = stdout s ++ [ReadingCsv; FoundOutgoing (len (filtered d0))]
        ∧ wf_state s1
        ∧ "Text"%string ∈ column_names (filtered d0)
        ∧ is_Some (dtype_of (filtered d0) "Message Date")
        ∧ Forall (λ r, is_date (field "Message Date" r))
            (rows (filtered d0)).
Proof.
  intros Hwf Hrun.
  destruct (load_data_inv fs s s1 Hwf Hrun) as (d0 & Hf & Hdt & Htx & Hty & ->).
  exists d0. split_and!.
  - exact Hf.
  - reflexivity.
  - reflexivity.
  - cbn. now rewrite <- app_assoc.
  - exact Hwf.
  - exact Htx.
  - change (dtype_of (filtered d0) "Message Date")
      with (dtype_of d0 "Message Date"). rewrite Hdt. eauto.
  - cbn. apply Forall_forall. intros r Hr.
    apply list_elem_of_filter in Hr as [Hr _]. unfold retained in Hr.
    destruct (field "Message Date" r); try discriminate. exact I.
Qed.
End AnalyzerFacts.

Module AnalyzerClaims.
Import Analyzer AnalyzerFacts.

Lemma retained_spec (r : row) :
  retained r = true
  ↔ (∃ t, field "Message Date" r = Time t ∧ year t = 2024)
    ∧ field "Type" r = Str (py "Outgoing").
Proof.
  unfold retained.
  destruct (field "Message Date" r) eqn:Ed;
    try (split; [discriminate|intros [(t & Ht & _) _]; discriminate Ht]).
  destruct (field "Type" r) eqn:Et;
    try (split; [discriminate|intros [_ Ht]; discriminate Ht]).
  rewrite andb_true_iff, Z.eqb_eq, bool_decide_eq_true. split.
  - intros [Hy ->]. eauto.
  - intros [(t' & Ht & Hy) Hs]. simplify_eq. auto.
Qed.

(** C2. For a file that parses with a datetime ['Message Date'] column, a
    ['Text'] column and a ['Type'] column, [load_data] returns, and the
    table it leaves in [self.df] holds, in their order, exactly the rows
    of the file whose timestamp has year 2024 and whose ['Type'] is
    ['Outgoing']: a row is kept if and only if both hold. *)
Theorem C2_filter_year_and_direction
    (fs : string → csv_file) (s : state) (d : DataFrame) :
  wf_state s →
  fs (csv_path s) = Parsed d →
  dtype_of d "Message Date" = Some datetime64 →
  "Text"%string ∈ column_names d →
  is_Some (dtype_of d "Type") →
  ∃ s1 d1,
    load_data fs s = (Ok tt, s1)
    ∧ df s1 = Some d1
    ∧ rows d1 = filter (λ r, retained r = true) (rows d)
    ∧ ∀ r, r ∈ rows d1
           ↔ r ∈ rows d
             ∧ (∃ t, field "Message Date" r = Time t ∧ year t = 2024)
             ∧ field "Type" r = Str (py "Outgoing").
Proof.
  intros Hwf Hf Hdt Htx Hty.
  exists (emit (FoundOutgoing (len (filtered d)))
            (set_df (filtered d) (emit ReadingCsv s))), (filtered d).
  split; [now apply load_data_ok|]. split; [reflexivity|].
  split; [reflexivity|].
  intros r. cbn. rewrite list_elem_of_filter, retained_spec. tauto.
Qed.

Lemma C2_filter_year_and_direction_witness :
  ∃ s1 d1,
    load_data (Samples.holding Samples.inbox)
      (__init__ Samples.combined_path) = (Ok tt, s1)
    ∧ df s1 = Some d1
    ∧ rows d1 = [Samples.outgoing_2024].
Proof.
  assert (Hwf : wf_state (__init__ Samples.combined_path))
    by (split; reflexivity).
  assert (Htx : "Text"%string ∈ column_names Samples.inbox)
    by (apply list_elem_of_In; vm_compute; tauto).
  assert (Hty : is_Some (dtype_of Samples.inbox "Type"))
    by (eexists; reflexivity).
  destruct (C2_filter_year_and_direction
              (Samples.holding Samples.inbox)
              (__init__ Samples.combined_path) Samples.inbox
              Hwf eq_refl eq_refl Htx Hty)
    as (s1 & d1 & Hrun & Hdf & Hrows & _).
  exists s1, d1. split_and!; [exact Hrun|exact Hdf|].
  rewrite Hrows. vm_compute. reflexivity.
Defined.

(** C7. With the header read: when ['Message Date'] or ['Text'] is not in
    it, [load_data] prints the available columns and raises the error
    that names the first missing column, after reporting it, and [main]
    reports it and raises it again, so the run ends; when both are in it,
    [load_data] prints no list of columns and goes on to read the file,
    and whatever it raises then is the error of the read or of the
    filter. *)
Theorem C7_required_columns
    (EMOJI_DATA : table) (fs : string → csv_file) (s : state)
    (cols : list string) :
  wf_state s →
  read_csv_header (fs (csv_path s)) = Ok cols →
  ("Message Date"%string ∉ cols ∨ "Text"%string ∉ cols →
   ∃ col,
     (col = "Message Date"%string ∨ col = "Text"%string)
     ∧ (col ∉ cols)
     ∧ load_data fs s
       = (Raise (missing_column col),
          emit (ErrorLoading (missing_column col))
            (emit (AvailableColumns cols) s))
     ∧ main EMOJI_DATA fs s
       = (Raise (missing_column col),
          emit PleaseCheck
            (emit (ErrorDuringAnalysis (missing_column col))
               (emit (ErrorLoading (missing_column col))
                  (emit (AvailableColumns cols)
                     (emit StartingAnalysis s))))))
  ∧ ("Message Date"%string ∈ cols → "Text"%string ∈ cols →
     ∃ r s1 ev,
       load_data fs s = (r, s1)
       ∧ stdout s1 = stdout s ++ [ReadingCsv; ev]
       ∧ match r with
         | Ok _ => ∃ n, ev = FoundOutgoing n
         | Raise e => ev = ErrorLoading e
         end).
Proof.
  intros Hwf Hh. split.
  - intros Hmiss. pose proof Hwf as [Hdc Htc].
    destruct (decide ("Message Date"%string ∈ cols)) as [Hd|Hd].
    + assert (Ht : "Text"%string ∉ cols) by tauto.
      exists "Text"%string. split_and!; auto.
      * pose proof (load_data_missing_text fs s cols Hh) as H.
        rewrite Hdc, Htc in H. auto.
      * apply main_load_raise.
        pose proof (load_data_missing_text fs (emit StartingAnalysis s)
                      cols Hh) as H.
        cbn [date_column text_column emit] in H.
        rewrite Hdc, Htc in H. auto.
    + exists "Message Date"%string. split_and!; auto.
      * pose proof (load_data_missing_date fs s cols Hh) as H.
        rewrite Hdc in H. auto.
      * apply main_load_raise.
        pose proof (load_data_missing_date fs (emit StartingAnalysis s)
                      cols Hh) as H.
        cbn [date_column emit] in H. rewrite Hdc in H. auto.
  - intros Hd Ht. exact (load_data_present fs s cols Hwf Hh Hd Ht).
Qed.

Lemma C7_required_columns_witness :
  ∃ s1,
    load_data (Samples.holding Samples.no_text)
      (__init__ Samples.combined_path)
    = (Raise (ValueError "Could not find 'Text' column."), s1)
    ∧ stdout s1
      = [AvailableColumns ["Message Date"; "Type"]%string;
         ErrorLoading (ValueError "Could not find 'Text' column.")].
Proof.
  assert (Hwf : wf_state (__init__ Samples.combined_path))
    by (split; reflexivity).
  destruct (C7_required_columns Samples.small_table
              (Samples.holding Samples.no_text)
              (__init__ Samples.combined_path)
              ["Message Date"; "Type"]%string Hwf eq_refl) as [Hmiss _].
  destruct Hmiss as (col & [->| ->] & Hnin & Hload & _).
  - right. intros Hin. apply list_elem_of_In in Hin.
    cbn in Hin. intuition discriminate.
  - exfalso. apply Hnin. left.
  - eexists. split; [exact Hload|]. reflexivity.
Defined.

(** C8. After a load that returned, [process_emoji_data] returns, and
    [basic_stats] then prints its three counts and divides by the number
    of retained rows: with no row retained the division raises
    [ZeroDivisionError], which [basic_stats] lets through and which ends
    the run in [main]; with at least one row retained the division has a
    value and [basic_stats] prints the percentage and returns. *)
Theorem C8_empty_division
    (EMOJI_DATA : table) (fs : string → csv_file) (s s1 : state) :
  wf_state s →
  load_data fs s = (Ok tt, s1) →
  ∃ d s2,
    df s1 = Some d
    ∧ process_emoji_data EMOJI_DATA s1 = (Ok tt, s2)
    ∧ (rows d = [] →
       basic_stats s2
       = (Raise ZeroDivisionError, stats_printed EMOJI_DATA d s2)
       ∧ ∀ s0, s = emit StartingAnalysis s0 →
               main EMOJI_DATA fs s0
               = (Raise ZeroDivisionError,
                  emit PleaseCheck
                    (emit (ErrorDuringAnalysis ZeroDivisionError)
                       (stats_printed EMOJI_DATA d s2))))
    ∧ (rows d ≠ [] →
       ∃ q, truediv (Z.of_nat (messages_with_emojis EMOJI_DATA d))
                    (Z.of_nat (len d)) = Ok q
            ∧ basic_stats s2
              = (Ok tt, emit (PercentageWithEmojis (q * 100)%Q)
                          (stats_printed EMOJI_DATA d s2))).
Proof.
  intros Hwf Hload.
  destruct (load_data_ready fs s s1 Hwf Hload)
    as (d0 & _ & Hdf & _ & _ & Hwf1 & Htx & Hdt & Hdates).
  pose proof (process_emoji_data_ok EMOJI_DATA s1 (filtered d0)
                Hwf1 Hdf Htx Hdt Hdates) as Hproc.
  eexists (filtered d0), _. split; [exact Hdf|]. split; [exact Hproc|].
  match type of Hproc with _ = (_, ?s2) =>
    pose proof (basic_stats_processed EMOJI_DATA s2 (filtered d0) eq_refl)
      as Hstats
  end.
  unfold truediv in *. split.
  - intros Hrows. unfold len in Hstats. rewrite Hrows in Hstats.
    cbn [length Z.of_nat Z.eqb] in Hstats. split; [exact Hstats|].
    intros s0 ->. eapply main_stats_raise; eauto.
  - intros Hrows.
    destruct (Z.of_nat (len (filtered d0)) =? 0) eqn:E.
    + apply Z.eqb_eq in E. unfold len in E.
      destruct (rows (filtered d0)); [done|]. cbn in E. lia.
    + eauto.
Qed.

Lemma C8_empty_division_witness :
  ∃ s2 s3,
    process_emoji_data Samples.small_table
      (Samples.loaded_from Samples.old_inbox) = (Ok tt, s2)
    ∧ basic_stats s2 = (Raise ZeroDivisionError, s3).
Proof.
  assert (Hwf : wf_state (__init__ Samples.combined_path))
    by (split; reflexivity).
  assert (Hload : load_data (Samples.holding Samples.old_inbox)
                    (__init__ Samples.combined_path)
                  = (Ok tt, Samples.loaded_from Samples.old_inbox))
    by (vm_compute; reflexivity).
  destruct (C8_empty_division Samples.small_table
              (Samples.holding Samples.old_inbox) _ _ Hwf Hload)
    as (d & s2 & Hdf & Hproc & Hempty & _).
  assert (Hrows : rows d = []).
  { assert (Hd : df (Samples.loaded_from Samples.old_inbox)
                 = Some (filtered Samples.old_inbox))
      by (vm_compute; reflexivity).
    rewrite Hd in Hdf. injection Hdf as <-. vm_compute. reflexivity. }
  destruct (Hempty Hrows) as [Hstats _].
  exists s2, (stats_printed Samples.small_table d s2).
  split; [exact Hproc|exact Hstats].
Defined.

(** C10. After a load that returned, [process_emoji_data] returns; the
    sum of the ['emoji_count'] column it stored, which is the total
    [basic_stats] prints, is the number of records of the per-emoji
    table it built. *)
Theorem C10_total_equals_records
    (EMOJI_DATA : table) (fs : string → csv_file) (s s1 : state) :
  wf_state s →
  load_data fs s = (Ok tt, s1) →
  ∃ s2 d2 ed counts,
    process_emoji_data EMOJI_DATA s1 = (Ok tt, s2)
    ∧ df s2 = Some d2
    ∧ emoji_data s2 = Some ed
    ∧ getitem d2 "emoji_count" = Ok counts
    ∧ series_sum counts = Ok (Z.of_nat (length (records ed)))
    ∧ ∃ r s3 evs,
        basic_stats s2 = (r, s3)
        ∧ stdout s3
          = stdout s2
            ++ (StatsHeader
                :: TotalEmojis (Z.of_nat (length (records ed))) :: evs).
Proof.
  intros Hwf Hload.
  destruct (load_data_ready fs s s1 Hwf Hload)
    as (d0 & _ & Hdf & _ & _ & Hwf1 & Htx & Hdt & Hdates).
  pose proof (process_emoji_data_ok EMOJI_DATA s1 (filtered d0)
                Hwf1 Hdf Htx Hdt Hdates) as Hproc.
  destruct (emoji_count_sum EMOJI_DATA (filtered d0))
    as (counts & Hget & Hsum).
  eexists _, (processed EMOJI_DATA (filtered d0)), _, counts.
  split; [exact Hproc|]. split; [reflexivity|]. split; [reflexivity|].
  split; [exact Hget|]. split; [exact Hsum|].
  match type of Hproc with _ = (_, ?s2) =>
    pose proof (basic_stats_processed EMOJI_DATA s2 (filtered d0) eq_refl)
      as Hstats
  end.
  destruct (truediv _ _) as [q|e];
    eexists _, _, _; (split; [exact Hstats|]); cbn;
    rewrite <- !app_assoc; reflexivity.
Qed.

Lemma C10_total_equals_records_witness :
  ∃ s2 ed,
    process_emoji_data Samples.small_table
      (Samples.loaded_from Samples.inbox) = (Ok tt, s2)
    ∧ emoji_data s2 = Some ed
    ∧ length (records ed) = 3%nat
    ∧ TotalEmojis 3 ∈ stdout (basic_stats s2).2.
Proof.
  assert (Hwf : wf_state (__init__ Samples.combined_path))
    by (split; reflexivity).
  assert (Hload : load_data (Samples.holding Samples.inbox)
                    (__init__ Samples.combined_path)
                  = (Ok tt, Samples.loaded_from Samples.inbox))
    by (vm_compute; reflexivity).
  destruct (C10_total_equals_records Samples.small_table
              (Samples.holding Samples.inbox) _ _ Hwf Hload)
    as (s2 & d2 & ed & counts & Hproc & _ & Hed & _ & _
        & r & s3 & evs & Hstats & Hout).
  assert (Hlen : length (records ed) = 3%nat).
  { assert (H : (process_emoji_data Samples.small_table
                   (Samples.loaded_from Samples.inbox)).2 = s2)
      by (now rewrite Hproc).
    rewrite <- H in Hed. vm_compute in Hed. injection Hed as <-.
    reflexivity. }
  exists s2, ed. split_and!; [exact Hproc|exact Hed|exact Hlen|].
  rewrite Hstats. cbn [snd]. rewrite Hout, Hlen.
  apply elem_of_app. right. right. left.
Defined.

Lemma extract_greeting (EMOJI_DATA : table) :
  is_emoji EMOJI_DATA [Samples.wave] →
  is_emoji EMOJI_DATA [Samples.party] →
  (∀ ch, ch ∈ py "Hi there " → ¬ is_emoji EMOJI_DATA [ch]) →
  extract_emojis EMOJI_DATA (Str Samples.greeting)
  = [[Samples.wave]; [Samples.party]; [Samples.party]].
Proof.
  intros Hwave Hparty Hno. unfold extract_emojis.
  assert (Hplain : ∀ ch, In ch (py "Hi there ") → ¬ is_emoji EMOJI_DATA [ch]).
  { intros ch Hin. apply Hno. now apply list_elem_of_In. }
  set (chars := map (λ ch, [ch]) Samples.greeting).
  vm_compute in chars. subst chars.
  unfold Samples.wave, Samples.party in *.
  repeat first
    [ rewrite filter_cons_True by assumption
    | rewrite filter_cons_False
        by (apply Hplain; vm_compute; repeat first [left; reflexivity|right]) ].
  reflexivity.
Qed.

(** C3. [extract_emojis] gives no emoji for a value that is not text, and
    for a text the one-character strings that are keys of the reference
    table, in their order in the text.  When the table knows the waving
    hand and the party popper and none of the characters of ["Hi there "],
    the text "Hi (wave) there (party)(party)" gives three emojis, and a
    table whose only row holds that text and a timestamp expands to
    three records, one per emoji, in order, each with the timestamp of
    the row. *)
Theorem C3_extract_and_expand (EMOJI_DATA : table) :
  is_emoji EMOJI_DATA [Samples.wave] →
  is_emoji EMOJI_DATA [Samples.party] →
  (∀ ch, ch ∈ py "Hi there " → ¬ is_emoji EMOJI_DATA [ch]) →
  (∀ c, (∀ text, c ≠ Str text) → extract_emojis EMOJI_DATA c = [])
  ∧ (∀ text,
       extract_emojis EMOJI_DATA (Str text)
       = filter (is_emoji EMOJI_DATA) (map (λ ch, [ch]) text))
  ∧ extract_emojis EMOJI_DATA (Str Samples.greeting)
    = [[Samples.wave]; [Samples.party]; [Samples.party]]
  ∧ ∀ s d r t,
      wf_state s →
      df s = Some d →
      "Text"%string ∈ column_names d →
      is_Some (dtype_of d "Message Date") →
      rows d = [r] →
      field "Text" r = Str Samples.greeting →
      field "Message Date" r = Time t →
      ∃ s2 ed,
        process_emoji_data EMOJI_DATA s = (Ok tt, s2)
        ∧ emoji_data s2 = Some ed
        ∧ length (records ed) = 3%nat
        ∧ map emoji (records ed)
          = [[Samples.wave]; [Samples.party]; [Samples.party]]
        ∧ Forall (λ x, message_date x = Some t) (records ed).
Proof.
  intros Hwave Hparty Hno.
  pose proof (extract_greeting EMOJI_DATA Hwave Hparty Hno) as Hgreet.
  split_and!.
  - intros c Hc. destruct c; try reflexivity. now destruct (Hc s).
  - reflexivity.
  - exact Hgreet.
  - intros s d r t Hwf Hdf Htx Hdt Hrows Htext Hdate.
    assert (Hdates : Forall (λ r, is_date (field "Message Date" r)) (rows d)).
    { rewrite Hrows. constructor; [|constructor]. now rewrite Hdate. }
    eexists _, _.
    split; [exact (process_emoji_data_ok EMOJI_DATA s d Hwf Hdf Htx Hdt Hdates)|].
    split; [reflexivity|].
    cbn [records]. unfold emoji_records, row_records, row_emojis.
    rewrite Hrows. cbn [map mjoin list_join]. rewrite app_nil_r.
    rewrite Htext, Hdate, Hgreet. cbn.
    split_and!; [reflexivity|reflexivity|]. repeat constructor.
Qed.

Lemma C3_extract_and_expand_witness :
  extract_emojis Samples.small_table (Str Samples.greeting)
  = [[Samples.wave]; [Samples.party]; [Samples.party]]
  ∧ ∃ s2 ed,
      process_emoji_data Samples.small_table
        (set_df (mkDataFrame Samples.dated_columns [Samples.outgoing_2024])
           (__init__ Samples.combined_path)) = (Ok tt, s2)
      ∧ emoji_data s2 = Some ed
      ∧ length (records ed) = 3%nat
      ∧ Forall (λ x, message_date x = Some Samples.new_year_2024)
          (records ed).
Proof.
  assert (Hwave : is_emoji Samples.small_table [Samples.wave])
    by (eexists; vm_compute; reflexivity).
  assert (Hparty : is_emoji Samples.small_table [Samples.party])
    by (eexists; vm_compute; reflexivity).
  assert (Hno : ∀ ch, ch ∈ py "Hi there " →
                      ¬ is_emoji Samples.small_table [ch]).
  { intros ch Hin [entry He]. apply list_elem_of_In in Hin.
    vm_compute in Hin.
    repeat (destruct Hin as [<-|Hin]; [vm_compute in He; discriminate He|]).
    exact Hin. }
  destruct (C3_extract_and_expand Samples.small_table Hwave Hparty Hno)
    as (_ & _ & Hgreet & Hexpand).
  split; [exact Hgreet|].
  destruct (Hexpand
              (set_df (mkDataFrame Samples.dated_columns
                         [Samples.outgoing_2024])
                 (__init__ Samples.combined_path))
              (mkDataFrame Samples.dated_columns [Samples.outgoing_2024])
              Samples.outgoing_2024 Samples.new_year_2024)
    as (s2 & ed & Hproc & Hed & Hlen & _ & Hall).
  - split; reflexivity.
  - reflexivity.
  - apply list_elem_of_In. vm_compute. tauto.
  - eexists. reflexivity.
  - reflexivity.
  - vm_compute. reflexivity.
  - vm_compute. reflexivity.
  - exists s2, ed. split_and!; assumption.
Defined.

Lemma emoji_records_known (EMOJI_DATA : table) d :
  Forall (λ x, is_emoji EMOJI_DATA (emoji x)) (emoji_records EMOJI_DATA d).
Proof.
  apply Forall_forall. intros x Hx. unfold emoji_records in Hx.
  apply list_elem_of_join in Hx as (l & Hx & Hl).
  apply list_elem_of_fmap in Hl as (r & -> & _).
  unfold row_records in Hx.
  apply list_elem_of_fmap in Hx as (e & -> & He).
  assert (Hemoji : emoji (record_at (field "Message Date" r) e) = e)
    by (destruct (field "Message Date" r); reflexivity).
  rewrite Hemoji. unfold row_emojis, extract_emojis in He.
  destruct (field "Text" r); try (inversion He; fail).
  now apply list_elem_of_filter in He as [He _].
Qed.

Lemma column_nonempty {A} ed col (proj : emoji_record → A) :
  records ed ≠ [] → column ed col proj = Ok (map proj (records ed)).
Proof. unfold column. now destruct (records ed). Qed.

Lemma analyze_categories_known (EMOJI_DATA : table) s ed :
  emoji_data s = Some ed →
  records ed ≠ [] →
  Forall (λ x, is_emoji EMOJI_DATA (emoji x)) (records ed) →
  analyze_categories EMOJI_DATA s
  = (Ok tt,
     emit (Show (Categories
                   (value_counts
                      (map (λ x, spec_category EMOJI_DATA (emoji x))
                           (records ed)))))
       (set_emoji_data
          {| records := records ed;
             category := Some (map (λ x, spec_category EMOJI_DATA (emoji x))
                                   (records ed)) |}
          (emit AnalyzingCategories s))).
Proof.
  intros Hed Hne Hknown.
  destruct s as [path odf oed dc tc out]. cbn in Hed. subst oed.
  unfold analyze_categories, bind, print, modify, the_emoji_data, gets,
    lift, ret. cbn.
  rewrite column_nonempty by done.
  rewrite (apply_map_total (get_emoji_category EMOJI_DATA) emoji
             (λ x, spec_category EMOJI_DATA (emoji x))); [reflexivity|].
  eapply Forall_impl; [exact Hknown|]. intros x [entry He].
  unfold get_emoji_category, spec_category. now rewrite He.
Qed.

(** C9 as stated fails: for a character that is not a key of the
    reference table the category lookup raises [KeyError]; it does not
    give ['Unknown'], and [analyze_categories] on a table that holds such
    a character raises with it. *)
Lemma C9_counterexample :
  Samples.small_table !! [Samples.grin] = None
  ∧ get_emoji_category Samples.small_table [Samples.grin]
    = Raise (KeyError [Samples.grin])
  ∧ get_emoji_category Samples.small_table [Samples.grin]
    ≠ Ok (spec_category Samples.small_table [Samples.grin])
  ∧ (analyze_categories Samples.small_table Samples.stray).1
    = Raise (KeyError [Samples.grin]).
Proof.
  split_and!; [vm_compute; reflexivity..|vm_compute; discriminate|].
  vm_compute. reflexivity.
Qed.

(** C9, amended.  The category of a character that is a key of the
    reference table is the ['category'] attribute of its entry, and
    ['Unknown'] when the entry has no such attribute; for a character
    that is not a key the lookup raises [KeyError].  Every character of
    the emoji-occurrence table that [process_emoji_data] builds is a key,
    so on a table with at least one record [analyze_categories] returns
    and gives each record the category of its character. *)
Theorem C9_category_lookup (EMOJI_DATA : table) :
  (∀ c entry,
     EMOJI_DATA !! c = Some entry →
     get_emoji_category EMOJI_DATA c
     = Ok (default (PStr (py "Unknown")) (entry !! "category")))
  ∧ (∀ c, EMOJI_DATA !! c = None →
          get_emoji_category EMOJI_DATA c = Raise (KeyError c))
  ∧ ∀ s d,
      wf_state s →
      df s = Some d →
      "Text"%string ∈ column_names d →
      is_Some (dtype_of d "Message Date") →
      Forall (λ r, is_date (field "Message Date" r)) (rows d) →
      emoji_records EMOJI_DATA d ≠ [] →
      ∃ s2 s3 cats,
        process_emoji_data EMOJI_DATA s = (Ok tt, s2)
        ∧ analyze_categories EMOJI_DATA s2 = (Ok tt, s3)
        ∧ emoji_data s3
          = Some {| records := emoji_records EMOJI_DATA d;
                    category := Some cats |}
        ∧ Forall2
            (λ x cat, ∃ entry,
               EMOJI_DATA !! emoji x = Some entry
               ∧ cat = default (PStr (py "Unknown")) (entry !! "category"))
            (emoji_records EMOJI_DATA d) cats.
Proof.
  split_and!.
  - intros c entry H. unfold get_emoji_category. now rewrite H.
  - intros c H. unfold get_emoji_category. now rewrite H.
  - intros s d Hwf Hdf Htx Hdt Hdates Hne.
    pose proof (process_emoji_data_ok EMOJI_DATA s d Hwf Hdf Htx Hdt Hdates)
      as Hproc.
    pose proof (emoji_records_known EMOJI_DATA d) as Hknown.
    eexists _, _, _. split; [exact Hproc|].
    split; [apply analyze_categories_known; [reflexivity|exact Hne|exact Hknown]|].
    split; [reflexivity|].
    apply Forall2_fmap_r, Forall_Forall2_diag.
    eapply Forall_impl; [exact Hknown|]. intros x [entry He].
    exists entry. split; [exact He|]. unfold spec_category. now rewrite He.
Qed.

Lemma C9_category_lookup_witness :
  get_emoji_category Samples.small_table [Samples.wave]
  = Ok (PStr (py "Unknown"))
  ∧ get_emoji_category Samples.small_table [Samples.party]
    = Ok (PStr (py "Activities")).
Proof.
  destruct (C9_category_lookup Samples.small_table) as (Hknown & _ & _).
  split.
  - rewrite (Hknown [Samples.wave]
               {[ "en"%string := PStr (py ":waving_hand:") ]})
      by (vm_compute; reflexivity).
    vm_compute. reflexivity.
  - rewrite (Hknown [Samples.party]
               {[ "en"%string := PStr (py ":party_popper:");
                  "category"%string := PStr (py "Activities") ]})
      by (vm_compute; reflexivity).
    vm_compute. reflexivity.
Defined.

Lemma plot_time_patterns_ok s ed :
  emoji_data s = Some ed →
  records ed ≠ [] →
  plot_time_patterns s
  = (Ok tt,
     emit (Show (TimePatterns
                   (groupby_size Z.compare (map hour (records ed)))
                   (reindex pystr_compare
                      (groupby_size pystr_compare
                         (map day_of_week (records ed)))
                      days_order)
                   (reindex pystr_compare
                      (groupby_size pystr_compare (map month (records ed)))
                      months_order)))
       (emit GeneratingTimePatterns s)).
Proof.
  intros Hed Hne.
  destruct s as [path odf oed dc tc out]. cbn in Hed. subst oed.
  unfold plot_time_patterns, bind, print, modify, the_emoji_data, gets,
    lift, ret. cbn.
  now rewrite !column_nonempty by done.
Qed.


(** C4 as stated fails: for the three emojis of one message sent on a
    Monday in January at 12 h, the hourly aggregate has the single bucket
    12, not the 24 hours, and the buckets of the other weekdays and
    months hold a missing value, not zero. *)
Lemma C4_counterexample :
  ∃ hourly daily monthly,
    plot_time_patterns Samples.processed_inbox
    = (Ok tt,
       emit (Show (TimePatterns hourly daily monthly))
         (emit GeneratingTimePatterns Samples.processed_inbox))
    ∧ hourly = [(12, 3%nat)]
    ∧ daily !! 1%nat = Some (py "Tuesday", None)
    ∧ monthly !! 1%nat = Some (py "February", None).
Proof. eexists _, _, _. split_and!; vm_compute; reflexivity. Qed.

(** C4, amended.  For an emoji-occurrence table with at least one
    record, the weekday and month aggregates list all 7 weekdays, Monday
    to Sunday, and all 12 months, January to December, in that order,
    each with the number of records of that weekday or month, or with a
    missing value when there is none; the hourly aggregate lists, in
    ascending order, exactly the hours that have a record, each with its
    number of records. *)
Theorem C4_time_buckets (s : state) (ed : EmojiFrame) :
  emoji_data s = Some ed →
  records ed ≠ [] →
  ∃ hourly daily monthly,
    plot_time_patterns s
    = (Ok tt,
       emit (Show (TimePatterns hourly daily monthly))
         (emit GeneratingTimePatterns s))
    ∧ daily
      = map (λ l, (l, some_if_pos
                        (occurrences l (map day_of_week (records ed)))))
            days_order
    ∧ monthly
      = map (λ l, (l, some_if_pos
                        (occurrences l (map month (records ed)))))
            months_order
    ∧ StronglySorted (λ a b, a.1 < b.1) hourly
    ∧ ∀ h n, (h, n) ∈ hourly
             ↔ n = occurrences h (map hour (records ed)) ∧ n ≠ 0%nat.
Proof.
  intros Hed Hne. eexists _, _, _.
  split; [exact (plot_time_patterns_ok s ed Hed Hne)|].
  split_and!.
  - apply (GroupByFacts.reindex_groupby_size pystr_compare
             GroupByFacts.pystr_compare_eq
             GroupByFacts.pystr_compare_antisym
             GroupByFacts.pystr_compare_trans).
  - apply (GroupByFacts.reindex_groupby_size pystr_compare
             GroupByFacts.pystr_compare_eq
             GroupByFacts.pystr_compare_antisym
             GroupByFacts.pystr_compare_trans).
  - pose proof (GroupByFacts.groupby_size_ascending Z.compare
                  Z.compare_eq_iff Z.compare_antisym
                  GroupByFacts.Z_compare_trans
                  (map hour (records ed))) as Hasc.
    unfold ascending in Hasc.
    induction Hasc as [|a l _ IH Hall]; constructor; [exact IH|].
    eapply Forall_impl; [exact Hall|]. intros b Hb.
    now apply Z.compare_lt_iff.
  - intros h n.
    apply (GroupByFacts.elem_of_groupby_size Z.compare
             Z.compare_eq_iff Z.compare_antisym
             GroupByFacts.Z_compare_trans).
Qed.

Lemma C4_time_buckets_witness :
  ∃ hourly daily monthly,
    plot_time_patterns Samples.processed_inbox
    = (Ok tt,
       emit (Show (TimePatterns hourly daily monthly))
         (emit GeneratingTimePatterns Samples.processed_inbox))
    ∧ map fst daily = days_order
    ∧ map fst monthly = months_order
    ∧ map fst hourly = [12].
Proof.
  assert (Hed : ∃ ed, emoji_data Samples.processed_inbox = Some ed
                      ∧ records ed ≠ []).
  { eexists. split; [vm_compute; reflexivity|discriminate]. }
  destruct Hed as (ed & Hed & Hne).
  destruct (C4_time_buckets Samples.processed_inbox ed Hed Hne)
    as (hourly & daily & monthly & Hplot & -> & -> & _ & _).
  eexists hourly, _, _. split; [exact Hplot|].
  rewrite !map_map, !map_id. split_and!; [reflexivity..|].
  assert (Hrun : (plot_time_patterns Samples.processed_inbox).2
                 = emit (Show (TimePatterns hourly
                     (map (λ l, (l, some_if_pos
                        (occurrences l (map day_of_week (records ed)))))
                        days_order)
                     (map (λ l, (l, some_if_pos
                        (occurrences l (map month (records ed)))))
                        months_order)))
                     (emit GeneratingTimePatterns Samples.processed_inbox))
    by (now rewrite Hplot).
  apply (f_equal stdout) in Hrun. cbn [stdout emit] in Hrun.
  apply (f_equal (λ l, match last l with
                       | Some (Show (TimePatterns h _ _)) => map fst h
                       | _ => []
                       end)) in Hrun.
  rewrite last_snoc in Hrun. rewrite <- Hrun. vm_compute. reflexivity.
Defined.
End AnalyzerClaims.

(** ** More on the aggregator *)

Module AggregatorExtras.
Import Aggregator AggregatorFacts.

Section Lines.
Context (find_common_type : list (option dtype) → dtype).
Context (fs : filesystem).

Lemma failed_cons_ok p df files :
  read_csv fs p = Ok df → failed fs (p :: files) = failed fs files.
Proof. intros H. unfold failed. cbn. now rewrite H. Qed.

Lemma failed_cons_raise p e files :
  read_csv fs p = Raise e → failed fs (p :: files) = (p, e) :: failed fs files.
Proof. intros H. unfold failed. cbn. now rewrite H. Qed.

(** The multiples of 100 among the [n] numbers after [p]. *)
Lemma hundreds_step p n :
  filter (λ m, m mod 100 = 0)%nat (seq (S p) (S n))
  = (if (S p mod 100 =? 0)%nat then [S p] else [])
    ++ filter (λ m, m mod 100 = 0)%nat (seq (S (S p)) n).
Proof.
  cbn [seq]. destruct (S p mod 100 =? 0)%nat eqn:E.
  - apply Nat.eqb_eq in E. now rewrite filter_cons_True.
  - apply Nat.eqb_neq in E. now rewrite filter_cons_False.
Qed.

(** A file that parses prints a progress line exactly when the number of
    files processed reaches a multiple of 100. *)
Lemma process_file_ok_lines p df s :
  read_csv fs p = Ok df →
  process_file fs p s
  = (Ok tt,
     let s1 := incr_processed (append_df (tagged (p, df)) s) in
     if (S (processed_files s) mod 100 =? 0)%nat
     then emit (Processed (S (processed_files s)) (total_files s)) s1
     else s1).
Proof.
  intros H. unfold process_file, try_except, bind, lift. rewrite H. cbn.
  now destruct (_ =? 0)%nat.
Qed.

Lemma process_loop_lines files s :
  ∃ s' evs,
    for_each files (process_file fs) s = (Ok tt, s')
    ∧ all_dfs s' = all_dfs s ++ map tagged (loaded fs files)
    ∧ total_files s' = total_files s
    ∧ written s' = written s
    ∧ stdout s' = stdout s ++ evs
    ∧ omap error_of evs = failed fs files
    ∧ omap progress_of evs
      = map (λ m, (m, total_files s))
            (filter (λ m, m mod 100 = 0)%nat
               (seq (S (processed_files s)) (length (loaded fs files)))).
Proof.
  revert s. induction files as [|p files IH]; intros s.
  - exists s, []. cbn. rewrite !app_nil_r. split_and!; reflexivity.
  - cbn [for_each]. unfold bind at 1.
    destruct (read_csv fs p) as [df|e] eqn:E.
    + rewrite (process_file_ok_lines p df s E).
      rewrite (loaded_cons_ok _ _ _ _ E), (failed_cons_ok _ _ _ E).
      cbn [length]. rewrite hundreds_step, map_app. cbn zeta.
      destruct (S (processed_files s) mod 100 =? 0)%nat.
      * destruct (IH (emit (Processed (S (processed_files s)) (total_files s))
                        (incr_processed (append_df (tagged (p, df)) s))))
          as (s' & evs & -> & Hdf & Ht & Hw & Hout & Herr & Hprog).
        exists s', (Processed (S (processed_files s)) (total_files s) :: evs).
        cbn in Hdf, Ht, Hw, Hout, Hprog. split_and!; auto.
        -- rewrite Hdf, <- app_assoc. reflexivity.
        -- rewrite Hout, <- app_assoc. reflexivity.
        -- cbn. now rewrite Hprog.
      * destruct (IH (incr_processed (append_df (tagged (p, df)) s)))
          as (s' & evs & -> & Hdf & Ht & Hw & Hout & Herr & Hprog).
        exists s', evs.
        cbn in Hdf, Ht, Hw, Hout, Hprog. split_and!; auto.
        rewrite Hdf, <- app_assoc. reflexivity.
    + rewrite (process_file_raise _ p e s E).
      rewrite (loaded_cons_raise _ _ _ _ E), (failed_cons_raise _ _ _ E).
      destruct (IH (emit (ErrorProcessing p e) s))
        as (s' & evs & -> & Hdf & Ht & Hw & Hout & Herr & Hprog).
      exists s', (ErrorProcessing p e :: evs).
      cbn in Hdf, Ht, Hw, Hout, Hprog. split_and!; auto.
      * rewrite Hout, <- app_assoc. reflexivity.
      * cbn. now rewrite Herr.
Qed.

(** The table the run writes when the files of [l] parsed. *)
Lemma concat_tagged (l : list (Path * DataFrame)) :
  l ≠ [] →
  ∃ combined,
    concat find_common_type (map tagged l) = Ok combined
    ∧ column_names combined
      = remove_dups (mjoin (map column_names (map tagged l)))
    ∧ rows combined = mjoin (map (λ pd, rows (tagged pd)) l).
Proof.
  intros Hne. destruct l as [|pd l]; [done|].
  eexists. split; [reflexivity|]. split.
  - unfold column_names at 1. cbn [columns]. rewrite <- list_fmap_compose.
    apply list_fmap_id.
  - cbn [rows]. now rewrite <- list_fmap_compose.
Qed.

(** One run, with everything it prints and writes. *)
Lemma run_lines cwd :
  ∃ s evs,
    run find_common_type fs cwd = (Ok tt, s)
    ∧ omap error_of evs = failed fs (rglob_csv fs cwd)
    ∧ omap progress_of evs
      = map (λ m, (m, length (rglob_csv fs cwd)))
            (filter (λ m, m mod 100 = 0)%nat
               (seq 1 (length (loaded fs (rglob_csv fs cwd)))))
    ∧ match loaded fs (rglob_csv fs cwd) with
      | [] => written s = [] ∧ stdout s = evs ++ [NoCsvFiles]
      | l =>
          ∃ combined,
            concat find_common_type (map tagged l) = Ok combined
            ∧ written s
              = [(joinpath cwd (py "combined_messages.csv"), to_csv combined)]
            ∧ stdout s
              = evs ++ [SuccessfullyCombined (length l)
                          (joinpath cwd (py "combined_messages.csv"));
                        TotalRows (len combined)]
      end.
Proof.
  unfold run, combine_csv_files. unfold bind at 1.
  rewrite count_loop. unfold bind at 1.
  match goal with |- context [for_each _ _ ?s0] =>
    destruct (process_loop_lines (rglob_csv fs cwd) s0)
      as (s1 & evs & -> & Hdf & _ & Hw & Hout & Herr & Hprog)
  end.
  cbn in Hdf, Hw, Hout, Hprog. rewrite Nat.add_0_r in Hprog.
  unfold bind at 1, gets. rewrite Hdf.
  destruct (loaded fs (rglob_csv fs cwd)) as [|pd l] eqn:El.
  - exists (emit NoCsvFiles s1), evs. cbn. rewrite Hw, Hout. auto.
  - destruct (concat_tagged (pd :: l)) as (combined & Hc & _ & _); [done|].
    cbn [map] in Hc |- *. unfold bind at 1, lift. rewrite Hc.
    eexists _, evs. split; [reflexivity|]. cbn.
    rewrite Hw, Hout, length_map. split_and!; auto.
    exists combined. split_and!; auto. now rewrite <- app_assoc.
Qed.
End Lines.

Lemma omap_progress_summary (evs tail : list event) :
  Forall (λ ev, progress_of ev = None) tail →
  omap progress_of (evs ++ tail) = omap progress_of evs.
Proof.
  intros H. rewrite omap_app.
  assert (omap progress_of tail = []) as ->; [|apply app_nil_r].
  induction H as [|ev tail Hev _ IH]; [done|]. cbn. now rewrite Hev.
Qed.

Lemma omap_error_summary (evs tail : list event) :
  Forall (λ ev, error_of ev = None) tail →
  omap error_of (evs ++ tail) = omap error_of evs.
Proof.
  intros H. rewrite omap_app.
  assert (omap error_of tail = []) as ->; [|apply app_nil_r].
  induction H as [|ev tail Hev _ IH]; [done|]. cbn. now rewrite Hev.
Qed.

Lemma hundreds (n : nat) :
  filter (λ m, m mod 100 = 0)%nat (seq 1 n)
  = map (λ i, 100 * i)%nat (seq 1 (n / 100)).
Proof.
  induction n as [|n IH]; [done|].
  rewrite seq_S, filter_app, IH. cbn [Nat.add].
  pose proof (Nat.div_mod_eq n 100) as Hn.
  pose proof (Nat.div_mod_eq (S n) 100) as HSn.
  pose proof (Nat.mod_upper_bound n 100 ltac:(lia)) as Hr.
  pose proof (Nat.mod_upper_bound (S n) 100 ltac:(lia)) as Hr'.
  destruct (decide (S n mod 100 = 0)%nat) as [E|E].
  - rewrite filter_cons_True by done. rewrite filter_nil.
    assert (S n / 100 = S (n / 100))%nat as -> by lia.
    rewrite seq_S, map_app. cbn [map Nat.add]. do 2 f_equal. lia.
  - rewrite filter_cons_False by done. rewrite filter_nil, app_nil_r.
    assert (S n / 100 = n / 100)%nat as -> by lia. reflexivity.
Qed.

(** X1. The run prints one progress line each time the number of files
    parsed so far reaches a multiple of 100, and no other: with [n] files
    parsed out of [total] discovered, the progress lines are
    "100/total", "200/total", ... up to the last multiple of 100 that is
    at most [n]. *)
Theorem X1_progress_every_hundred
    (find_common_type : list (option dtype) → dtype)
    (fs : filesystem) (cwd : Path) :
  ∃ s,
    run find_common_type fs cwd = (Ok tt, s)
    ∧ omap progress_of (stdout s)
      = map (λ i, (100 * i, length (rglob_csv fs cwd)))%nat
            (seq 1 (length (loaded fs (rglob_csv fs cwd)) / 100)).
Proof.
  destruct (run_lines find_common_type fs cwd)
    as (s & evs & Hrun & _ & Hprog & H).
  exists s. split; [exact Hrun|].
  rewrite hundreds, map_map in Hprog.
  destruct (loaded fs (rglob_csv fs cwd)) as [|pd l].
  - destruct H as [_ ->]. rewrite omap_progress_summary; [exact Hprog|].
    repeat constructor.
  - destruct H as (combined & _ & _ & ->).
    rewrite omap_progress_summary; [exact Hprog|]. repeat constructor.
Qed.

(** X2. The run prints one error line for each discovered file that does
    not parse, with the file and what reading it raised, in traversal
    order, and no other error line. *)
Theorem X2_one_error_line_per_failed_file
    (find_common_type : list (option dtype) → dtype)
    (fs : filesystem) (cwd : Path) :
  ∃ s,
    run find_common_type fs cwd = (Ok tt, s)
    ∧ omap error_of (stdout s) = failed fs (rglob_csv fs cwd).
Proof.
  destruct (run_lines find_common_type fs cwd)
    as (s & evs & Hrun & Herr & _ & H).
  exists s. split; [exact Hrun|].
  destruct (loaded fs (rglob_csv fs cwd)) as [|pd l].
  - destruct H as [_ ->]. rewrite omap_error_summary; [exact Herr|].
    repeat constructor.
  - destruct H as (combined & _ & _ & ->).
    rewrite omap_error_summary; [exact Herr|]. repeat constructor.
Qed.





Lemma parent_joinpath (p : Path) (x : pystr) : parent (joinpath p x) = p.
Proof. apply List.removelast_last. Qed.

Lemma name_joinpath (p : Path) (x : pystr) : name (joinpath p x) = x.
Proof. apply List.last_last. Qed.

(** X4. The run does not leave its own artifact out: when
    [combined_messages.csv] of the working directory is among the
    discovered files and parses, as at a second run in the same
    directory, its rows are written again, each tagged with the name of
    the working directory. *)
Theorem X4_previous_artifact_is_read_again
    (find_common_type : list (option dtype) → dtype)
    (fs : filesystem) (cwd : Path) (previous : DataFrame) :
  joinpath cwd (py "combined_messages.csv") ∈ rglob_csv fs cwd →
  read_csv fs (joinpath cwd (py "combined_messages.csv")) = Ok previous →
  ∃ s art,
    run find_common_type fs cwd = (Ok tt, s)
    ∧ written s = [(joinpath cwd (py "combined_messages.csv"), art)]
    ∧ ∀ r, r ∈ rows previous →
           <["conversation_id" := Str (name cwd)]> r ∈ Pandas.records art.
Proof.
  intros Hin Hread.
  assert (Hl : (joinpath cwd (py "combined_messages.csv"), previous)
               ∈ loaded fs (rglob_csv fs cwd))
    by (now apply elem_of_loaded).
  destruct (run_spec find_common_type fs cwd) as (s & evs & Hrun & _ & _ & H).
  destruct (loaded fs (rglob_csv fs cwd)) as [|pd0 l0] eqn:El;
    [inversion Hl|].
  destruct H as (art & Hw & Hrec & _).
  exists s, art. split_and!; auto.
  intros r Hr. rewrite Hrec. apply list_elem_of_join.
  exists (rows (tagged (joinpath cwd (py "combined_messages.csv"), previous))).
  split.
  - unfold tagged. cbn [fst snd rows setitem_scalar].
    rewrite parent_joinpath. apply list_elem_of_fmap. now exists r.
  - apply list_elem_of_fmap.
    now exists (joinpath cwd (py "combined_messages.csv"), previous).
Qed.

Lemma X4_previous_artifact_is_read_again_witness :
  ∃ s art,
    run Samples.all_object Samples.second_run Samples.cwd = (Ok tt, s)
    ∧ written s = [(Samples.combined_csv, art)]
    ∧ map (field "conversation_id") (Pandas.records art)
      = [Str (py "alice"); Str (py "alice");
         Str (py "export"); Str (py "export")].
Proof.
  assert (Hin : joinpath Samples.cwd (py "combined_messages.csv")
                ∈ rglob_csv Samples.second_run Samples.cwd).
  { apply list_elem_of_In. vm_compute. right. left. reflexivity. }
  destruct (X4_previous_artifact_is_read_again Samples.all_object
              Samples.second_run Samples.cwd _ Hin eq_refl)
    as (s & art & Hrun & Hw & _).
  exists s, art. split_and!; [exact Hrun|exact Hw|].
  assert (Hs : (run Samples.all_object Samples.second_run Samples.cwd).2 = s)
    by (now rewrite Hrun).
  apply (f_equal (λ s, map (λ w, map (field "conversation_id")
                                  (Pandas.records w.2)) (written s))) in Hs.
  rewrite Hw in Hs. cbn [map snd] in Hs. injection Hs as <-.
  vm_compute. reflexivity.
Defined.

Lemma elem_of_set_dtype c col dt (cols : list (string * dtype)) :
  c ∈ (set_dtype col dt cols).*1 ↔ c = col ∨ c ∈ cols.*1.
Proof.
  unfold set_dtype. destruct (decide (col ∈ cols.*1)) as [Hin|Hnin].
  - assert (Heq : (map (λ x, if decide (x.1 = col) then (col, dt) else x)
                       cols).*1 = cols.*1).
    { clear Hin. induction cols as [|[c0 d0] cols IH]; [done|]. cbn.
      rewrite IH. f_equal. now destruct (decide (c0 = col)). }
    rewrite Heq. split; [auto|]. now intros [->|H].
  - rewrite fmap_app, elem_of_app. cbn. rewrite list_elem_of_singleton. tauto.
Qed.

(** X5. The header of the artifact is the union of the columns: it holds
    no column twice; it holds ['conversation_id'] and every column of
    every parsed file; and it holds nothing else. *)
Theorem X5_header_is_column_union
    (find_common_type : list (option dtype) → dtype)
    (fs : filesystem) (cwd : Path) :
  loaded fs (rglob_csv fs cwd) ≠ [] →
  ∃ s art,
    run find_common_type fs cwd = (Ok tt, s)
    ∧ written s = [(joinpath cwd (py "combined_messages.csv"), art)]
    ∧ NoDup (header art)
    ∧ ∀ c, c ∈ header art
           ↔ c = "conversation_id"%string
             ∨ ∃ p df, (p, df) ∈ loaded fs (rglob_csv fs cwd)
                       ∧ c ∈ column_names df.
Proof.
  intros Hne.
  destruct (run_lines find_common_type fs cwd) as (s & evs & Hrun & _ & _ & H).
  destruct (loaded fs (rglob_csv fs cwd)) as [|pd0 l0] eqn:El; [done|].
  destruct H as (combined & Hc & Hw & _).
  destruct (concat_tagged find_common_type (pd0 :: l0) Hne)
    as (combined' & Hc' & Hcols & _).
  rewrite Hc in Hc'. injection Hc' as <-.
  exists s, (to_csv combined). split_and!; auto.
  - cbn. rewrite Hcols. apply NoDup_remove_dups.
  - intros c. cbn [header to_csv]. rewrite Hcols, elem_of_remove_dups.
    rewrite list_elem_of_join. split.
    + intros (cols & Hin & Hcols').
      apply list_elem_of_fmap in Hcols' as (d & -> & Hd).
      apply list_elem_of_fmap in Hd as ([p df] & -> & Hpd).
      unfold column_names, tagged in Hin. cbn in Hin.
      apply elem_of_set_dtype in Hin as [->|Hin]; [now left|].
      right. now exists p, df.
    + intros [->|(p & df & Hpd & Hin)].
      * exists (column_names (tagged pd0)). split.
        -- unfold column_names, tagged. cbn. apply elem_of_set_dtype.
           now left.
        -- apply list_elem_of_fmap. exists (tagged pd0). split; [done|].
           apply list_elem_of_fmap. exists pd0. split; [done|left].
      * exists (column_names (tagged (p, df))). split.
        -- unfold column_names, tagged. cbn. apply elem_of_set_dtype.
           now right.
        -- apply list_elem_of_fmap. exists (tagged (p, df)). split; [done|].
           apply list_elem_of_fmap. now exists (p, df).
Qed.

Lemma X5_header_is_column_union_witness :
  loaded Samples.disk (rglob_csv Samples.disk Samples.cwd) ≠ []
  ∧ ∃ s art,
      run Samples.all_object Samples.disk Samples.cwd = (Ok tt, s)
      ∧ written s = [(joinpath Samples.cwd (py "combined_messages.csv"), art)]
      ∧ NoDup (header art)
      ∧ "conversation_id"%string ∈ header art.
Proof.
  assert (H : loaded Samples.disk (rglob_csv Samples.disk Samples.cwd) ≠ [])
    by (vm_compute; discriminate).
  split; [exact H|].
  destruct (X5_header_is_column_union Samples.all_object Samples.disk
              Samples.cwd H) as (s & art & Hrun & Hw & Hnd & Hall).
  exists s, art. split_and!; [exact Hrun|exact Hw|exact Hnd|].
  apply Hall. now left.
Defined.
End AggregatorExtras.

(** ** Counting items *)

Module CounterFacts.

Section Generic.
Context {A : Type} `{EqDecision A}.

Lemma count_in_app (x : A) (l1 l2 : list A) :
  count_in x (l1 ++ l2) = (count_in x l1 + count_in x l2)%nat.
Proof. unfold count_in. now rewrite filter_app, length_app. Qed.

Lemma count_in_one (x y : A) :
  count_in x [y] = if decide (x = y) then 1%nat else 0%nat.
Proof.
  unfold count_in. destruct (decide (x = y)) as [->|Hne].
  - now rewrite filter_cons_True.
  - rewrite filter_cons_False; [done|]. congruence.
Qed.

Lemma count_in_pos (x : A) (xs : list A) : x ∈ xs ↔ count_in x xs ≠ 0%nat.
Proof.
  unfold count_in. induction xs as [|y xs IH].
  - split; [intros H; inversion H|done].
  - rewrite elem_of_cons. destruct (decide (y = x)) as [->|Hne].
    + rewrite filter_cons_True by done. cbn [length]. split; [lia|auto].
    + rewrite filter_cons_False by done. rewrite <- IH.
      split; [intros [->|H]; [done|exact H]|auto].
Qed.

Lemma count_at_count_one (x y : A) (c : list (A * nat)) :
  count_at x (count_one y c)
  = if decide (x = y) then Some (S (default 0%nat (count_at y c)))
    else count_at x c.
Proof.
  induction c as [|[z n] c IH]; cbn.
  - destruct (decide (x = y)); reflexivity.
  - destruct (decide (y = z)) as [->|Hyz]; cbn.
    + repeat case_decide; simplify_eq; reflexivity.
    + rewrite IH. repeat case_decide; simplify_eq; reflexivity.
Qed.

Lemma count_one_keys (y : A) (c : list (A * nat)) :
  (count_one y c).*1 = if decide (y ∈ c.*1) then c.*1 else c.*1 ++ [y].
Proof.
  induction c as [|[z n] c IH]; cbn.
  - destruct (decide (y ∈ [])) as [H|H]; [inversion H|reflexivity].
  - destruct (decide (y = z)) as [->|Hyz]; cbn.
    + destruct (decide (z ∈ z :: c.*1)) as [H|H]; [reflexivity|].
      exfalso. apply H. left.
    + rewrite IH.
      destruct (decide (y ∈ c.*1)) as [Hin|Hnin];
        destruct (decide (y ∈ z :: c.*1)) as [H|H]; try reflexivity.
      * exfalso. apply H. now right.
      * exfalso. apply elem_of_cons in H as [?|?]; done.
Qed.

Lemma count_one_NoDup (y : A) (c : list (A * nat)) :
  NoDup c.*1 → NoDup (count_one y c).*1.
Proof.
  intros H. rewrite count_one_keys. destruct (decide (y ∈ c.*1)); [done|].
  apply NoDup_app. split_and!; [done| |apply NoDup_singleton].
  intros x Hx Hy. apply list_elem_of_singleton in Hy as ->. done.
Qed.

Lemma count_one_sum (y : A) (c : list (A * nat)) :
  sum_list (count_one y c).*2 = S (sum_list c.*2).
Proof.
  induction c as [|[z n] c IH]; [done|]. cbn.
  destruct (decide (y = z)); cbn; [done|]. rewrite IH. lia.
Qed.

(** The counter of a list: each distinct item once, with its number of
    occurrences. *)
Lemma Counter_loop (xs : list A) : ∀ c seen,
  NoDup c.*1 →
  (∀ x, count_at x c = some_if_pos (count_in x seen)) →
  sum_list c.*2 = length seen →
  NoDup (foldl (λ c x, count_one x c) c xs).*1
  ∧ (∀ x, count_at x (foldl (λ c x, count_one x c) c xs)
          = some_if_pos (count_in x (seen ++ xs)))
  ∧ sum_list (foldl (λ c x, count_one x c) c xs).*2 = length (seen ++ xs).
Proof.
  induction xs as [|y xs IH]; intros c seen Hnd Hcount Hsum.
  - rewrite app_nil_r. auto.
  - change (seen ++ y :: xs) with (seen ++ [y] ++ xs).
    rewrite app_assoc. cbn [foldl]. apply IH.
    + now apply count_one_NoDup.
    + intros x. rewrite count_at_count_one, count_in_app, count_in_one, !Hcount.
      rewrite GroupByFacts.default_some_if_pos.
      destruct (decide (x = y)) as [->|Hne].
      * now rewrite Nat.add_1_r.
      * now rewrite Nat.add_0_r.
    + rewrite count_one_sum, Hsum, length_app. cbn. lia.
Qed.

Lemma count_at_elem_of (x : A) (n : nat) (c : list (A * nat)) :
  NoDup c.*1 → (x, n) ∈ c ↔ count_at x c = Some n.
Proof.
  induction c as [|[y m] c IH]; cbn; intros Hnd.
  - split; [intros H; inversion H|discriminate].
  - apply NoDup_cons in Hnd as [Hy Hnd]. rewrite elem_of_cons, (IH Hnd).
    destruct (decide (x = y)) as [->|Hne].
    + split.
      * intros [[= ->]|H]; [done|]. apply IH in H; [|done].
        exfalso. apply Hy. apply list_elem_of_fmap. now exists (y, n).
      * intros [= ->]. now left.
    + split; [|now right]. intros [[= -> ->]|H]; done.
Qed.

Lemma Counter_NoDup (xs : list A) : NoDup (Counter xs).*1.
Proof.
  now destruct (Counter_loop xs [] [] (NoDup_nil_2) (λ _, eq_refl) eq_refl)
    as (H & _ & _).
Qed.

Lemma elem_of_Counter (xs : list A) x n :
  (x, n) ∈ Counter xs ↔ n = count_in x xs ∧ n ≠ 0%nat.
Proof.
  rewrite (count_at_elem_of _ _ _ (Counter_NoDup xs)).
  destruct (Counter_loop xs [] [] (NoDup_nil_2) (λ _, eq_refl) eq_refl)
    as (_ & H & _).
  unfold Counter. rewrite H. cbn [app].
  destruct (count_in x xs) as [|m]; cbn.
  - split; [discriminate|]. now intros [-> ?].
  - split; [intros [= <-]; split; done|]. now intros [-> _].
Qed.

Lemma Counter_sum (xs : list A) : sum_list (Counter xs).*2 = length xs.
Proof.
  now destruct (Counter_loop xs [] [] (NoDup_nil_2) (λ _, eq_refl) eq_refl)
    as (_ & _ & H).
Qed.

(** Sorting by decreasing count. *)
Lemma insert_desc_perm (e : A * nat) (l : list (A * nat)) :
  insert_desc e l ≡ₚ e :: l.
Proof.
  induction l as [|e' l IH]; [reflexivity|]. cbn [insert_desc].
  destruct (e'.2 <? e.2)%nat; [reflexivity|].
  rewrite IH. apply Permutation_swap.
Qed.

Lemma insert_desc_sorted (e : A * nat) (l : list (A * nat)) :
  StronglySorted (λ a b, b.2 ≤ a.2)%nat l →
  StronglySorted (λ a b, b.2 ≤ a.2)%nat (insert_desc e l).
Proof.
  induction 1 as [|e' l Hs IH Hall]; cbn [insert_desc].
  - repeat constructor.
  - destruct (e'.2 <? e.2)%nat eqn:E.
    + apply Nat.ltb_lt in E. constructor; [now constructor|].
      constructor; [lia|]. eapply Forall_impl; [exact Hall|].
      cbn. intros b Hb. lia.
    + apply Nat.ltb_ge in E. constructor; [exact IH|].
      rewrite insert_desc_perm. constructor; [exact E|exact Hall].
Qed.

Lemma sort_desc_loop (c : list (A * nat)) : ∀ acc,
  StronglySorted (λ a b, b.2 ≤ a.2)%nat acc →
  StronglySorted (λ a b, b.2 ≤ a.2)%nat (foldl (λ acc e, insert_desc e acc) acc c)
  ∧ foldl (λ acc e, insert_desc e acc) acc c ≡ₚ acc ++ c.
Proof.
  induction c as [|e c IH]; intros acc Hacc.
  - rewrite app_nil_r. auto.
  - cbn [foldl]. destruct (IH (insert_desc e acc)) as [Hs Hp].
    + now apply insert_desc_sorted.
    + split; [exact Hs|]. rewrite Hp, insert_desc_perm.
      apply Permutation_middle.
Qed.

Lemma sort_desc_sorted (c : list (A * nat)) :
  StronglySorted (λ a b, b.2 ≤ a.2)%nat (sort_desc c).
Proof. apply (sort_desc_loop c []). constructor. Qed.

Lemma sort_desc_perm (c : list (A * nat)) : sort_desc c ≡ₚ c.
Proof. apply (sort_desc_loop c []). constructor. Qed.

Lemma StronglySorted_app_le (l1 l2 : list (A * nat)) :
  StronglySorted (λ a b, b.2 ≤ a.2)%nat (l1 ++ l2) →
  StronglySorted (λ a b, b.2 ≤ a.2)%nat l1
  ∧ ∀ a b, a ∈ l1 → b ∈ l2 → (b.2 ≤ a.2)%nat.
Proof.
  induction l1 as [|e l1 IH]; cbn; intros H.
  - split; [constructor|]. intros a b Ha. inversion Ha.
  - apply StronglySorted_inv in H as [Hs Hall].
    destruct (IH Hs) as [Hs1 Hle]. split.
    + constructor; [exact Hs1|]. now apply Forall_app in Hall as [? _].
    + intros a b Ha Hb. apply elem_of_cons in Ha as [->|Ha]; [|eauto].
      apply Forall_app in Hall as [_ Hall]. rewrite Forall_forall in Hall.
      now apply Hall.
Qed.

(** The [n] most common items of a list. *)
Lemma most_common_spec (n : nat) (xs : list A) :
  (length (most_common n (Counter xs)) ≤ n)%nat
  ∧ NoDup (most_common n (Counter xs)).*1
  ∧ StronglySorted (λ a b, b.2 ≤ a.2)%nat (most_common n (Counter xs))
  ∧ (∀ x k, (x, k) ∈ most_common n (Counter xs) →
            k = count_in x xs ∧ k ≠ 0%nat)
  ∧ (∀ x, x ∈ xs → x ∉ (most_common n (Counter xs)).*1 →
          ∀ y k, (y, k) ∈ most_common n (Counter xs) →
                 (count_in x xs ≤ k)%nat).
Proof.
  unfold most_common.
  pose proof (sort_desc_sorted (Counter xs)) as Hs.
  pose proof (sort_desc_perm (Counter xs)) as Hp.
  pose proof (Counter_NoDup xs) as Hnd.
  rewrite <- (take_drop n (sort_desc (Counter xs))) in Hs.
  apply StronglySorted_app_le in Hs as [Hs Hle].
  assert (Hnd' : NoDup (sort_desc (Counter xs)).*1) by now rewrite Hp.
  split_and!.
  - rewrite length_take. lia.
  - rewrite <- (take_drop n (sort_desc (Counter xs))), fmap_app in Hnd'.
    now apply NoDup_app in Hnd' as [? _].
  - exact Hs.
  - intros x k Hin. apply elem_of_Counter. rewrite <- Hp.
    rewrite <- (take_drop n (sort_desc (Counter xs))).
    apply elem_of_app. now left.
  - intros x Hx Hnot y k Hy.
    assert (Hc : (x, count_in x xs) ∈ sort_desc (Counter xs)).
    { rewrite Hp. apply elem_of_Counter. split; [done|].
      now apply count_in_pos. }
    rewrite <- (take_drop n (sort_desc (Counter xs))) in Hc.
    apply elem_of_app in Hc as [Hc|Hc].
    + exfalso. apply Hnot. apply list_elem_of_fmap.
      now exists (x, count_in x xs).
    + exact (Hle _ _ Hy Hc).
Qed.
End Generic.
End CounterFacts.

(** ** Totals of counted columns *)

Module TotalsFacts.

Section Generic.
Context {K : Type} `{EqDecision K} (cmp : K → K → comparison).

Lemma bump_sum (k : K) (s : list (K * nat)) :
  sum_list (bump cmp k s).*2 = S (sum_list s.*2).
Proof.
  induction s as [|[k0 n] s IH]; [done|]. cbn.
  destruct (cmp k k0); cbn; [done|done|]. rewrite IH. lia.
Qed.

(** The counts of a counted column add up to the number of rows that
    have a key. *)
Lemma groupby_size_sum (keys : list (option K)) :
  sum_list (groupby_size cmp keys).*2 = length (filter is_Some keys).
Proof.
  unfold groupby_size.
  assert (H : ∀ acc,
    sum_list (foldl (λ s k, match k with Some k => bump cmp k s | None => s end)
                    acc keys).*2
    = (sum_list acc.*2 + length (filter is_Some keys))%nat).
  { induction keys as [|o keys IH]; intros acc; cbn [foldl].
    - cbn. lia.
    - rewrite IH. destruct o as [k|].
      + rewrite bump_sum, filter_cons_True by eauto. cbn. lia.
      + rewrite filter_cons_False; [done|]. intros [? ?]. discriminate. }
  now rewrite H.
Qed.

Lemma occurrences_cons (l : K) (o : option K) (keys : list (option K)) :
  occurrences l (o :: keys)
  = ((if decide (o = Some l) then 1 else 0) + occurrences l keys)%nat.
Proof.
  unfold occurrences. destruct (decide (o = Some l)) as [->|Hne].
  - now rewrite filter_cons_True.
  - now rewrite filter_cons_False.
Qed.

Lemma sum_list_plus {X} (f g : X → nat) (xs : list X) :
  sum_list (map (λ x, f x + g x)%nat xs)
  = (sum_list (map f xs) + sum_list (map g xs))%nat.
Proof. induction xs as [|x xs IH]; [done|]. cbn. rewrite IH. lia. Qed.

Lemma sum_indicator (l0 : K) (labels : list K) :
  NoDup labels →
  sum_list (map (λ l, if decide (Some l0 = Some l) then 1 else 0)%nat labels)
  = if decide (l0 ∈ labels) then 1%nat else 0%nat.
Proof.
  induction 1 as [|l labels Hl Hnd IH]; cbn.
  - destruct (decide (l0 ∈ [])) as [H|H]; [inversion H|done].
  - rewrite IH.
    destruct (decide (Some l0 = Some l)) as [[= ->]|Hne].
    + rewrite (decide_False (P := l ∈ labels)) by done.
      destruct (decide (l ∈ l :: labels)) as [H|H]; [done|].
      exfalso. apply H. left.
    + destruct (decide (l0 ∈ labels)) as [Hin|Hnin];
        destruct (decide (l0 ∈ l :: labels)) as [H|H]; try done.
      * exfalso. apply H. now right.
      * exfalso. apply elem_of_cons in H as [->|?]; done.
Qed.

(** When every key is one of the labels, the numbers of occurrences of
    the labels add up to the number of keys: re-indexing by the labels
    loses no row. *)
Lemma sum_occurrences (labels : list K) (keys : list (option K)) :
  NoDup labels →
  Forall (λ o, ∃ l, o = Some l ∧ l ∈ labels) keys →
  sum_list (map (λ l, occurrences l keys) labels) = length keys.
Proof.
  intros Hnd. induction 1 as [|o keys (l0 & -> & Hl0) _ IH].
  - unfold occurrences. cbn. induction labels; [done|]. cbn.
    apply IHlabels. now apply NoDup_cons in Hnd as [_ ?].
  - rewrite (map_ext _ (λ l, (if decide (Some l0 = Some l) then 1 else 0)
                             + occurrences l keys)%nat)
      by (intros l; apply occurrences_cons).
    rewrite sum_list_plus, IH, sum_indicator by done.
    now rewrite decide_True.
Qed.
End Generic.

Lemma Timestamp_compare_eq (a b : Timestamp) :
  Timestamp_compare a b = Eq ↔ a = b.
Proof.
  unfold Timestamp_compare.
  rewrite (List.list_compare_refl Z.compare Z.compare_eq_iff).
  destruct a, b. cbn. split; [intros [= -> -> -> -> -> -> ->]|intros [=]];
    congruence.
Qed.

Lemma Timestamp_compare_antisym (a b : Timestamp) :
  Timestamp_compare b a = CompOpp (Timestamp_compare a b).
Proof.
  apply List.list_compare_antisym; [apply Z.compare_eq_iff|].
  intros x y. apply Z.compare_antisym.
Qed.

Lemma Z_compare_trans_any (x y z : Z) c :
  (x ?= y) = c → (y ?= z) = c → (x ?= z) = c.
Proof.
  destruct c.
  - rewrite !Z.compare_eq_iff. congruence.
  - rewrite !Z.compare_lt_iff. lia.
  - rewrite !Z.compare_gt_iff. lia.
Qed.

Lemma Timestamp_compare_trans (a b c : Timestamp) :
  Timestamp_compare a b = Lt → Timestamp_compare b c = Lt →
  Timestamp_compare a c = Lt.
Proof.
  apply List.list_compare_trans.
  - apply Z.compare_eq_iff.
  - intros x y z o. apply Z_compare_trans_any.
  - intros x y. apply Z.compare_antisym.
Qed.

Lemma NoDup_days_order : NoDup Analyzer.days_order.
Proof. apply (bool_decide_unpack _). vm_compute. reflexivity. Qed.

Lemma NoDup_months_order : NoDup Analyzer.months_order.
Proof. apply (bool_decide_unpack _). vm_compute. reflexivity. Qed.

(** A timestamp's weekday name is one of the seven names. *)
Lemma day_name_in_days_order (t : Timestamp) :
  day_name t ∈ Analyzer.days_order.
Proof.
  unfold day_name.
  pose proof (Z.mod_pos_bound
                (days_from_civil (year t) (month t) (day t) + 3) 7
                ltac:(lia)) as Hw.
  fold (weekday t) in Hw.
  assert (Hn : (Z.to_nat (weekday t) < 7)%nat) by lia.
  destruct (Z.to_nat (weekday t)) as [|[|[|[|[|[|[|n]]]]]]]; try lia;
    apply list_elem_of_In; vm_compute; tauto.
Qed.

(** A timestamp's month name is one of the twelve names when its month
    is a month of the calendar. *)
Lemma month_name_in_months_order (t : Timestamp) :
  1 ≤ month t ≤ 12 → month_name t ∈ Analyzer.months_order.
Proof.
  intros Hm. unfold month_name.
  assert (Hn : (Z.to_nat (month t - 1) < 12)%nat) by lia.
  destruct (Z.to_nat (month t - 1))
    as [|[|[|[|[|[|[|[|[|[|[|[|n]]]]]]]]]]]]; try lia;
    apply list_elem_of_In; vm_compute; tauto.
Qed.
End TotalsFacts.

(** ** More on the analyzer *)

Module AnalyzerExtras.
Import Analyzer AnalyzerFacts.

(** X6. [extract_emojis] works code point by code point: the emojis of
    two texts joined are the emojis of the first followed by those of the
    second; every item it returns is a one-character string of the text
    that is a key of the reference table, so a key of two or more code
    points is never returned; and it returns at most as many items as the
    text has characters. *)
Theorem X6_extract_emojis_by_code_point (EMOJI_DATA : table) :
  (∀ a b,
     extract_emojis EMOJI_DATA (Str (a ++ b))
     = extract_emojis EMOJI_DATA (Str a) ++ extract_emojis EMOJI_DATA (Str b))
  ∧ (∀ text e,
       e ∈ extract_emojis EMOJI_DATA (Str text) →
       ∃ ch, e = [ch] ∧ ch ∈ text ∧ is_emoji EMOJI_DATA [ch])
  ∧ (∀ text key,
       (2 ≤ length key)%nat → key ∉ extract_emojis EMOJI_DATA (Str text))
  ∧ ∀ text,
      (length (extract_emojis EMOJI_DATA (Str text)) ≤ length text)%nat.
Proof.
  assert (Hitem : ∀ text e,
            e ∈ extract_emojis EMOJI_DATA (Str text) →
            ∃ ch, e = [ch] ∧ ch ∈ text ∧ is_emoji EMOJI_DATA [ch]).
  { intros text e He. unfold extract_emojis in He.
    apply list_elem_of_filter in He as [Hemoji He].
    apply list_elem_of_fmap in He as (ch & -> & Hch). eauto. }
  split_and!.
  - intros a b. unfold extract_emojis. now rewrite map_app, filter_app.
  - exact Hitem.
  - intros text key Hlen Hin.
    destruct (Hitem text key Hin) as (ch & -> & _). cbn in Hlen. lia.
  - intros text. unfold extract_emojis.
    rewrite <- (length_map (λ ch, [ch]) text). apply length_filter.
Qed.

Section Load.
Context (fs : string → csv_file).

Ltac run_load :=
  unfold load_data, try_except, bind, gets, lift, raise, print, modify,
    the_df, ret; cbn.

(** X7. The direction column is needed but not checked: for a file with
    both checked columns and a datetime ['Message Date'] but no ['Type']
    column, [load_data] passes the check, reads the file, and raises
    [KeyError('Type')] after reporting it; [self.df] is left holding the
    whole table, unfiltered. *)
Theorem X7_type_column_is_not_checked (s : state) (d : DataFrame) :
  wf_state s →
  fs (csv_path s) = Parsed d →
  dtype_of d "Message Date" = Some datetime64 →
  "Text"%string ∈ column_names d →
  "Type"%string ∉ column_names d →
  ∃ s1,
    load_data fs s = (Raise (KeyError (py "Type")), s1)
    ∧ df s1 = Some d
    ∧ stdout s1 = stdout s ++ [ReadingCsv; ErrorLoading (KeyError (py "Type"))].
Proof.
  intros [Hdc Htc] Hf Hdt Htx Hty.
  assert (Hd : "Message Date"%string ∈ column_names d)
    by (eapply assoc_dtype_Some; exact Hdt).
  assert (Hnone : dtype_of d "Type" = None).
  { destruct (dtype_of d "Type") eqn:E; [|done].
    exfalso. apply Hty. eapply assoc_dtype_Some. exact E. }
  destruct s as [path odf oed dc tc out]. cbn in Hdc, Htc, Hf. subst dc tc.
  run_load. rewrite Hf. cbn. rewrite !decide_True by done. cbn.
  unfold getitem. rewrite Hdt. cbn. unfold dt_year. cbn. rewrite Hnone. cbn.
  eexists. split_and!; [reflexivity|reflexivity|]. cbn.
  now rewrite <- app_assoc.
Qed.

(** X8. The dates must have been parsed: for a file with both checked
    columns whose ['Message Date'] column is not a datetime column (pandas
    leaves dates it cannot parse as text), [load_data] raises
    [AttributeError] at [.dt] after reporting it, and [self.df] is left
    holding the whole table. *)
Theorem X8_dates_must_be_datetimes (s : state) (d : DataFrame) (dt : dtype) :
  wf_state s →
  fs (csv_path s) = Parsed d →
  dtype_of d "Message Date" = Some dt →
  dt ≠ datetime64 →
  "Text"%string ∈ column_names d →
  ∃ s1 msg,
    load_data fs s = (Raise (AttributeError msg), s1)
    ∧ df s1 = Some d
    ∧ stdout s1 = stdout s ++ [ReadingCsv; ErrorLoading (AttributeError msg)].
Proof.
  intros [Hdc Htc] Hf Hdt Hne Htx.
  assert (Hd : "Message Date"%string ∈ column_names d)
    by (eapply assoc_dtype_Some; exact Hdt).
  destruct s as [path odf oed dc tc out]. cbn in Hdc, Htc, Hf. subst dc tc.
  run_load. rewrite Hf. cbn. rewrite !decide_True by done. cbn.
  unfold getitem. rewrite Hdt. cbn. unfold dt_year. cbn.
  destruct dt; try done; cbn;
    (eexists _, _; split_and!; [reflexivity|reflexivity|]; cbn;
     now rewrite <- app_assoc).
Qed.
End Load.

Lemma X7_type_column_is_not_checked_witness :
  ∃ s1,
    load_data (Samples.holding Samples.no_type)
      (__init__ Samples.combined_path)
    = (Raise (KeyError (py "Type")), s1)
    ∧ df s1 = Some Samples.no_type.
Proof.
  assert (Hwf : wf_state (__init__ Samples.combined_path))
    by (split; reflexivity).
  assert (Htx : "Text"%string ∈ column_names Samples.no_type)
    by (apply list_elem_of_In; vm_compute; tauto).
  assert (Hty : "Type"%string ∉ column_names Samples.no_type).
  { intros H. apply list_elem_of_In in H. vm_compute in H.
    intuition discriminate. }
  destruct (X7_type_column_is_not_checked (Samples.holding Samples.no_type)
              (__init__ Samples.combined_path) Samples.no_type
              Hwf eq_refl eq_refl Htx Hty) as (s1 & Hrun & Hdf & _).
  exists s1. split; [exact Hrun|exact Hdf].
Defined.

Lemma X8_dates_must_be_datetimes_witness :
  ∃ s1 msg,
    load_data (Samples.holding Samples.undated)
      (__init__ Samples.combined_path)
    = (Raise (AttributeError msg), s1)
    ∧ df s1 = Some Samples.undated.
Proof.
  assert (Hwf : wf_state (__init__ Samples.combined_path))
    by (split; reflexivity).
  assert (Htx : "Text"%string ∈ column_names Samples.undated)
    by (apply list_elem_of_In; vm_compute; tauto).
  assert (Hne : object ≠ datetime64) by discriminate.
  destruct (X8_dates_must_be_datetimes (Samples.holding Samples.undated)
              (__init__ Samples.combined_path) Samples.undated object
              Hwf eq_refl eq_refl Hne Htx) as (s1 & msg & Hrun & Hdf & _).
  exists s1, msg. split; [exact Hrun|exact Hdf].
Defined.

(** X9. The statistics need the extraction to have run: on an analyzer
    that has loaded nothing [basic_stats] raises [TypeError], and on one
    that has loaded a table without an ['emoji_count'] column, as
    [load_data] leaves it unless the file itself has such a column, it
    raises [KeyError('emoji_count')]; in both cases nothing is printed and
    nothing is changed. *)
Theorem X9_statistics_need_extraction (s : state) :
  (df s = None →
   basic_stats s
   = (Raise (TypeError "'NoneType' object is not subscriptable"), s))
  ∧ ∀ d, df s = Some d → "emoji_count"%string ∉ column_names d →
         basic_stats s = (Raise (KeyError (py "emoji_count")), s).
Proof.
  split.
  - intros Hdf. destruct s as [path odf oed dc tc out]. cbn in Hdf. subst odf.
    reflexivity.
  - intros d Hdf Hcol.
    assert (Hnone : dtype_of d "emoji_count" = None).
    { destruct (dtype_of d "emoji_count") eqn:E; [|done].
      exfalso. apply Hcol. eapply assoc_dtype_Some. exact E. }
    destruct s as [path odf oed dc tc out]. cbn in Hdf. subst odf.
    unfold basic_stats, bind, the_df, gets, lift, ret, getitem. cbn.
    now rewrite Hnone.
Qed.

Lemma X9_statistics_need_extraction_witness :
  basic_stats (Samples.loaded_from Samples.inbox)
  = (Raise (KeyError (py "emoji_count")), Samples.loaded_from Samples.inbox).
Proof.
  destruct (X9_statistics_need_extraction (Samples.loaded_from Samples.inbox))
    as [_ H].
  apply (H (filtered Samples.inbox)); [vm_compute; reflexivity|].
  intros Hin. apply list_elem_of_In in Hin. vm_compute in Hin.
  intuition discriminate.
Defined.

Section Process.
Context (EMOJI_DATA : table).

Lemma getitem_processed_other d col :
  col ≠ "emojis"%string → col ≠ "emoji_count"%string →
  getitem (processed EMOJI_DATA d) col = getitem d col.
Proof.
  intros H1 H2. unfold getitem.
  rewrite (dtype_of_processed EMOJI_DATA d col H1 H2).
  destruct (dtype_of d col); [|reflexivity]. do 2 f_equal.
  unfold processed. cbn [rows]. rewrite map_map. apply map_ext. intros r.
  apply (field_with_emojis_other EMOJI_DATA col r H1 H2).
Qed.

(** X10. [process_emoji_data] adds to the table and takes nothing away:
    it keeps every row; every column other than ['emojis'] and
    ['emoji_count'] reads as before; and in every row ['emojis'] holds the
    list of the emojis of the row's text and ['emoji_count'] its
    length. *)
Theorem X10_extraction_adds_two_columns (s : state) (d : DataFrame) :
  wf_state s →
  df s = Some d →
  "Text"%string ∈ column_names d →
  is_Some (dtype_of d "Message Date") →
  Forall (λ r, is_date (field "Message Date" r)) (rows d) →
  ∃ s2 d2,
    process_emoji_data EMOJI_DATA s = (Ok tt, s2)
    ∧ df s2 = Some d2
    ∧ len d2 = len d
    ∧ (∀ col, col ≠ "emojis"%string → col ≠ "emoji_count"%string →
              getitem d2 col = getitem d col)
    ∧ map (field "emojis") (rows d2)
      = map (λ r, PyList (extract_emojis EMOJI_DATA (field "Text" r))) (rows d)
    ∧ map (field "emoji_count") (rows d2)
      = map (λ r, Int (Z.of_nat
                         (length (extract_emojis EMOJI_DATA (field "Text" r)))))
            (rows d).
Proof.
  intros Hwf Hdf Htx Hdt Hdates.
  eexists _, (processed EMOJI_DATA d).
  split; [exact (process_emoji_data_ok EMOJI_DATA s d Hwf Hdf Htx Hdt Hdates)|].
  split; [reflexivity|]. split_and!.
  - unfold len, processed. cbn. apply length_map.
  - intros col H1 H2. now apply getitem_processed_other.
  - unfold processed. cbn [rows]. rewrite map_map. apply map_ext. intros r.
    apply field_with_emojis_emojis.
  - unfold processed. cbn [rows]. rewrite map_map. apply map_ext. intros r.
    apply field_with_emojis_count.
Qed.

(** X11. Every record of the per-emoji table comes from a retained
    message: after a load that returned, each record that
    [process_emoji_data] builds carries the timestamp of a row of the
    loaded table, a timestamp of year 2024 of an outgoing message, with
    the hour, weekday name and month name of that timestamp, and its emoji
    is one of the emojis of that row's text. *)
Theorem X11_records_come_from_retained_rows
    (fs : string → csv_file) (s s1 : state) :
  wf_state s →
  load_data fs s = (Ok tt, s1) →
  ∃ d s2 ed,
    df s1 = Some d
    ∧ process_emoji_data EMOJI_DATA s1 = (Ok tt, s2)
    ∧ emoji_data s2 = Some ed
    ∧ Forall (λ x, ∃ r t,
                r ∈ rows d
                ∧ field "Message Date" r = Time t
                ∧ year t = 2024
                ∧ field "Type" r = Str (py "Outgoing")
                ∧ message_date x = Some t
                ∧ hour x = Some (Pandas.hour t)
                ∧ day_of_week x = Some (day_name t)
                ∧ month x = Some (month_name t)
                ∧ emoji x ∈ extract_emojis EMOJI_DATA (field "Text" r))
        (records ed).
Proof.
  intros Hwf Hload.
  destruct (load_data_ready fs s s1 Hwf Hload)
    as (d0 & _ & Hdf & _ & _ & Hwf1 & Htx & Hdt & Hdates).
  eexists (filtered d0), _, _. split; [exact Hdf|].
  split; [exact (process_emoji_data_ok EMOJI_DATA s1 (filtered d0)
                   Hwf1 Hdf Htx Hdt Hdates)|].
  split; [reflexivity|]. cbn [records].
  apply Forall_forall. intros x Hx. unfold emoji_records in Hx.
  apply list_elem_of_join in Hx as (l & Hx & Hl).
  apply list_elem_of_fmap in Hl as (r & -> & Hr).
  unfold row_records in Hx.
  apply list_elem_of_fmap in Hx as (e & -> & He).
  pose proof Hr as Hret. cbn [rows filtered] in Hret.
  apply list_elem_of_filter in Hret as [Hret _]. unfold retained in Hret.
  destruct (field "Message Date" r) as [| | | | | |t|] eqn:Ed;
    try discriminate Hret.
  destruct (field "Type" r) as [| |label| | | | |] eqn:Et;
    try discriminate Hret.
  apply andb_true_iff in Hret as [Hy Hlabel].
  apply Z.eqb_eq in Hy. apply bool_decide_eq_true in Hlabel. subst label.
  exists r, t. cbn. split_and!; auto.
Qed.
End Process.

Lemma X10_extraction_adds_two_columns_witness :
  ∃ s2 d2,
    process_emoji_data Samples.small_table
      (set_df (mkDataFrame Samples.dated_columns [Samples.outgoing_2024])
         (__init__ Samples.combined_path)) = (Ok tt, s2)
    ∧ df s2 = Some d2
    ∧ len d2 = 1%nat
    ∧ map (field "emoji_count") (rows d2) = [Int 3].
Proof.
  assert (Hwf : wf_state (set_df (mkDataFrame Samples.dated_columns
                                    [Samples.outgoing_2024])
                            (__init__ Samples.combined_path)))
    by (split; reflexivity).
  assert (Htx : "Text"%string
                ∈ column_names (mkDataFrame Samples.dated_columns
                                  [Samples.outgoing_2024]))
    by (apply list_elem_of_In; vm_compute; tauto).
  assert (Hdt : is_Some (dtype_of (mkDataFrame Samples.dated_columns
                                     [Samples.outgoing_2024])
                           "Message Date"))
    by (eexists; reflexivity).
  assert (Hdates : Forall (λ r, is_date (field "Message Date" r))
                     (rows (mkDataFrame Samples.dated_columns
                              [Samples.outgoing_2024])))
    by (repeat constructor).
  destruct (X10_extraction_adds_two_columns Samples.small_table _ _
              Hwf eq_refl Htx Hdt Hdates)
    as (s2 & d2 & Hrun & Hdf & Hlen & _ & _ & Hcount).
  exists s2, d2. split_and!; [exact Hrun|exact Hdf|exact Hlen|].
  rewrite Hcount. vm_compute. reflexivity.
Defined.

Lemma X11_records_come_from_retained_rows_witness :
  ∃ s2 ed,
    process_emoji_data Samples.small_table
      (Samples.loaded_from Samples.inbox) = (Ok tt, s2)
    ∧ emoji_data s2 = Some ed
    ∧ Forall (λ x, ∃ t, message_date x = Some t ∧ year t = 2024) (records ed).
Proof.
  assert (Hwf : wf_state (__init__ Samples.combined_path))
    by (split; reflexivity).
  assert (Hload : load_data (Samples.holding Samples.inbox)
                    (__init__ Samples.combined_path)
                  = (Ok tt, Samples.loaded_from Samples.inbox))
    by (vm_compute; reflexivity).
  destruct (X11_records_come_from_retained_rows Samples.small_table
              (Samples.holding Samples.inbox) _ _ Hwf Hload)
    as (d & s2 & ed & _ & Hrun & Hed & Hall).
  exists s2, ed. split_and!; [exact Hrun|exact Hed|].
  eapply Forall_impl; [exact Hall|].
  intros x (r & t & _ & _ & Hy & _ & Hm & _). eauto.
Defined.

Section Stats.
Context (EMOJI_DATA : table).

Local Abbreviation row_emojis := (row_emojis EMOJI_DATA).
Local Abbreviation processed := (processed EMOJI_DATA).

(** The flattened ['emojis'] column of the processed table. *)
Lemma all_emojis_processed (d : DataFrame) :
  all_emojis (processed d) = Ok (mjoin (map row_emojis (rows d))).
Proof.
  unfold all_emojis, getitem, dtype_of.
  cbn [columns rows Analyzer.processed].
  rewrite dtype_of_set_dtype_ne, dtype_of_set_dtype_eq by done.
  cbn. rewrite map_map.
  rewrite (apply_map_total py_iter _ row_emojis); [reflexivity|].
  apply Forall_forall. intros r _.
  fold (field "emojis" (with_emojis EMOJI_DATA r)).
  now rewrite field_with_emojis_emojis.
Qed.







(** X13. [top_emojis(n)] returns the [n] most used emojis with their
    counts.  On the table [process_emoji_data] stored it returns, without
    printing or changing anything, a list of at most [n] pairs, of
    exactly [n] when there are that many distinct emojis and of all of
    them otherwise; no emoji is listed twice; each listed count is the
    number of times the emoji occurs in the retained messages and is not
    zero; the counts never increase along the list; and an emoji that is
    used but not listed is used no more often than any listed one. *)
Theorem X13_top_emojis_are_the_most_used (n : nat) (s : state)
    (d : DataFrame) :
  df s = Some (processed d) →
  ∃ top,
    top_emojis n s = (Ok top, s)
    ∧ length top
      = (n `min` length (remove_dups (mjoin (map row_emojis (rows d)))))%nat
    ∧ NoDup top.*1
    ∧ StronglySorted (λ a b, b.2 ≤ a.2)%nat top
    ∧ (∀ x k, (x, k) ∈ top →
              k = count_in x (mjoin (map row_emojis (rows d))) ∧ k ≠ 0%nat)
    ∧ (∀ x, x ∈ mjoin (map row_emojis (rows d)) → x ∉ top.*1 →
            ∀ y k, (y, k) ∈ top →
                   (count_in x (mjoin (map row_emojis (rows d))) ≤ k)%nat).
Proof.
  intros Hdf. set (es := mjoin (map row_emojis (rows d))).
  exists (most_common n (Counter es)).
  destruct (CounterFacts.most_common_spec n es) as (_ & H2 & H3 & H4 & H5).
  split_and!; try assumption.
  - destruct s as [path odf oed dc tc out]. cbn in Hdf. subst odf.
    unfold top_emojis, bind, the_df, gets, lift, ret. cbn.
    now rewrite all_emojis_processed.
  - unfold most_common. rewrite length_take. f_equal.
    rewrite (CounterFacts.sort_desc_perm (Counter es)).
    rewrite <- (length_fmap fst (Counter es)).
    apply Permutation_length, NoDup_Permutation.
    + apply CounterFacts.Counter_NoDup.
    + apply NoDup_remove_dups.
    + intros x. rewrite elem_of_remove_dups, list_elem_of_fmap. split.
      * intros ([y k] & -> & Hin). cbn.
        apply CounterFacts.elem_of_Counter in Hin as [Hk Hnz].
        apply CounterFacts.count_in_pos. now rewrite <- Hk.
      * intros Hx. exists (x, count_in x es). split; [done|].
        apply CounterFacts.elem_of_Counter. split; [done|].
        now apply CounterFacts.count_in_pos.
Qed.
End Stats.


Lemma X13_top_emojis_are_the_most_used_witness :
  ∃ top,
    top_emojis 1
      (set_df (processed Samples.small_table
                 (mkDataFrame Samples.dated_columns [Samples.outgoing_2024]))
         (__init__ Samples.combined_path))
    = (Ok top,
       set_df (processed Samples.small_table
                 (mkDataFrame Samples.dated_columns [Samples.outgoing_2024]))
         (__init__ Samples.combined_path))
    ∧ length top = 1%nat.
Proof.
  destruct (X13_top_emojis_are_the_most_used Samples.small_table 1
              (set_df (processed Samples.small_table
                         (mkDataFrame Samples.dated_columns
                            [Samples.outgoing_2024]))
                 (__init__ Samples.combined_path))
              (mkDataFrame Samples.dated_columns [Samples.outgoing_2024])
              eq_refl)
    as (top & Hrun & Hlen & _).
  exists top. split; [exact Hrun|]. rewrite Hlen. vm_compute. reflexivity.
Defined.

Section Plots.

Lemma plot_usage_over_time_ok (s : state) (ed : EmojiFrame) :
  emoji_data s = Some ed →
  records ed ≠ [] →
  plot_usage_over_time s
  = (Ok tt,
     emit (Show (UsageOverTime
                   (groupby_size Timestamp_compare
                      (map message_date (records ed)))))
       (emit GeneratingUsageOverTime s)).
Proof.
  intros Hed Hne.
  destruct s as [path odf oed dc tc out]. cbn in Hed. subst oed.
  unfold plot_usage_over_time, bind, print, modify, the_emoji_data, gets,
    lift, ret. cbn.
  now rewrite AnalyzerClaims.column_nonempty by done.
Qed.

Lemma length_filter_is_Some {A B} (f : A → option B) (xs : list A) :
  Forall (λ x, is_Some (f x)) xs →
  length (filter is_Some (map f xs)) = length xs.
Proof.
  induction 1 as [|x xs Hx _ IH]; [done|]. cbn [map].
  rewrite filter_cons_True by done. cbn. now rewrite IH.
Qed.

Lemma sum_reindexed (labels : list pystr) (keys : list (option pystr)) :
  NoDup labels →
  Forall (λ o, ∃ l, o = Some l ∧ l ∈ labels) keys →
  sum_list (map (λ b, default 0%nat b.2)
              (reindex pystr_compare (groupby_size pystr_compare keys)
                 labels))
  = length keys.
Proof.
  intros Hnd Hall.
  rewrite (GroupByFacts.reindex_groupby_size pystr_compare
             GroupByFacts.pystr_compare_eq
             GroupByFacts.pystr_compare_antisym
             GroupByFacts.pystr_compare_trans).
  rewrite map_map. cbn [snd].
  rewrite (map_ext _ (λ l, occurrences l keys))
    by (intros l; apply GroupByFacts.default_some_if_pos).
  now apply TotalsFacts.sum_occurrences.
Qed.

(** X14. The three bar charts of [plot_time_patterns] count every record
    once.  When each record of the per-emoji table has the hour, weekday
    name and month name of a timestamp whose month is a month of the
    calendar, as the records [process_emoji_data] builds from parsed
    dates have, the heights of the hourly bars add up to the number of
    records, and so do the heights of the weekday bars and of the month
    bars, a missing bar counting for nothing: re-ordering by the fixed
    weekday and month names drops no record. *)
Theorem X14_time_charts_count_every_record (s : state) (ed : EmojiFrame) :
  emoji_data s = Some ed →
  records ed ≠ [] →
  Forall (λ x, ∃ t, hour x = Some (Pandas.hour t)
                    ∧ day_of_week x = Some (day_name t)
                    ∧ month x = Some (month_name t)
                    ∧ 1 ≤ Pandas.month t ≤ 12) (records ed) →
  ∃ hourly daily monthly,
    plot_time_patterns s
    = (Ok tt,
       emit (Show (TimePatterns hourly daily monthly))
         (emit GeneratingTimePatterns s))
    ∧ sum_list hourly.*2 = length (records ed)
    ∧ daily.*1 = days_order
    ∧ sum_list (map (λ b, default 0%nat b.2) daily) = length (records ed)
    ∧ monthly.*1 = months_order
    ∧ sum_list (map (λ b, default 0%nat b.2) monthly) = length (records ed).
Proof.
  intros Hed Hne Hall. eexists _, _, _.
  split; [exact (AnalyzerClaims.plot_time_patterns_ok s ed Hed Hne)|].
  split_and!.
  - rewrite TotalsFacts.groupby_size_sum. apply length_filter_is_Some.
    eapply Forall_impl; [exact Hall|]. intros x (t & -> & _). eauto.
  - unfold reindex. rewrite <- list_fmap_compose. apply list_fmap_id.
  - rewrite sum_reindexed, length_map;
      [reflexivity|apply TotalsFacts.NoDup_days_order|].
    apply Forall_fmap. eapply Forall_impl; [exact Hall|].
    intros x (t & _ & Hd & _). cbn. exists (day_name t).
    split; [exact Hd|apply TotalsFacts.day_name_in_days_order].
  - unfold reindex. rewrite <- list_fmap_compose. apply list_fmap_id.
  - rewrite sum_reindexed, length_map;
      [reflexivity|apply TotalsFacts.NoDup_months_order|].
    apply Forall_fmap. eapply Forall_impl; [exact Hall|].
    intros x (t & _ & _ & Hm & Hrange). cbn. exists (month_name t).
    split; [exact Hm|now apply TotalsFacts.month_name_in_months_order].
Qed.

(** X15. [plot_usage_over_time] groups by the full timestamp, not by the
    calendar day.  On a per-emoji table with a record it returns and shows
    one point for each distinct timestamp that has a record, in strictly
    ascending order of timestamp, with the number of records of exactly
    that timestamp; the counts add up to the number of records that have
    a timestamp. *)
Theorem X15_usage_points_are_per_timestamp (s : state) (ed : EmojiFrame) :
  emoji_data s = Some ed →
  records ed ≠ [] →
  ∃ points,
    plot_usage_over_time s
    = (Ok tt,
       emit (Show (UsageOverTime points)) (emit GeneratingUsageOverTime s))
    ∧ ascending Timestamp_compare points
    ∧ (∀ t n, (t, n) ∈ points
              ↔ n = occurrences t (map message_date (records ed))
                ∧ n ≠ 0%nat)
    ∧ sum_list points.*2
      = length (filter is_Some (map message_date (records ed))).
Proof.
  intros Hed Hne. eexists.
  split; [exact (plot_usage_over_time_ok s ed Hed Hne)|].
  split_and!.
  - apply (GroupByFacts.groupby_size_ascending Timestamp_compare
             TotalsFacts.Timestamp_compare_eq
             TotalsFacts.Timestamp_compare_antisym
             TotalsFacts.Timestamp_compare_trans).
  - intros t n.
    apply (GroupByFacts.elem_of_groupby_size Timestamp_compare
             TotalsFacts.Timestamp_compare_eq
             TotalsFacts.Timestamp_compare_antisym
             TotalsFacts.Timestamp_compare_trans).
  - apply TotalsFacts.groupby_size_sum.
Qed.

Lemma Counter_constant {A} `{EqDecision A} (u : A) (xs : list A) :
  Forall (λ x, x = u) xs →
  ∀ k, foldl (λ c x, count_one x c) [(u, k)] xs
       = [(u, (k + length xs)%nat)].
Proof.
  induction 1 as [|x xs -> _ IH]; intros k; cbn [foldl length].
  - now rewrite Nat.add_0_r.
  - cbn [count_one]. rewrite decide_True by done. rewrite IH.
    do 2 f_equal. lia.
Qed.

Lemma value_counts_constant {A} `{EqDecision A} (u : A) (xs : list A) :
  xs ≠ [] →
  Forall (λ x, x = u) xs →
  value_counts xs = [(u, length xs)].
Proof.
  intros Hne Hall. destruct xs as [|x xs]; [done|].
  apply Forall_cons in Hall as [-> Hall].
  unfold value_counts, Counter. cbn [foldl count_one].
  now rewrite (Counter_constant u xs Hall 1).
Qed.

Context (EMOJI_DATA : table).

(** X16. The pie chart of [analyze_categories] has one slice for each
    distinct category, largest first, and its slices add up to the number
    of records.  On a per-emoji table with a record, all of whose emojis
    are keys of the reference table, it returns, stores one category for
    each record leaving the records as they are, and shows the slices;
    and when no entry of the reference table has a ['category']
    attribute, the chart is the single slice ['Unknown'] holding every
    record. *)
Theorem X16_category_slices (s : state) (ed : EmojiFrame) :
  emoji_data s = Some ed →
  records ed ≠ [] →
  Forall (λ x, is_emoji EMOJI_DATA (emoji x)) (records ed) →
  ∃ s' slices cats,
    analyze_categories EMOJI_DATA s = (Ok tt, s')
    ∧ stdout s' = stdout s ++ [AnalyzingCategories; Show (Categories slices)]
    ∧ emoji_data s'
      = Some {| records := records ed; category := Some cats |}
    ∧ length cats = length (records ed)
    ∧ sum_list slices.*2 = length (records ed)
    ∧ NoDup slices.*1
    ∧ StronglySorted (λ a b, b.2 ≤ a.2)%nat slices
    ∧ (∀ c k, (c, k) ∈ slices ↔ k = count_in c cats ∧ k ≠ 0%nat)
    ∧ ((∀ c entry, EMOJI_DATA !! c = Some entry →
                   entry !! "category"%string = None) →
       slices = [(PStr (py "Unknown"), length (records ed))]).
Proof.
  intros Hed Hne Hknown.
  set (cats := map (λ x, spec_category EMOJI_DATA (emoji x)) (records ed)).
  eexists _, (value_counts cats), cats.
  split;
    [exact (AnalyzerClaims.analyze_categories_known EMOJI_DATA s ed
              Hed Hne Hknown)|].
  pose proof (CounterFacts.sort_desc_perm (Counter cats)) as Hperm.
  split_and!.
  - destruct s as [path odf oed dc tc out]. cbn.
    now rewrite <- app_assoc.
  - reflexivity.
  - unfold cats. apply length_map.
  - unfold value_counts. rewrite Hperm, CounterFacts.Counter_sum.
    unfold cats. apply length_map.
  - unfold value_counts. rewrite Hperm. apply CounterFacts.Counter_NoDup.
  - apply CounterFacts.sort_desc_sorted.
  - intros c k. unfold value_counts. rewrite Hperm.
    apply CounterFacts.elem_of_Counter.
  - intros Hnone.
    rewrite (value_counts_constant (PStr (py "Unknown")) cats).
    + unfold cats. now rewrite length_map.
    + unfold cats. destruct (records ed); [done|discriminate].
    + unfold cats. apply Forall_fmap.
      eapply Forall_impl; [exact Hknown|]. intros x [entry He]. cbn.
      unfold spec_category. rewrite He.
      now rewrite (Hnone _ _ He).
Qed.
End Plots.

Lemma X14_time_charts_count_every_record_witness :
  ∃ hourly daily monthly,
    plot_time_patterns Samples.processed_inbox
    = (Ok tt,
       emit (Show (TimePatterns hourly daily monthly))
         (emit GeneratingTimePatterns Samples.processed_inbox))
    ∧ sum_list hourly.*2 = 3%nat
    ∧ sum_list (map (λ b, default 0%nat b.2) daily) = 3%nat
    ∧ sum_list (map (λ b, default 0%nat b.2) monthly) = 3%nat.
Proof.
  assert (Hall : Forall (λ x, ∃ t, hour x = Some (Pandas.hour t)
                                   ∧ day_of_week x = Some (day_name t)
                                   ∧ month x = Some (month_name t)
                                   ∧ 1 ≤ Pandas.month t ≤ 12)
                   (emoji_records Samples.small_table
                      (filtered Samples.inbox))).
  { vm_compute emoji_records.
    repeat constructor;
      (exists Samples.new_year_2024; split_and!;
       [reflexivity|reflexivity|reflexivity|vm_compute; discriminate
       |vm_compute; discriminate]). }
  destruct (X14_time_charts_count_every_record Samples.processed_inbox
              {| records := emoji_records Samples.small_table
                              (filtered Samples.inbox);
                 category := None |}
              eq_refl ltac:(vm_compute; discriminate) Hall)
    as (hourly & daily & monthly & Hrun & Hh & _ & Hd & _ & Hm).
  exists hourly, daily, monthly. split_and!; assumption.
Defined.

Lemma X15_usage_points_are_per_timestamp_witness :
  ∃ points,
    plot_usage_over_time
      (set_emoji_data
         {| records := [record_at (Time Samples.new_year_2024) [Samples.wave];
                        record_at (Time (mkTimestamp 2024 1 1 18 0 0 0))
                          [Samples.wave]];
            category := None |}
         (__init__ Samples.combined_path))
    = (Ok tt,
       emit (Show (UsageOverTime points))
         (emit GeneratingUsageOverTime
            (set_emoji_data
               {| records :=
                    [record_at (Time Samples.new_year_2024) [Samples.wave];
                     record_at (Time (mkTimestamp 2024 1 1 18 0 0 0))
                       [Samples.wave]];
                  category := None |}
               (__init__ Samples.combined_path))))
    ∧ (Samples.new_year_2024, 1%nat) ∈ points
    ∧ (mkTimestamp 2024 1 1 18 0 0 0, 1%nat) ∈ points.
Proof.
  destruct (X15_usage_points_are_per_timestamp
              (set_emoji_data
                 {| records :=
                      [record_at (Time Samples.new_year_2024) [Samples.wave];
                       record_at (Time (mkTimestamp 2024 1 1 18 0 0 0))
                         [Samples.wave]];
                    category := None |}
                 (__init__ Samples.combined_path))
              _ eq_refl ltac:(discriminate))
    as (points & Hrun & _ & Hin & _).
  exists points. split_and!; [exact Hrun| |].
  - apply Hin. vm_compute. split; [reflexivity|discriminate].
  - apply Hin. vm_compute. split; [reflexivity|discriminate].
Defined.

Lemma X16_category_slices_witness :
  ∃ s' slices,
    analyze_categories Samples.small_table Samples.processed_inbox
    = (Ok tt, s')
    ∧ stdout s'
      = stdout Samples.processed_inbox
        ++ [AnalyzingCategories; Show (Categories slices)]
    ∧ sum_list slices.*2 = 3%nat.
Proof.
  assert (Hknown : Forall (λ x, is_emoji Samples.small_table (emoji x))
                     (emoji_records Samples.small_table
                        (filtered Samples.inbox))).
  { vm_compute emoji_records.
    repeat constructor; (eexists; vm_compute; reflexivity). }
  destruct (X16_category_slices Samples.small_table Samples.processed_inbox
              {| records := emoji_records Samples.small_table
                              (filtered Samples.inbox);
                 category := None |}
              eq_refl ltac:(vm_compute; discriminate) Hknown)
    as (s' & slices & cats & Hrun & Hout & _ & _ & Hsum & _).
  exists s', slices. split_and!; assumption.
Defined.

Section Run.
Context (EMOJI_DATA : table) (fs : string → csv_file).

Local Abbreviation row_emojis := (row_emojis EMOJI_DATA).
Local Abbreviation processed := (processed EMOJI_DATA).
Local Abbreviation emoji_records := (emoji_records EMOJI_DATA).

Lemma plot_top_emojis_processed (n : nat) (s : state) (d : DataFrame) :
  df s = Some (processed d) →
  plot_top_emojis n s
  = (Ok tt,
     emit (Show (TopEmojis n
                   (most_common n
                      (Counter (mjoin (map row_emojis (rows d))))).*1
                   (most_common n
                      (Counter (mjoin (map row_emojis (rows d))))).*2))
       (emit (GeneratingTop n) s)).
Proof.
  intros Hdf.
  destruct s as [path odf oed dc tc out]. cbn in Hdf. subst odf.
  unfold plot_top_emojis, top_emojis, bind, print, modify, the_df, gets,
    lift, ret. cbn.
  now rewrite all_emojis_processed.
Qed.

Lemma emoji_records_nil_iff (d : DataFrame) :
  emoji_records d = [] ↔ Forall (λ r, row_emojis r = []) (rows d).
Proof.
  unfold Analyzer.emoji_records.
  induction (rows d) as [|r rs IH]; [split; [constructor|done]|].
  change (mjoin (map (row_records EMOJI_DATA) (r :: rs)))
    with (row_records EMOJI_DATA r ++ mjoin (map (row_records EMOJI_DATA) rs)).
  rewrite Forall_cons, <- IH. unfold row_records at 1.
  destruct (row_emojis r) as [|e es]; cbn; split.
  - tauto.
  - now intros [_ ?].
  - discriminate.
  - now intros [? _].
Qed.

(** The run up to and including the first chart, for a file that
    parses with the columns the script uses. *)
Lemma main_prefix (s : state) (d0 : DataFrame) :
  wf_state s →
  fs (csv_path s) = Parsed d0 →
  dtype_of d0 "Message Date" = Some datetime64 →
  "Text"%string ∈ column_names d0 →
  is_Some (dtype_of d0 "Type") →
  rows (filtered d0) ≠ [] →
  ∃ s4 q,
    (print StartingAnalysis;;
     load_data fs;;
     process_emoji_data EMOJI_DATA;;
     basic_stats;;
     plot_top_emojis 25)%py s = (Ok tt, s4)
    ∧ truediv (Z.of_nat (messages_with_emojis EMOJI_DATA (filtered d0)))
              (Z.of_nat (len (filtered d0))) = Ok q
    ∧ df s4 = Some (processed (filtered d0))
    ∧ emoji_data s4
      = Some {| records := emoji_records (filtered d0); category := None |}
    ∧ stdout s4
      = stdout s
        ++ [StartingAnalysis; ReadingCsv;
            FoundOutgoing (len (filtered d0));
            ExtractingEmojis; ProcessingEmojiData;
            FoundEmojiUses (length (emoji_records (filtered d0)));
            StatsHeader;
            TotalEmojis (Z.of_nat (length (emoji_records (filtered d0))));
            UniqueEmojis
              (length (remove_dups
                         (mjoin (map row_emojis (rows (filtered d0))))));
            MessagesContaining
              (messages_with_emojis EMOJI_DATA (filtered d0));
            PercentageWithEmojis (q * 100)%Q;
            GeneratingTop 25;
            Show (TopEmojis 25
                    (most_common 25
                       (Counter
                          (mjoin (map row_emojis
                                    (rows (filtered d0)))))).*1
                    (most_common 25
                       (Counter
                          (mjoin (map row_emojis
                                    (rows (filtered d0)))))).*2)].
Proof.
  intros Hwf Hf Hdt Htx Hty Hrows.
  assert (Hwf0 : wf_state (emit StartingAnalysis s))
    by (destruct Hwf; split; assumption).
  pose proof (load_data_ok fs (emit StartingAnalysis s) d0 Hwf0 Hf Hdt Htx Hty)
    as Hload.
  destruct (load_data_ready fs _ _ Hwf0 Hload)
    as (d0' & Hf' & Hdf & _ & _ & Hwf1 & Htx1 & Hdt1 & Hdates).
  assert (d0' = d0) by (cbn in Hf'; congruence). subst d0'.
  pose proof (process_emoji_data_ok EMOJI_DATA _ (filtered d0)
                Hwf1 Hdf Htx1 Hdt1 Hdates) as Hproc.
  match type of Hproc with _ = (_, ?s2) =>
    pose proof (basic_stats_processed EMOJI_DATA s2 (filtered d0) eq_refl)
      as Hstats
  end.
  unfold truediv in Hstats |- *.
  assert (Hlen : len (filtered d0) ≠ 0%nat).
  { unfold len. destruct (rows (filtered d0)); [done|discriminate]. }
  destruct (Z.eqb_spec (Z.of_nat (len (filtered d0))) 0) as [Hz|Hnz]; [lia|].
  match type of Hstats with _ = (_, ?s3) =>
    pose proof (plot_top_emojis_processed 25 s3 (filtered d0) eq_refl)
      as Htop
  end.
  eexists _, _. split_and!.
  - erewrite PyFacts.bind_ok by reflexivity.
    erewrite PyFacts.bind_ok by exact Hload.
    erewrite PyFacts.bind_ok by exact Hproc.
    erewrite PyFacts.bind_ok by exact Hstats.
    exact Htop.
  - reflexivity.
  - reflexivity.
  - reflexivity.
  - destruct s as [path odf oed dc tc out]. cbn.
    rewrite <- !app_assoc. reflexivity.
Qed.

(** X17. A run over a usable file with at least one emoji completes.
    When the file parses, has a datetime ['Message Date'] column, a
    ['Text'] column and a ['Type'] column, and some retained message has
    an emoji, [main] returns, and what it prints after what was printed
    before is: the start line, the two loading lines, the three
    processing lines, the statistics, then the four charts in the order
    top emojis, time patterns, usage over time, categories, each after
    its heading, and the completion line; no error line is printed. *)
Theorem X17_run_completes (s : state) (d0 : DataFrame) :
  wf_state s →
  fs (csv_path s) = Parsed d0 →
  dtype_of d0 "Message Date" = Some datetime64 →
  "Text"%string ∈ column_names d0 →
  is_Some (dtype_of d0 "Type") →
  (∃ r, r ∈ rows d0 ∧ retained r = true ∧ row_emojis r ≠ []) →
  ∃ s' q top hourly daily monthly points slices,
    main EMOJI_DATA fs s = (Ok tt, s')
    ∧ stdout s'
      = stdout s
        ++ [StartingAnalysis; ReadingCsv;
            FoundOutgoing (len (filtered d0));
            ExtractingEmojis; ProcessingEmojiData;
            FoundEmojiUses (length (emoji_records (filtered d0)));
            StatsHeader;
            TotalEmojis (Z.of_nat (length (emoji_records (filtered d0))));
            UniqueEmojis
              (length (remove_dups
                         (mjoin (map row_emojis (rows (filtered d0))))));
            MessagesContaining
              (messages_with_emojis EMOJI_DATA (filtered d0));
            PercentageWithEmojis q;
            GeneratingTop 25; Show (TopEmojis 25 top.*1 top.*2);
            GeneratingTimePatterns;
            Show (TimePatterns hourly daily monthly);
            GeneratingUsageOverTime; Show (UsageOverTime points);
            AnalyzingCategories; Show (Categories slices);
            AnalysisComplete]
    ∧ df s' = Some (processed (filtered d0))
    ∧ (∃ cats, emoji_data s'
               = Some {| records := emoji_records (filtered d0);
                         category := Some cats |}).
Proof.
  intros Hwf Hf Hdt Htx Hty (r & Hr & Hret & Hemo).
  assert (Hin : r ∈ rows (filtered d0))
    by (cbn [rows filtered]; apply list_elem_of_filter; split; assumption).
  assert (Hrows : rows (filtered d0) ≠ [])
    by (intros E; rewrite E in Hin; inversion Hin).
  assert (Hne : emoji_records (filtered d0) ≠ []).
  { intros E. apply emoji_records_nil_iff in E.
    rewrite Forall_forall in E. exact (Hemo (E r Hin)). }
  destruct (main_prefix s d0 Hwf Hf Hdt Htx Hty Hrows)
    as (s4 & q & Hrun & _ & Hdf & Hed & Hout).
  pose proof (AnalyzerClaims.plot_time_patterns_ok s4 _ Hed Hne) as Htime.
  match type of Htime with _ = (_, ?s5) =>
    pose proof (plot_usage_over_time_ok s5 _ Hed Hne) as Husage
  end.
  match type of Husage with _ = (_, ?s6) =>
    pose proof (AnalyzerClaims.analyze_categories_known EMOJI_DATA s6 _
                  Hed Hne
                  (AnalyzerClaims.emoji_records_known EMOJI_DATA
                     (filtered d0))) as Hcat
  end.
  eexists _, (q * 100)%Q, _, _, _, _, _, _. split_and!.
  - unfold main, try_except. unfold bind in Hrun |- *.
    destruct (print StartingAnalysis s) as [[[]|e0] s0]; [|discriminate].
    destruct (load_data fs s0) as [[[]|e1] s1]; [|discriminate].
    destruct (process_emoji_data EMOJI_DATA s1) as [[[]|e2] s2];
      [|discriminate].
    destruct (basic_stats s2) as [[[]|e3] s3]; [|discriminate].
    rewrite Hrun. cbn [records] in Htime, Husage, Hcat.
    rewrite Htime, Husage, Hcat. reflexivity.
  - cbn. rewrite Hout, <- !app_assoc. reflexivity.
  - cbn. exact Hdf.
  - eexists. reflexivity.
Qed.

End Run.

Lemma X17_run_completes_witness :
  ∃ s',
    main Samples.small_table (Samples.holding Samples.inbox)
      (__init__ Samples.combined_path) = (Ok tt, s')
    ∧ last (stdout s') = Some AnalysisComplete
    ∧ length (omap figure_of (stdout s')) = 4%nat.
Proof.
  assert (Hwf : wf_state (__init__ Samples.combined_path))
    by (split; reflexivity).
  assert (Htx : "Text"%string ∈ column_names Samples.inbox)
    by (apply list_elem_of_In; vm_compute; tauto).
  assert (Hty : is_Some (dtype_of Samples.inbox "Type"))
    by (eexists; reflexivity).
  assert (Hemo : ∃ r, r ∈ rows Samples.inbox ∧ retained r = true
                      ∧ Analyzer.row_emojis Samples.small_table r ≠ []).
  { exists Samples.outgoing_2024. split_and!.
    - apply list_elem_of_In. cbn. tauto.
    - vm_compute. reflexivity.
    - vm_compute. discriminate. }
  destruct (X17_run_completes Samples.small_table
              (Samples.holding Samples.inbox)
              (__init__ Samples.combined_path) Samples.inbox
              Hwf eq_refl eq_refl Htx Hty Hemo)
    as (s' & q & top & hourly & daily & monthly & points & slices
        & Hrun & Hout & _).
  exists s'. split_and!; [exact Hrun| |]; rewrite Hout; reflexivity.
Defined.


Section Unreadable.
Context (EMOJI_DATA : table) (fs : string → csv_file).

(** X19. A file that cannot be read ends the run with the error of the
    read, reported twice.  When the first read, of the header, raises
    [e], [main] prints the start line, the loading error, the analysis
    error and the advice, and raises [e]; when the header has both
    checked columns and the second read, of the whole file, raises [e],
    the line ['Reading CSV file...'] comes before the same three lines.
    In both cases no table is stored and no statistics or chart is
    produced. *)
Theorem X19_unreadable_file_is_reported_twice (s : state) (e : Exception) :
  wf_state s →
  (fs (csv_path s) = Unreadable e →
   main EMOJI_DATA fs s
   = (Raise e,
      emit PleaseCheck
        (emit (ErrorDuringAnalysis e)
           (emit (ErrorLoading e) (emit StartingAnalysis s)))))
  ∧ (∀ header,
       fs (csv_path s) = BadBody header e →
       "Message Date"%string ∈ header →
       "Text"%string ∈ header →
       main EMOJI_DATA fs s
       = (Raise e,
          emit PleaseCheck
            (emit (ErrorDuringAnalysis e)
               (emit (ErrorLoading e)
                  (emit ReadingCsv (emit StartingAnalysis s)))))).
Proof.
  intros [Hdc Htc]. split.
  - intros Hf. apply main_load_raise.
    apply load_data_header_raise. cbn. now rewrite Hf.
  - intros header Hf Hd Ht. apply main_load_raise.
    destruct s as [path odf oed dc tc out]. cbn in Hdc, Htc, Hf. subst dc tc.
    unfold load_data, try_except, bind, gets, lift, raise, print, modify,
      the_df, ret; cbn.
    rewrite Hf. cbn. rewrite !decide_True by done. reflexivity.
Qed.
End Unreadable.

Lemma X19_unreadable_file_is_reported_twice_witness :
  run Samples.small_table (λ _, Unreadable (OSError "No such file or directory"))
  = (Raise (OSError "No such file or directory"),
     {| csv_path := "./messages/combined_messages.csv";
        df := None; emoji_data := None;
        date_column := "Message Date"; text_column := "Text";
        stdout := [StartingAnalysis;
                   ErrorLoading (OSError "No such file or directory");
                   ErrorDuringAnalysis (OSError "No such file or directory");
                   PleaseCheck] |}).
Proof.
  destruct (X19_unreadable_file_is_reported_twice Samples.small_table
              (λ _, Unreadable (OSError "No such file or directory"))
              (__init__ "./messages/combined_messages.csv")
              (OSError "No such file or directory")
              (conj eq_refl eq_refl)) as [H _].
  unfold run. rewrite (H eq_refl). reflexivity.
Defined.

End AnalyzerExtras.
